(** * Question-batch runners for a local inference server

    A shallow embedding of the two runner scripts

      - [src/math/test.py]   (single-shot runner: one completion per question)
      - [src/scripts/cot.py] (chained runner: five completions fed back in turn)

    and of the Python built-ins they rely on.  Text is a [string] of bytes: the
    patterns and separators the scripts look for are all ASCII, so on UTF-8
    text the byte-wise scans below find exactly what the code-point-wise scans
    of Python find, and byte-wise lexicographic order is code-point order.
    Floating-point quantities (clock readings, the temperature) are rationals;
    no property below depends on their rounding.

    A run is a computation over an explicit state (the directories, the
    requests sent so far, the readings of the clock, the writes) that may
    raise; the endpoint and the clock are oracles.  What the endpoint sends
    in its [response] field is any JSON value, and so is a completion: the
    scripts do not check it.  Numbers are taken without rounding and without
    overflow.  Of the progress lines that the scripts print only what can
    raise is kept, and of what a script prints only its last line.  An input
    directory holds readable text files; creating a directory and writing a
    file succeed. *)

From Stdlib Require Import QArith Qround Ascii String.
From stdpp Require Import base strings list gmap sorting pretty.

Local Open Scope Z_scope.
Local Open Scope nat_scope.

(** ** Python built-ins *)

Module Py.

(** *** Exceptions and results *)

(** The exception classes that occur in the scripts and in the libraries they
    call.  All of them derive from [Exception]. *)
Inductive exn_class :=
| FileNotFoundError
| ValueError
| ConnectionError      (* requests.exceptions.ConnectionError *)
| ConnectTimeout       (* subclass of ConnectionError and of Timeout *)
| ReadTimeout          (* subclass of Timeout only *)
| JSONDecodeError
| AttributeError
| TypeError
| ZeroDivisionError
| IndexError
| OtherException.

Record exn := Exn { exn_cls : exn_class; exn_msg : string }.

(** [isinstance(e, requests.exceptions.ConnectionError)] *)
Definition is_connection_error (e : exn) : bool :=
  match exn_cls e with
  | ConnectionError | ConnectTimeout => true
  | _ => false
  end.

(** [str(e)] *)
Definition str_exn (e : exn) : string := exn_msg e.

Inductive result (A : Type) :=
| Ok (a : A)
| Raise (e : exn).
Global Arguments Ok {A} a.
Global Arguments Raise {A} e.

(** *** Strings *)

Definition LF : ascii := "010"%char.

(** [s[n:]] and [s[:n]] for [0 <= n]. *)
Fixpoint drop (n : nat) (s : string) : string :=
  match n, s with
  | S k, String _ s' => drop k s'
  | _, _ => s
  end.

Fixpoint take (n : nat) (s : string) : string :=
  match n, s with
  | S k, String a s' => String a (take k s')
  | _, _ => ""
  end.

(** [s.startswith(p)] and [s.endswith(p)] *)
Definition startswith (s p : string) : bool := String.prefix p s.

Definition endswith (s suffix : string) : bool :=
  bool_decide (String.length suffix ≤ String.length s)
  && bool_decide (drop (String.length s - String.length suffix) s = suffix).

(** [s.rfind(c)] for a one-character [c]: the highest index of [c], or -1. *)
Fixpoint rfind (c : ascii) (s : string) : Z :=
  match s with
  | "" => (-1)%Z
  | String a s' =>
      let r := rfind c s' in
      if bool_decide (0 ≤ r)%Z then (r + 1)%Z
      else if bool_decide (a = c) then 0%Z else (-1)%Z
  end.

(** [s.find(p)]: the lowest index at which [p] occurs in [s]. *)
Fixpoint find (p s : string) : option nat :=
  if startswith s p then Some 0
  else match s with
       | "" => None
       | String _ s' => S <$> find p s'
       end.

(** [str.isspace] on the ASCII range. *)
Definition is_space (a : ascii) : bool :=
  match a with
  | "009" | "010" | "011" | "012" | "013"
  | "028" | "029" | "030" | "031" | " " => true
  | _ => false
  end%char.

(** The white-space characters beyond the ASCII range, as UTF-8 has them:
    U+0085 and U+00A0 in two bytes; U+1680, U+2000 to U+200A, U+2028,
    U+2029, U+202F, U+205F and U+3000 in three. *)
Definition is_space2 (a b : ascii) : bool :=
  bool_decide (nat_of_ascii a = 194)
  && (bool_decide (nat_of_ascii b = 133) || bool_decide (nat_of_ascii b = 160)).

Definition is_space3 (a b c : ascii) : bool :=
  let x := nat_of_ascii a in
  let y := nat_of_ascii b in
  let z := nat_of_ascii c in
  bool_decide (x = 225 ∧ y = 154 ∧ z = 128)
  || bool_decide (x = 226 ∧ y = 128 ∧ (128 ≤ z ≤ 138 ∨ z = 168 ∨ z = 169 ∨ z = 175))
  || bool_decide (x = 226 ∧ y = 129 ∧ z = 159)
  || bool_decide (x = 227 ∧ y = 128 ∧ z = 128).

(** The white space at the front of a text goes; [two] and [three] tell the
    white-space characters of two and of three bytes.  In UTF-8 the bytes
    of a character are not the bytes of another one, nor a part of them, so
    the bytes that go are those of the characters that [str.strip] takes
    off. *)
Section Strip.
Context (two : ascii → ascii → bool) (three : ascii → ascii → ascii → bool).

Fixpoint strip_go (s : string) : string :=
  match s with
  | String a s1 =>
      if is_space a then strip_go s1
      else
        match s1 with
        | String b s2 =>
            if two a b then strip_go s2
            else
              match s2 with
              | String c s3 => if three a b c then strip_go s3 else s
              | "" => s
              end
        | "" => s
        end
  | "" => ""
  end.
End Strip.

(** [s.lstrip()] *)
Definition lstrip (s : string) : string := strip_go is_space2 is_space3 s.

(** [s.rstrip()]: from the end, where the bytes of a character come last
    byte first. *)
Definition rstrip (s : string) : string :=
  String.rev (strip_go (λ b a, is_space2 a b) (λ c b a, is_space3 a b c) (String.rev s)).

(** [s.strip()] *)
Definition strip (s : string) : string := rstrip (lstrip s).

(** [s == '/' * len(s)] *)
Fixpoint all_slashes (s : string) : bool :=
  match s with
  | "" => true
  | String a s' => bool_decide (a = "/"%char) && all_slashes s'
  end.

Fixpoint lstrip_slashes (s : string) : string :=
  match s with
  | String a s' => if bool_decide (a = "/"%char) then lstrip_slashes s' else s
  | "" => ""
  end.

(** [s.rstrip('/')] *)
Definition rstrip_slashes (s : string) : string :=
  String.rev (lstrip_slashes (String.rev s)).

(** [all(c == '.' for c in s)] *)
Fixpoint all_dots (s : string) : bool :=
  match s with
  | "" => true
  | String a s' => bool_decide (a = "."%char) && all_dots s'
  end.

(** [os.path.splitext] (posixpath): split at the last dot of the last path
    component, unless that component consists of leading dots up to there.
    The [while] loop of [genericpath._splitext] looks for a character other
    than a dot in [p[sepIndex+1:dotIndex]]. *)
Definition splitext (p : string) : string * string :=
  let sepIndex := rfind "/" p in
  let dotIndex := rfind "." p in
  if bool_decide (sepIndex < dotIndex)%Z then
    let filenameIndex := Z.to_nat (sepIndex + 1) in
    if all_dots (take (Z.to_nat dotIndex - filenameIndex) (drop filenameIndex p))
    then (p, "")
    else (take (Z.to_nat dotIndex) p, drop (Z.to_nat dotIndex) p)
  else (p, "").

(** [len(s)]: the characters of a text in UTF-8 are its bytes other than
    the continuation bytes. *)
Fixpoint code_points (s : string) : nat :=
  match s with
  | "" => 0
  | String a s' =>
      (if bool_decide (128 ≤ nat_of_ascii a < 192) then 0 else 1) + code_points s'
  end.

(** [os.path.split] (posixpath): the path up to its last slash, without the
    slashes at its end unless it consists of slashes, and what is behind
    that slash. *)
Definition path_split (p : string) : string * string :=
  let i := Z.to_nat (rfind "/" p + 1) in
  let head := take i p in
  let tail := drop i p in
  (if negb (bool_decide (head = "")) && negb (all_slashes head)
   then rstrip_slashes head else head,
   tail).

(** [os.path.join(a, b)] (posixpath, two arguments) *)
Definition path_join (a b : string) : string :=
  if startswith b "/" then b
  else if bool_decide (a = "") || endswith a "/" then a +:+ b
  else a +:+ "/" +:+ b.

(** *** Sorting *)

(** [sorted(l, key=key)] on string keys.  Python's sort is stable, and a
    stable sort is determined by its input; it is written here as an
    insertion from the right that stops in front of the first element whose
    key is not smaller. *)
Section Sorted.
Context {A : Type} (key : A → string).

Fixpoint insert_sorted (x : A) (l : list A) : list A :=
  match l with
  | [] => [x]
  | y :: l' =>
      if bool_decide (key x ≤ key y)%string then x :: l
      else y :: insert_sorted x l'
  end.

Definition sorted (l : list A) : list A := foldr insert_sorted [] l.
End Sorted.

End Py.

(** ** Regular-expression substitutions of [preprocess_markdown] *)

Module Re.
Import Py.

(** [re.sub(pattern, '', s)] for a pattern that cannot match the empty
    string and that inspects nothing in front of the match: [matcher t] is
    the length of the match of the pattern at the start of [t], if there is
    one.  The scan goes left to right; after a match it resumes behind it
    ([skip] counts the characters of the match still to be dropped). *)
Fixpoint sub_go (matcher : string → option nat) (skip : nat) (s : string) : string :=
  match s with
  | "" => ""
  | String a s' =>
      match skip with
      | S k => sub_go matcher k s'
      | 0 =>
          match matcher s with
          | Some (S k) => sub_go matcher k s'
          | _ => String a (sub_go matcher 0 s')
          end
      end
  end.

Definition sub (matcher : string → option nat) (s : string) : string :=
  sub_go matcher 0 s.

(** [[a-zA-Z0-9]] *)
Definition is_alnum (a : ascii) : bool :=
  let n := nat_of_ascii a in
  bool_decide (48 ≤ n ≤ 57) || bool_decide (65 ≤ n ≤ 90) || bool_decide (97 ≤ n ≤ 122).

(** The longest run matched by [[a-zA-Z0-9]*]. *)
Fixpoint alnum_run (s : string) : nat :=
  match s with
  | String a s' => if is_alnum a then S (alnum_run s') else 0
  | "" => 0
  end.

Definition fence : string := "```".
Definition closing : string := String LF fence.

(** The pattern [```[a-zA-Z0-9]*\n[\s\S]*?\n```].  A shorter run of
    alphanumerics is followed by an alphanumeric, never by the line feed, so
    only the longest run can succeed; the lazy [[\s\S]*?] stops at the first
    line feed that is followed by three backticks. *)
Definition match_fenced (s : string) : option nat :=
  if startswith s fence then
    let s1 := drop 3 s in
    let k := alnum_run s1 in
    match drop k s1 with
    | String c s3 =>
        if bool_decide (c = LF)
        then (λ j, 3 + k + 1 + j + 4) <$> find closing s3
        else None
    | "" => None
    end
  else None.

(** The pattern [<[^>]*>]: from a [<] to the first [>] behind it. *)
Definition match_tag (s : string) : option nat :=
  match s with
  | String a s' =>
      if bool_decide (a = "<"%char) then (λ j, 1 + j + 1) <$> find ">" s' else None
  | "" => None
  end.

(** The pattern [(?m)^    .*$]: a line that starts with four spaces, up to
    but not including its line feed.  [^] holds at the start of the text and
    behind every line feed. *)
Inductive line_mode :=
| LineStart      (* [^] holds here *)
| InLine         (* inside a line that is kept *)
| Dropping.      (* inside a match: the rest of the line goes *)

Fixpoint sub_indented_go (m : line_mode) (s : string) : string :=
  match s with
  | "" => ""
  | String a s' =>
      let next := if bool_decide (a = LF) then LineStart else InLine in
      match m with
      | Dropping =>
          if bool_decide (a = LF) then String a (sub_indented_go LineStart s')
          else sub_indented_go Dropping s'
      | LineStart =>
          if startswith s "    " then sub_indented_go Dropping s'
          else String a (sub_indented_go next s')
      | InLine => String a (sub_indented_go next s')
      end
  end.

Definition sub_indented (s : string) : string := sub_indented_go LineStart s.

End Re.

(** [preprocess_markdown] (the same text in both scripts) *)
Definition preprocess_markdown (text : string) (strip_codeblocks strip_html : bool) : string :=
  if negb strip_codeblocks && negb strip_html then text
  else
    let processed_text := text in
    let processed_text :=
      if strip_codeblocks
      then Re.sub_indented (Re.sub Re.match_fenced processed_text)
      else processed_text in
    let processed_text :=
      if strip_html then Re.sub Re.match_tag processed_text else processed_text in
    processed_text.

(** ** The world of a run *)

(** JSON values: request payloads, the files the runners write, and the
    values that [response.json()] makes of what the endpoint sends: [None],
    a [bool], an [int], a [float], a [str], a [list] or a [dict]. *)
#[local] Set Warnings "-register-all".
Inductive json :=
| JNull
| JBool (b : bool)
| JInt (z : Z)
| JFloat (q : Q)
| JStr (s : string)
| JList (l : list json)
| JDict (fields : list (string * json)).

(** [type(v).__name__] *)
Definition type_name (v : json) : string :=
  match v with
  | JNull => "NoneType"
  | JBool _ => "bool"
  | JInt _ => "int"
  | JFloat _ => "float"
  | JStr _ => "str"
  | JList _ => "list"
  | JDict _ => "dict"
  end.

(** [v == s] for a string [s] *)
Definition is_str (s : string) (v : json) : bool :=
  match v with
  | JStr s' => bool_decide (s' = s)
  | _ => false
  end.

(** [', '.join(l)]: only a list of strings can be joined. *)
Fixpoint join_from (i : nat) (l : list json) : Py.result string :=
  match l with
  | [] => Py.Ok ""
  | v :: l' =>
      match v with
      | JStr s =>
          match join_from (S i) l' with
          | Py.Ok rest =>
              Py.Ok (match l' with [] => s | _ :: _ => s +:+ ", " +:+ rest end)
          | Py.Raise e => Py.Raise e
          end
      | _ =>
          Py.Raise (Py.Exn Py.TypeError
                      ("sequence item " +:+ pretty i +:+ ": expected str instance, "
                       +:+ type_name v +:+ " found"))
      end
  end.

Definition join (l : list json) : Py.result string := join_from 0 l.

(** [len(v)] *)
Definition len (v : json) : Py.result nat :=
  match v with
  | JStr s => Py.Ok (Py.code_points s)
  | JList l => Py.Ok (length l)
  | JDict fields => Py.Ok (size (list_to_set fields.*1 : gset string))
  | _ =>
      Py.Raise (Py.Exn Py.TypeError
                  ("object of type '" +:+ type_name v +:+ "' has no len()"))
  end.

(** [v[:n]]: a string and a list have slices.  A dict has none: the slice is
    taken for a key, which fails as a slice cannot be hashed (from Python
    3.12 on it can, and the failure is the [KeyError] of a key that is
    missing). *)
Definition has_slice (v : json) : Py.result unit :=
  match v with
  | JStr _ | JList _ => Py.Ok ()
  | JDict _ => Py.Raise (Py.Exn Py.TypeError "unhashable type: 'slice'")
  | _ =>
      Py.Raise (Py.Exn Py.TypeError
                  ("'" +:+ type_name v +:+ "' object is not subscriptable"))
  end.

(** What [requests.post] / [requests.get] hand back, or raise. *)
Inductive http (A : Type) :=
| HttpRaises (e : Py.exn)
| HttpReturns (r : A).
Arguments HttpRaises {A} e.
Arguments HttpReturns {A} r.

(** A response of the generation endpoint.  [json_response] is
    [response.json().get('response')]: it raises when the body is not JSON or
    not an object, is [None] when the object has no [response] field, and is
    the value of that field otherwise, whatever it is. *)
Record generate_response := {
  status_code : nat;
  text : string;
  json_response : Py.result (option json)
}.

(** A response of the model-listing endpoint.  [tags_models] is
    [[model['name'] for model in response.json().get('models', [])]]: it
    raises when the body is not JSON or not an object, when [models] cannot
    be iterated over or when one of the models has no [name]; the names are
    the values that the body holds. *)
Record tags_response := {
  tags_status_code : nat;
  tags_models : Py.result (list json)
}.

Inductive request :=
| Post (url : string) (payload : gmap string json) (timeout : nat)
| Get (url : string) (timeout : nat).

(** The surroundings of a run, which the scripts only observe: how the
    endpoint answers a request given the requests that came before it, and
    what the clock shows at its n-th reading. *)
Record Env := {
  post : list request → request → http generate_response;
  get : list request → request → http tags_response;
  clock : nat → Q
}.

(** What a run changes.  A directory is the list of its entries, file name and
    decoded text, in the order in which the file system enumerates them; an
    input directory is flat and holds text files.  Written files are kept as
    the sequence of writes. *)
Record State := {
  dirs : gmap string (list (string * string));
  requests : list request;
  ticks : nat;
  written : list (string * json)
}.

(** Computations that read and change the state and may raise. *)
Definition M (A : Type) : Type := State → Py.result A * State.

Global Instance M_ret : MRet M := λ A a st, (Py.Ok a, st).
Global Instance M_bind : MBind M := λ A B f m st,
  match m st with
  | (Py.Ok a, st') => f a st'
  | (Py.Raise e, st') => (Py.Raise e, st')
  end.

Definition raise {A} (e : Py.exn) : M A := λ st, (Py.Raise e, st).

(** [try: body except Exception as e: handler e] *)
Definition try_except {A} (body : M A) (handler : Py.exn → M A) : M A := λ st,
  match body st with
  | (Py.Raise e, st') => handler e st'
  | r => r
  end.

Definition lift {A} (r : Py.result A) : M A := λ st, (r, st).

Section Primitives.
Context (env : Env).

(** [os.path.exists(path)] for a directory path *)
Definition os_path_exists (path : string) : M bool := λ st,
  (Py.Ok (bool_decide (is_Some (dirs st !! path))), st).

(** [os.makedirs(name)]: the path is taken apart with [os.path.split]; the
    directory in front of its last component is made first, in the same
    way, when it is missing, then the directory itself.  A directory that
    is made is empty, and it is not entered in the listing of the directory
    it lies in: a listing holds the text files only.  A path names its directory as it is written: two
    spellings of one directory are not brought together, and with [xxx/.]
    made, [xxx/.] is there as well as [xxx].  The recursion ends as the
    path gets shorter; [fuel] bounds it. *)
Definition makedirs_split (name : string) : string * string :=
  let '(head, tail) := Py.path_split name in
  if bool_decide (tail = "") then Py.path_split head else (head, tail).

Fixpoint makedirs (fuel : nat) (name : string)
    (directories : gmap string (list (string * string)))
    : gmap string (list (string * string)) :=
  let '(head, tail) := makedirs_split name in
  let directories :=
    match fuel with
    | S fuel' =>
        if negb (bool_decide (head = "")) && negb (bool_decide (tail = ""))
           && negb (bool_decide (is_Some (directories !! head)))
        then makedirs fuel' head directories
        else directories
    | 0 => directories
    end in
  <[name := []]> directories.

Definition os_makedirs (path : string) : M unit := λ st,
  (Py.Ok (),
   {| dirs := makedirs (String.length path) path (dirs st); requests := requests st;
      ticks := ticks st; written := written st |}).

(** [os.listdir(path)] *)
Definition os_listdir (path : string) : M (list string) := λ st,
  match dirs st !! path with
  | Some entries => (Py.Ok (entries.*1), st)
  | None => (Py.Raise (Py.Exn Py.FileNotFoundError path), st)
  end.

(** [open(os.path.join(path, filename), 'r', encoding='utf-8').read()] *)
Definition read_text (path filename : string) : M string := λ st,
  match dirs st !! path with
  | Some entries =>
      match list_find (λ entry, entry.1 = filename) entries with
      | Some (_, (_, content)) => (Py.Ok content, st)
      | None => (Py.Raise (Py.Exn Py.FileNotFoundError filename), st)
      end
  | None => (Py.Raise (Py.Exn Py.FileNotFoundError path), st)
  end.

(** [with open(path, 'w') as f: json.dump(value, f, ...)] *)
Definition write_json (path : string) (value : json) : M unit := λ st,
  (Py.Ok (),
   {| dirs := dirs st; requests := requests st; ticks := ticks st;
      written := written st ++ [(path, value)] |}).

(** [time.time()] *)
Definition time_time : M Q := λ st,
  (Py.Ok (clock env (ticks st)),
   {| dirs := dirs st; requests := requests st; ticks := S (ticks st);
      written := written st |}).

Definition sent (r : request) (st : State) : State :=
  {| dirs := dirs st; requests := requests st ++ [r]; ticks := ticks st;
     written := written st |}.

(** [requests.post(url, json=payload, timeout=timeout)] *)
Definition requests_post (url : string) (payload : gmap string json) (timeout : nat)
  : M generate_response := λ st,
  let r := Post url payload timeout in
  match post env (requests st) r with
  | HttpRaises e => (Py.Raise e, sent r st)
  | HttpReturns response => (Py.Ok response, sent r st)
  end.

(** [requests.get(url, timeout=timeout)] *)
Definition requests_get (url : string) (timeout : nat) : M tags_response := λ st,
  let r := Get url timeout in
  match get env (requests st) r with
  | HttpRaises e => (Py.Raise e, sent r st)
  | HttpReturns response => (Py.Ok response, sent r st)
  end.
End Primitives.

(** ** What the two scripts share *)

(** The parsed command line ([setup_args]). *)
Module Args.
Record t := {
  model : string;
  questions_dir : string;
  output_dir : string;
  temperature : Q;
  max_tokens : Z;
  system_prompt : string;
  preprocess : bool;
  strip_codeblocks : bool;
  strip_html : bool
}.
End Args.

(** A question as the loaders build it: the dict with the keys ['id'],
    ['text'] and ['file']. *)
Record Question := {
  q_id : string;
  q_text : string;
  q_file : string
}.

(** [x if x else None] on a string *)
Definition or_none (s : string) : option string :=
  if bool_decide (s = "") then None else Some s.

Definition json_of_option (o : option string) : json :=
  match o with
  | Some s => JStr s
  | None => JNull
  end.

Section Scripts.
Context (env : Env).

(** The loop of the loaders (lines 48-62 of both scripts), over the file
    names in the order given. *)
Fixpoint read_loop (questions_dir : string) (preprocess strip_codeblocks strip_html : bool)
    (filenames : list string) (questions : list Question) : M (list Question) :=
  match filenames with
  | [] => mret questions
  | filename :: rest =>
      if Py.endswith filename ".txt" || Py.endswith filename ".md" then
        content ← read_text questions_dir filename;
        let question_text := Py.strip content in
        let question_text :=
          if preprocess
          then preprocess_markdown question_text strip_codeblocks strip_html
          else question_text in
        read_loop questions_dir preprocess strip_codeblocks strip_html rest
          (questions ++ [ {| q_id := (Py.splitext filename).1;
                             q_text := question_text;
                             q_file := filename |} ])
      else
        read_loop questions_dir preprocess strip_codeblocks strip_html rest questions
  end.

(** Lines 43-65 of both scripts: the existence check, the loop over the
    sorted listing and the check that something was found. *)
Definition read_checked (questions_dir : string) (preprocess strip_codeblocks strip_html : bool)
    : M (list Question) :=
  found ← os_path_exists questions_dir;
  if negb found then
    raise (Py.Exn Py.FileNotFoundError
             ("Questions directory '" +:+ questions_dir +:+ "' not found."))
  else
    listing ← os_listdir questions_dir;
    questions ← read_loop questions_dir preprocess strip_codeblocks strip_html
                  (Py.sorted id listing) [];
    match questions with
    | [] => raise (Py.Exn Py.ValueError
                     ("No .txt or .md files found in '" +:+ questions_dir +:+ "'"))
    | _ :: _ => mret questions
    end.

(** The request body of [query_ollama].  The prompt is the text of a
    question or, in the chained runner, a completion. *)
Definition build_payload (model : string) (prompt : json) (system_prompt : string)
    (temperature : Q) (max_tokens : Z) : gmap string json :=
  let payload : gmap string json :=
    <["model" := JStr model]>
    (<["prompt" := prompt]>
    (<["temperature" := JFloat temperature]>
    (<["max_tokens" := JInt max_tokens]>
    (<["stream" := JBool false]> ∅)))) in
  if bool_decide (system_prompt ≠ "")
  then <["system" := JStr system_prompt]> payload
  else payload.

Definition generate_url : string := "http://localhost:11434/api/generate".
Definition connect_error_text : string :=
  "Error: Could not connect to Ollama. Make sure Ollama is running.".

(** [query_ollama] (the same text in both scripts).  With status 200 it
    returns the [response] field of the body as it is. *)
Definition query_ollama (model : string) (prompt : json) (system_prompt : string)
    (temperature : Q) (max_tokens : Z) : M json :=
  try_except
    (let payload := build_payload model prompt system_prompt temperature max_tokens in
     response ← requests_post env generate_url payload 120;
     if bool_decide (status_code response = 200) then
       answer ← lift (json_response response);
       mret (default (JStr "") answer)
     else
       mret (JStr ("Error: Received status code " +:+ pretty (status_code response)
                   +:+ ": " +:+ text response)))
    (λ e,
       if Py.is_connection_error e then mret (JStr connect_error_text)
       else mret (JStr ("Error: " +:+ Py.str_exn e))).

(** The output directory is created when it is missing (the first lines of
    [run_test] and of [run_iterations]). *)
Definition ensure_output_dir (output_dir : string) : M unit :=
  found ← os_path_exists output_dir;
  if negb found then os_makedirs output_dir else mret ().

End Scripts.

(** What a script prints last. *)
Inductive report :=
| AverageResponseTime (avg_time : Q)
| ErrorDuringTesting (message : string).

(** How the process of a script ends: what it printed last, its exit status
    (0 when the module ran to its end, 1 on an uncaught exception), and the
    state it leaves. *)
Record Outcome := {
  printed : option report;
  exit_status : Z;
  final : State
}.

Definition run_script (body : M report) (st : State) : Outcome :=
  match body st with
  | (Py.Ok r, st') => {| printed := Some r; exit_status := 0; final := st' |}
  | (Py.Raise _, st') => {| printed := None; exit_status := 1; final := st' |}
  end.

(** The numbers of [sum]: an [int] or a [float]. *)
Inductive number :=
| Int (z : Z)
| Float (q : Q).

Definition number_value (n : number) : Q :=
  match n with
  | Int z => inject_Z z
  | Float q => q
  end.

(** [total + v]: a number is added, [True] and [False] as 1 and 0; the sum
    is an [int] when both are, and a [float] otherwise. *)
Definition add (total : number) (v : json) : Py.result number :=
  match v with
  | JInt z =>
      Py.Ok (match total with
             | Int t => Int (t + z)
             | Float t => Float (t + inject_Z z)
             end)
  | JBool b =>
      Py.Ok (match total with
             | Int t => Int (t + Z.b2z b)
             | Float t => Float (t + inject_Z (Z.b2z b))
             end)
  | JFloat q => Py.Ok (Float (number_value total + q))
  | _ =>
      Py.Raise (Py.Exn Py.TypeError
                  ("unsupported operand type(s) for +: '"
                   +:+ match total with Int _ => "int" | Float _ => "float" end
                   +:+ "' and '" +:+ type_name v +:+ "'"))
  end.

(** [x / n] with [n = len(...)]. *)
Definition div_len (x : Q) (n : nat) : Py.result Q :=
  if bool_decide (n = 0) then Py.Raise (Py.Exn Py.ZeroDivisionError "division by zero")
  else Py.Ok (x / inject_Z (Z.of_nat n))%Q.

(** [round(x, 2)]: to the nearest hundredth, ties to the even one. *)
Definition round2 (x : Q) : Q :=
  let y := (x * 100)%Q in
  let f := Qfloor y in
  let r := (y - inject_Z f)%Q in
  let n := if Qle_bool r (1 # 2)
           then (if Qle_bool (1 # 2) r then (if Z.even f then f else (f + 1)%Z) else f)
           else (f + 1)%Z in
  (inject_Z n / 100)%Q.

(** ** The single-shot runner, [src/math/test.py] *)

Module SingleShot.

(** The dict [result] of [run_test]. *)
Record Result := {
  question_id : string;
  question_text : string;
  response : json;
  processing_time_seconds : Q;
  model : string;
  temperature : Q;
  max_tokens : Z;
  system_prompt : option string
}.

(** [json.dump(result, ...)] *)
Definition to_json (r : Result) : json :=
  JDict [("question_id", JStr (question_id r));
         ("question_text", JStr (question_text r));
         ("response", response r);
         ("processing_time_seconds", JFloat (processing_time_seconds r));
         ("model", JStr (model r));
         ("temperature", JFloat (temperature r));
         ("max_tokens", JInt (max_tokens r));
         ("system_prompt", json_of_option (system_prompt r))].

(** The last line of the loop of [run_test],
    [print(f"Response preview: {response[:150]}..." if len(response) > 150
    else f"Response: {response}")], as far as it can raise. *)
Definition preview (response : json) : Py.result unit :=
  match len response with
  | Py.Ok n => if bool_decide (150 < n) then has_slice response else Py.Ok ()
  | Py.Raise e => Py.Raise e
  end.

Section Run.
Context (env : Env).

(** [read_question_files]: the questions in the order of the sorted
    listing. *)
Definition read_question_files (questions_dir : string)
    (preprocess strip_codeblocks strip_html : bool) : M (list Question) :=
  questions ← read_checked questions_dir preprocess strip_codeblocks strip_html;
  mret questions.

(** The body of the loop of [run_test] for one question: the record is
    written before the response is printed. *)
Definition process_question (args : Args.t) (question : Question) : M Result :=
  start_time ← time_time env;
  response ← query_ollama env (Args.model args) (JStr (q_text question))
               (Args.system_prompt args) (Args.temperature args) (Args.max_tokens args);
  end_time ← time_time env;
  let processing_time := (end_time - start_time)%Q in
  let result :=
    {| question_id := q_id question;
       question_text := q_text question;
       response := response;
       processing_time_seconds := round2 processing_time;
       model := Args.model args;
       temperature := Args.temperature args;
       max_tokens := Args.max_tokens args;
       system_prompt := or_none (Args.system_prompt args) |} in
  let output_file :=
    Py.path_join (Args.output_dir args) (q_id question +:+ "_result.json") in
  write_json output_file (to_json result);;
  lift (preview response);;
  mret result.

(** [for i, question in enumerate(questions): ... results.append(result)] *)
Fixpoint process_questions (args : Args.t) (questions : list Question)
    (results : list Result) : M (list Result) :=
  match questions with
  | [] => mret results
  | question :: rest =>
      result ← process_question args question;
      process_questions args rest (results ++ [result])
  end.

Definition run_test (args : Args.t) : M (list Result) :=
  ensure_output_dir (Args.output_dir args);;
  questions ← read_question_files (Args.questions_dir args) (Args.preprocess args)
                (Args.strip_codeblocks args) (Args.strip_html args);
  results ← process_questions args questions [];
  let all_results_file := Py.path_join (Args.output_dir args) "all_results.json" in
  write_json all_results_file (JList (to_json <$> results));;
  mret results.

Definition tags_url : string := "http://localhost:11434/api/tags".

(** In the branch of a model that is not found, the names are joined
    for the warning that is printed, which can raise. *)
Definition check_model_availability (model_name : string) : M bool :=
  try_except
    (response ← requests_get env tags_url 10;
     if bool_decide (tags_status_code response = 200) then
       available_models ← lift (tags_models response);
       if existsb (is_str model_name) available_models then mret true
       else
         lift (join available_models);;
         mret false
     else mret true)
    (λ e, mret true).

(** [sum(r['processing_time_seconds'] for r in results) / len(results)] *)
Definition average_time (results : list Result) : Py.result Q :=
  div_len (foldl Qplus 0%Q (processing_time_seconds <$> results)) (length results).

(** The [try] block of the script. *)
Definition main_try (args : Args.t) : M report :=
  check_model_availability (Args.model args);;
  results ← run_test args;
  avg_time ← lift (average_time results);
  mret (AverageResponseTime avg_time).

(** The [try] block with its handler, [except Exception as e]. *)
Definition main_body (args : Args.t) : M report :=
  try_except (main_try args) (λ e, mret (ErrorDuringTesting (Py.str_exn e))).

Definition main (args : Args.t) (st : State) : Outcome :=
  run_script (main_body args) st.
End Run.

End SingleShot.

(** ** The chained runner, [src/scripts/cot.py] *)

Module Chained.

(** The dict [result] of [run_iterations]. *)
Record Result := {
  question_id : string;
  question_text : string;
  responses : list json;
  model : string;
  temperature : Q;
  max_tokens : Z;
  system_prompt : option string
}.

Definition to_json (r : Result) : json :=
  JDict [("question_id", JStr (question_id r));
         ("question_text", JStr (question_text r));
         ("responses", JList (responses r));
         ("model", JStr (model r));
         ("temperature", JFloat (temperature r));
         ("max_tokens", JInt (max_tokens r));
         ("system_prompt", json_of_option (system_prompt r))].

Section Run.
Context (env : Env).

(** [read_questions]: as the single-shot loader, then sorted by ['id']. *)
Definition read_questions (questions_dir : string)
    (preprocess strip_codeblocks strip_html : bool) : M (list Question) :=
  questions ← read_checked questions_dir preprocess strip_codeblocks strip_html;
  mret (Py.sorted q_id questions).

(** [for _ in range(n): response = query_ollama(...);
    iteration_responses.append(response)] *)
Fixpoint iterate (n : nat) (args : Args.t) (response : json)
    (iteration_responses : list json) : M (list json) :=
  match n with
  | 0 => mret iteration_responses
  | S k =>
      response ← query_ollama env (Args.model args) response
                   (Args.system_prompt args) (Args.temperature args)
                   (Args.max_tokens args);
      iterate k args response (iteration_responses ++ [response])
  end.

Definition process_question (args : Args.t) (question : Question) : M Result :=
  let response := JStr (q_text question) in
  let iteration_responses := [response] in
  iteration_responses ← iterate 5 args response iteration_responses;
  let result :=
    {| question_id := q_id question;
       question_text := q_text question;
       responses := iteration_responses;
       model := Args.model args;
       temperature := Args.temperature args;
       max_tokens := Args.max_tokens args;
       system_prompt := or_none (Args.system_prompt args) |} in
  let output_file :=
    Py.path_join (Args.output_dir args) (q_id question +:+ "_result.json") in
  write_json output_file (to_json result);;
  mret result.

Fixpoint process_questions (args : Args.t) (questions : list Question)
    (results : list Result) : M (list Result) :=
  match questions with
  | [] => mret results
  | question :: rest =>
      result ← process_question args question;
      process_questions args rest (results ++ [result])
  end.

Definition run_iterations (args : Args.t) : M (list Result) :=
  ensure_output_dir (Args.output_dir args);;
  questions ← read_questions (Args.questions_dir args) (Args.preprocess args)
                (Args.strip_codeblocks args) (Args.strip_html args);
  results ← process_questions args questions [];
  let all_results_file := Py.path_join (Args.output_dir args) "all_results.json" in
  write_json all_results_file (JList (to_json <$> results));;
  mret results.

(** [sum(r['responses'][-1] for r in results)], the running total being
    [total]. *)
Fixpoint sum_last_responses (total : number) (results : list Result)
    : Py.result number :=
  match results with
  | [] => Py.Ok total
  | r :: rest =>
      match last (responses r) with
      | None => Py.Raise (Py.Exn Py.IndexError "list index out of range")
      | Some v =>
          match add total v with
          | Py.Ok total' => sum_last_responses total' rest
          | Py.Raise e => Py.Raise e
          end
      end
  end.

(** [sum(r['responses'][-1] for r in results) / len(results)] *)
Definition average_time (results : list Result) : Py.result Q :=
  match sum_last_responses (Int 0) results with
  | Py.Ok total => div_len (number_value total) (length results)
  | Py.Raise e => Py.Raise e
  end.

(** The [try] block of the script. *)
Definition main_try (args : Args.t) : M report :=
  results ← run_iterations args;
  avg_time ← lift (average_time results);
  mret (AverageResponseTime avg_time).

(** The [try] block with its handler, [except Exception as e]. *)
Definition main_body (args : Args.t) : M report :=
  try_except (main_try args) (λ e, mret (ErrorDuringTesting (Py.str_exn e))).

Definition main (args : Args.t) (st : State) : Outcome :=
  run_script (main_body args) st.
End Run.

End Chained.

(** ** Vocabulary of the properties *)

(** What the spec calls a failed call: the request raised (a timeout, a
    connection failure, anything else), the status is not 200, or decoding
    the body raised. *)
Definition failed (o : http generate_response) : Prop :=
  match o with
  | HttpRaises _ => True
  | HttpReturns response =>
      status_code response ≠ 200 ∨ ∃ e, json_response response = Py.Raise e
  end.

Definition is_error_string (s : string) : bool := Py.startswith s "Error: ".

(** A completion that is an error text. *)
Definition is_error_value (v : json) : bool :=
  match v with
  | JStr s => is_error_string s
  | _ => false
  end.

(** The interface of the endpoint as the spec has it: the [response] field
    of an answer, when there is one, is text. *)
Definition text_endpoint (env : Env) : Prop :=
  ∀ history r answer v,
    post env history r = HttpReturns answer →
    json_response answer = Py.Ok (Some v) →
    ∃ s, v = JStr s.

(** The one request [query_ollama] sends. *)
Definition generate_request (model : string) (prompt : json) (system_prompt : string)
    (temperature : Q) (max_tokens : Z) : request :=
  Post generate_url (build_payload model prompt system_prompt temperature max_tokens) 120.

(** [d[key]] on a JSON object *)
Definition json_field (key : string) (j : json) : option json :=
  match j with
  | JDict fields => (λ entry, entry.2) <$> (snd <$> list_find (λ entry, entry.1 = key) fields)
  | _ => None
  end.

Section Chain.
Context (env : Env) (args : Args.t).

(** The client as the runners call it, with the settings of the run. *)
Definition ask (prompt : json) : M json :=
  query_ollama env (Args.model args) prompt (Args.system_prompt args)
    (Args.temperature args) (Args.max_tokens args).

Definition asked (prompt : json) : request :=
  generate_request (Args.model args) prompt (Args.system_prompt args)
    (Args.temperature args) (Args.max_tokens args).

(** [chain st prompt completions st']: starting in [st], the client is
    called once per element of [completions]; the first call gets [prompt],
    every later call the completion of the call before it. *)
Inductive chain : State → json → list json → State → Prop :=
| chain_done st prompt : chain st prompt [] st
| chain_step st1 st2 st3 prompt completion rest :
    ask prompt st1 = (Py.Ok completion, st2) →
    chain st2 completion rest st3 →
    chain st1 prompt (completion :: rest) st3.
End Chain.

(** The file of one record, and the file of all of them. *)
Definition result_file (args : Args.t) (question_id : string) : string :=
  Py.path_join (Args.output_dir args) (question_id +:+ "_result.json").

Definition all_results_file (args : Args.t) : string :=
  Py.path_join (Args.output_dir args) "all_results.json".

(** ** Concrete worlds *)

(** An endpoint that answers every prompt with the prompt reversed, one that
    cannot be reached, and a clock that advances by one per reading. *)
Definition prompt_of (r : request) : string :=
  match r with
  | Post _ payload _ =>
      match payload !! "prompt" with
      | Some (JStr s) => s
      | _ => ""
      end
  | Get _ _ => ""
  end.

Definition refused : Py.exn :=
  Py.Exn Py.ConnectionError "Connection refused".

Definition echo_env : Env := {|
  post := λ _ r,
    HttpReturns {| status_code := 200; text := "";
                   json_response := Py.Ok (Some (JStr (String.rev (prompt_of r)))) |};
  get := λ _ _,
    HttpReturns {| tags_status_code := 200; tags_models := Py.Ok [JStr "llama3.2"] |};
  clock := λ n, inject_Z (Z.of_nat n)
|}.

Definition unreachable_env : Env := {|
  post := λ _ _, HttpRaises refused;
  get := λ _ _, HttpRaises refused;
  clock := λ n, inject_Z (Z.of_nat n)
|}.

(** Endpoints that do not keep to the interface: the [response] field of
    every answer is the number 5, or is null. *)
Definition number_env : Env := {|
  post := λ _ _,
    HttpReturns {| status_code := 200; text := ""; json_response := Py.Ok (Some (JInt 5)) |};
  get := get echo_env;
  clock := clock echo_env
|}.

Definition null_env : Env := {|
  post := λ _ _,
    HttpReturns {| status_code := 200; text := ""; json_response := Py.Ok (Some JNull) |};
  get := get echo_env;
  clock := clock echo_env
|}.

(** The defaults of [setup_args]. *)
Definition default_args : Args.t := {|
  Args.model := "llama3.2";
  Args.questions_dir := "./questions";
  Args.output_dir := "./results";
  Args.temperature := 7 # 10;
  Args.max_tokens := 1000;
  Args.system_prompt := "";
  Args.preprocess := false;
  Args.strip_codeblocks := false;
  Args.strip_html := false
|}.

Definition world (directories : gmap string (list (string * string))) : State :=
  {| dirs := directories; requests := []; ticks := 0; written := [] |}.

(** The directory of the example of the spec, listed in reverse order, with a
    file that is not a question. *)
Definition two_questions : State :=
  world {[ "./questions" := [("b.txt", "Capital of France?");
                             ("notes.json", "{}");
                             ("a.txt", "2+2=?")] ]}.

Definition no_questions : State := world {[ "./questions" := [] ]}.

Definition no_directory : State := world ∅.

(** The output directory under the input directory: [--questions_dir ./q
    --output_dir ./q/out]. *)
Definition nested_args : Args.t := {|
  Args.model := "llama3.2";
  Args.questions_dir := "./q";
  Args.output_dir := "./q/out";
  Args.temperature := 7 # 10;
  Args.max_tokens := 1000;
  Args.system_prompt := "";
  Args.preprocess := false;
  Args.strip_codeblocks := false;
  Args.strip_html := false
|}.

(** ** Vocabulary of the loaders *)

(** A file name the loaders take up. *)
Definition recognized (filename : string) : bool :=
  Py.endswith filename ".txt" || Py.endswith filename ".md".

(** The order of [sorted] under a key. *)
Definition key_le {A} (key : A → string) (x y : A) : Prop := (key x ≤ key y)%string.

(** The text of the file [filename] among the entries of a directory. *)
Definition file_text (entries : list (string * string)) (filename : string) : option string :=
  (λ found, found.2.2) <$> list_find (λ entry, entry.1 = filename) entries.

(** The question a loader makes of a file. *)
Definition question_of (preprocess strip_codeblocks strip_html : bool)
    (entries : list (string * string)) (filename : string) : Question :=
  let question_text := Py.strip (default "" (file_text entries filename)) in
  {| q_id := (Py.splitext filename).1;
     q_text := if preprocess
               then preprocess_markdown question_text strip_codeblocks strip_html
               else question_text;
     q_file := filename |}.

(** The two errors of the loaders. *)
Definition not_found (questions_dir : string) : Py.exn :=
  Py.Exn Py.FileNotFoundError ("Questions directory '" +:+ questions_dir +:+ "' not found.").

Definition nothing_found (questions_dir : string) : Py.exn :=
  Py.Exn Py.ValueError ("No .txt or .md files found in '" +:+ questions_dir +:+ "'").

(** A directory with the files [a.txt] and [a-b.txt], and one with [a.txt]
    and [a.md]. *)
Definition dashed_names : State :=
  world {[ "./questions" := [("a.txt", "first"); ("a-b.txt", "second")] ]}.

Definition two_extensions : State :=
  world {[ "./questions" := [("a.txt", "first"); ("a.md", "second")] ]}.

(** ** Vocabulary of the runs *)

(** The state in which the loader runs: behind the creation of the output
    directory. *)
Definition prepared (args : Args.t) (st : State) : State :=
  (ensure_output_dir (Args.output_dir args) st).2.

(** How the loop body of [run_test] ends for the record [r] that it has
    written: it returns the record, unless printing the response raises. *)
Definition shown (r : SingleShot.Result) : Py.result SingleShot.Result :=
  match SingleShot.preview (SingleShot.response r) with
  | Py.Ok _ => Py.Ok r
  | Py.Raise e => Py.Raise e
  end.

(** The record [r] is what the single-shot runner makes of the question [q]:
    its completion is what the client returned for the text of [q]. *)
Definition answered (env : Env) (args : Args.t) (q : Question) (r : SingleShot.Result) : Prop :=
  SingleShot.question_id r = q_id q
  ∧ SingleShot.question_text r = q_text q
  ∧ ∃ s1 s2, ask env args (JStr (q_text q)) s1 = (Py.Ok (SingleShot.response r), s2).

(** The record [r] is what the chained runner makes of the question [q]. *)
Definition iterated (env : Env) (args : Args.t) (q : Question) (r : Chained.Result) : Prop :=
  Chained.question_id r = q_id q
  ∧ Chained.question_text r = q_text q
  ∧ ∃ completions s1 s2,
      Chained.responses r = JStr (q_text q) :: completions
      ∧ length completions = 5
      ∧ chain env args s1 (JStr (q_text q)) completions s2.

(** The files of a run, in the order in which they are written: one per
    record, then the aggregate. *)
Definition single_shot_records (args : Args.t) (results : list SingleShot.Result)
    : list (string * json) :=
  (λ r, (result_file args (SingleShot.question_id r), SingleShot.to_json r)) <$> results.

Definition single_shot_files (args : Args.t) (results : list SingleShot.Result)
    : list (string * json) :=
  single_shot_records args results
  ++ [(all_results_file args, JList (SingleShot.to_json <$> results))].

Definition chained_records (args : Args.t) (results : list Chained.Result)
    : list (string * json) :=
  (λ r, (result_file args (Chained.question_id r), Chained.to_json r)) <$> results.

Definition chained_files (args : Args.t) (results : list Chained.Result)
    : list (string * json) :=
  chained_records args results
  ++ [(all_results_file args, JList (Chained.to_json <$> results))].

(** Every request to the generation endpoint fails to connect. *)
Definition unreachable (env : Env) : Prop :=
  ∀ history r, ∃ e, post env history r = HttpRaises e ∧ Py.is_connection_error e = true.

Definition type_error_text : string :=
  "unsupported operand type(s) for +: 'int' and 'str'".

(** The state behind the availability check of the single-shot script. *)
Definition checked (st : State) : State := sent (Get SingleShot.tags_url 10) st.

(** The questions that a loader takes from the entries of a directory, in the
    order of the sorted file names. *)
Definition questions_in (args : Args.t) (entries : list (string * string)) : list Question :=
  question_of (Args.preprocess args) (Args.strip_codeblocks args) (Args.strip_html args)
    entries <$> filter (λ f, recognized f) (Py.sorted id entries.*1).

(** ** Vocabulary of the preprocessing *)

Definition backtick : ascii := "`"%char.

(** No character of [s] is a backtick. *)
Fixpoint no_backtick (s : string) : bool :=
  match s with
  | "" => true
  | String a s' => negb (bool_decide (a = backtick)) && no_backtick s'
  end.

(** Every character of [s] is an ASCII letter or digit. *)
Fixpoint all_alnum (s : string) : bool :=
  match s with
  | "" => true
  | String a s' => Re.is_alnum a && all_alnum s'
  end.

(** A fenced block: the opening fence with its info string, a line feed, the
    body, a line feed and the closing fence. *)
Definition fenced_block (info body : string) : string :=
  Re.fence +:+ info +:+ String Py.LF (body +:+ Re.closing).

(** The text is empty or ends with a line feed: what follows it starts a
    line. *)
Fixpoint ends_line (s : string) : bool :=
  match s with
  | "" => true
  | String a s' =>
      match s' with
      | "" => bool_decide (a = Py.LF)
      | String _ _ => ends_line s'
      end
  end.

(** A backtick with a [<] directly behind it. *)
Definition tick_tag : string := "`<".

(** [block] occurs in [s]. *)
Definition occurs (block s : string) : Prop := ∃ pre post, s = pre +:+ block +:+ post.

(** A text with fenced blocks: every block with the text that stands in
    front of it, and the text behind the last block. *)
Record Block := {
  block_lead : string;
  block_info : string;
  block_body : string
}.

Fixpoint with_blocks (blocks : list Block) (behind : string) : string :=
  match blocks with
  | [] => behind
  | b :: rest =>
      block_lead b +:+ fenced_block (block_info b) (block_body b)
      +:+ with_blocks rest behind
  end.

(** The same text with the blocks taken out. *)
Fixpoint without_blocks (blocks : list Block) (behind : string) : string :=
  match blocks with
  | [] => behind
  | b :: rest => block_lead b +:+ without_blocks rest behind
  end.

(** Two blocks, the first one behind a line with inline code. *)
Definition two_blocks : list Block :=
  [ {| block_lead := "Run `this`:" +:+ String Py.LF "";
       block_info := "python";
       block_body := "print(1)" |};
    {| block_lead := String Py.LF ("Then:" +:+ String Py.LF "");
       block_info := "";
       block_body := "ls" |} ].

(** ** Vocabulary of the further properties *)

(** The characters of a text. *)
Definition chars (s : string) : list ascii := list_ascii_of_string s.

(** [c not in s] *)
Fixpoint without (c : ascii) (s : string) : bool :=
  match s with
  | "" => true
  | String a s' => negb (bool_decide (a = c)) && without c s'
  end.

(** No [<] of [s] has a [>] anywhere behind it. *)
Fixpoint no_tag (s : string) : bool :=
  match s with
  | "" => true
  | String a s' =>
      (if bool_decide (a = "<"%char) then without ">" s' else true) && no_tag s'
  end.

(** No line of [s] starts with four spaces; [line_start] tells whether [s]
    begins a line. *)
Fixpoint no_indented_line_go (line_start : bool) (s : string) : bool :=
  match s with
  | "" => true
  | String a s' =>
      (if line_start then negb (Py.startswith s "    ") else true)
      && no_indented_line_go (bool_decide (a = Py.LF)) s'
  end.

Definition no_indented_line (s : string) : bool := no_indented_line_go true s.


(** A directory whose one question is padded with blanks. *)
Definition padded_question : State :=
  world {[ "./questions" := [("a.txt", "  2+2=?  ")] ]}.

(** An endpoint as [echo_env] whose model list is empty. *)
Definition no_models_env : Env := {|
  post := post echo_env;
  get := λ _ _, HttpReturns {| tags_status_code := 200; tags_models := Py.Ok [] |};
  clock := clock echo_env
|}.

(** The payload of a request to the generation endpoint. *)
Definition payload_of (r : request) : gmap string json :=
  match r with
  | Post _ payload _ => payload
  | Get _ _ => ∅
  end.
(** * Properties *)

(** ** The inference client *)

Ltac unfold_M :=
  unfold mbind, M_bind, mret, M_ret, raise, try_except, lift in *.

Section Client.
Context (env : Env).

Lemma error_prefix (s : string) : is_error_string ("Error: " +:+ s) = true.
Proof. by destruct s. Qed.

Lemma query_ollama_returns model prompt system_prompt temperature max_tokens st :
  ∃ s, query_ollama env model prompt system_prompt temperature max_tokens st
       = (Py.Ok s,
          sent (generate_request model prompt system_prompt temperature max_tokens) st).
Proof.
  unfold query_ollama, requests_post, generate_request. unfold_M.
  destruct (post env _ _) as [e|response]; simpl.
  - destruct (Py.is_connection_error e); eauto.
  - case_bool_decide; simpl; [|eauto].
    destruct (json_response response) as [answer|e]; simpl; [eauto|].
    destruct (Py.is_connection_error e); eauto.
Qed.

Lemma query_ollama_failed model prompt system_prompt temperature max_tokens st s st' :
  query_ollama env model prompt system_prompt temperature max_tokens st = (Py.Ok s, st') →
  failed (post env (requests st)
            (generate_request model prompt system_prompt temperature max_tokens)) →
  is_error_value s = true.
Proof.
  unfold query_ollama, requests_post, generate_request, failed. unfold_M.
  destruct (post env _ _) as [e|response]; simpl.
  - destruct (Py.is_connection_error e); intros [= <- _] _;
      [reflexivity|apply error_prefix].
  - case_bool_decide; simpl.
    + destruct (json_response response) as [answer|e]; simpl.
      * intros _ [?|[e ?]]; congruence.
      * destruct (Py.is_connection_error e); intros [= <- _] _;
      [reflexivity|apply error_prefix].
    + intros [= <- _] _. apply error_prefix.
Qed.

Lemma query_ollama_unreachable model prompt system_prompt temperature max_tokens st e :
  post env (requests st)
    (generate_request model prompt system_prompt temperature max_tokens) = HttpRaises e →
  Py.is_connection_error e = true →
  query_ollama env model prompt system_prompt temperature max_tokens st
  = (Py.Ok (JStr connect_error_text),
     sent (generate_request model prompt system_prompt temperature max_tokens) st).
Proof.
  intros Hpost Hconn.
  unfold query_ollama, requests_post, generate_request in *. unfold_M.
  rewrite Hpost; simpl. by rewrite Hconn.
Qed.

Lemma query_ollama_other_exception model prompt system_prompt temperature max_tokens st e :
  post env (requests st)
    (generate_request model prompt system_prompt temperature max_tokens) = HttpRaises e →
  Py.is_connection_error e = false →
  query_ollama env model prompt system_prompt temperature max_tokens st
  = (Py.Ok (JStr ("Error: " +:+ Py.str_exn e)),
     sent (generate_request model prompt system_prompt temperature max_tokens) st).
Proof.
  intros Hpost Hconn.
  unfold query_ollama, requests_post, generate_request in *. unfold_M.
  rewrite Hpost; simpl. by rewrite Hconn.
Qed.

(** C4: the inference client never raises.  Every invocation returns and
    sends exactly one request (no retry); on a failed call, be it a
    timeout, a connection failure, a status other than 200 or an exception
    while decoding, what it returns is an error text, a string that starts
    with [Error: ]: the fixed connection text for a connection failure, the
    text of the exception for a timeout or anything else. *)
Theorem query_ollama_soft_failure model prompt system_prompt temperature max_tokens st :
  let req := generate_request model prompt system_prompt temperature max_tokens in
  let answer := post env (requests st) req in
  ∃ s,
    query_ollama env model prompt system_prompt temperature max_tokens st
    = (Py.Ok s, sent req st)
    ∧ requests (sent req st) = requests st ++ [req]
    ∧ (failed answer → is_error_value s = true)
    ∧ match answer with
      | HttpRaises e =>
          s = JStr (if Py.is_connection_error e then connect_error_text
                    else "Error: " +:+ Py.str_exn e)
      | HttpReturns response =>
          status_code response ≠ 200 →
          s = JStr ("Error: Received status code " +:+ pretty (status_code response)
                    +:+ ": " +:+ text response)
      end.
Proof.
  intros req answer.
  destruct (query_ollama_returns model prompt system_prompt temperature max_tokens st)
    as [s Hs].
  exists s. split; [exact Hs|]. split; [reflexivity|]. split.
  - intros Hfail. eapply query_ollama_failed; eauto.
  - subst answer req. revert Hs.
    unfold query_ollama, requests_post, generate_request. unfold_M.
    destruct (post env _ _) as [e|response]; simpl.
    + destruct (Py.is_connection_error e); by intros [= <-].
    + case_bool_decide; simpl; [done|]. by intros [= <-] _.
Qed.
End Client.

(** ** The chained runner: five completions, each from the one before *)

Section ChainFacts.
Context (env : Env) (args : Args.t).

Local Abbreviation ask := (ask env args).
Local Abbreviation asked := (asked args).
Local Abbreviation chain := (chain env args).

Lemma ask_returns prompt st : ∃ s, ask prompt st = (Py.Ok s, sent (asked prompt) st).
Proof. apply query_ollama_returns. Qed.

Lemma iterate_chain n : ∀ response iteration_responses st,
  ∃ completions st',
    Chained.iterate env n args response iteration_responses st
    = (Py.Ok (iteration_responses ++ completions), st')
    ∧ length completions = n
    ∧ chain st response completions st'
    ∧ requests st' = requests st ++ (asked <$> take n (response :: completions))
    ∧ dirs st' = dirs st ∧ ticks st' = ticks st ∧ written st' = written st.
Proof.
  induction n as [|n IH]; intros response acc st; simpl.
  - exists [], st. rewrite !app_nil_r. repeat split; constructor.
  - destruct (ask_returns response st) as [s Hs].
    destruct (IH s (acc ++ [s]) (sent (asked response) st))
      as (completions & st' & Hrun & Hlen & Hchain & Hreq & Hdirs & Hticks & Hwr).
    exists (s :: completions), st'. unfold_M. fold (ask response).
    rewrite Hs, Hrun, <- app_assoc. simpl.
    repeat split; [by rewrite Hlen|econstructor; eauto| |done..].
    rewrite Hreq. simpl. by rewrite <- app_assoc.
Qed.

(** Along a chain, every completion is what the client returned for the
    element in front of it. *)
Lemma chain_lookup st prompt completions st' :
  chain st prompt completions st' →
  ∀ k prev next,
    (prompt :: completions) !! k = Some prev →
    (prompt :: completions) !! S k = Some next →
    ∃ s1 s2, ask prev s1 = (Py.Ok next, s2).
Proof.
  induction 1 as [|st1 st2 st3 prompt completion rest Hask _ IH]; intros k prev next.
  - destruct k; simpl; [intros _ [=]|intros [=]].
  - destruct k as [|k]; simpl.
    + intros [= <-] [= <-]. eauto.
    + apply IH.
Qed.
End ChainFacts.

(** ** One question, one record *)

Section Records.
Context (env : Env) (args : Args.t).

Lemma preview_text (s : string) : SingleShot.preview (JStr s) = Py.Ok ().
Proof. unfold SingleShot.preview. simpl. by case_bool_decide. Qed.

Lemma shown_text (r : SingleShot.Result) (s : string) :
  SingleShot.response r = JStr s → shown r = Py.Ok r.
Proof. intros Hr. unfold shown. by rewrite Hr, preview_text. Qed.

(** With an endpoint that keeps to its interface the client returns
    text: a completion or an error text. *)
Lemma query_ollama_text model prompt system_prompt temperature max_tokens st v st' :
  text_endpoint env →
  query_ollama env model prompt system_prompt temperature max_tokens st = (Py.Ok v, st') →
  ∃ s, v = JStr s.
Proof.
  intros Htext. unfold query_ollama, requests_post. unfold_M.
  destruct (post env _ _) as [e|answer] eqn:Hpost; simpl.
  - destruct (Py.is_connection_error e); intros [= <- _]; eauto.
  - case_bool_decide; simpl; [|intros [= <- _]; eauto].
    destruct (json_response answer) as [[v'|]|e] eqn:Hjson; simpl.
    + intros [= <- _]. by eapply Htext.
    + intros [= <- _]. eauto.
    + destruct (Py.is_connection_error e); intros [= <- _]; eauto.
Qed.

(** The loop body of [run_test]: it has read the clock twice, called the
    client once and written one file when it prints the response. *)
Lemma single_shot_process_question (question : Question) (st : State) :
  ∃ r st' s1 s2,
    SingleShot.process_question env args question st = (shown r, st')
    ∧ SingleShot.question_id r = q_id question
    ∧ SingleShot.question_text r = q_text question
    ∧ SingleShot.system_prompt r = or_none (Args.system_prompt args)
    ∧ ask env args (JStr (q_text question)) s1 = (Py.Ok (SingleShot.response r), s2)
    ∧ requests s1 = requests st
    ∧ dirs st' = dirs st
    ∧ requests st' = requests st ++ [asked args (JStr (q_text question))]
    ∧ written st' = written st ++ [(result_file args (q_id question), SingleShot.to_json r)].
Proof.
  unfold SingleShot.process_question, time_time, write_json. unfold_M.
  fold (ask env args (JStr (q_text question))).
  match goal with
  | |- context [ask env args _ ?s] =>
      destruct (query_ollama_returns env (Args.model args) (JStr (q_text question))
                  (Args.system_prompt args) (Args.temperature args)
                  (Args.max_tokens args) s) as [answer Hanswer];
      fold (ask env args (JStr (q_text question))) in Hanswer;
      exists
        {| SingleShot.question_id := q_id question;
           SingleShot.question_text := q_text question;
           SingleShot.response := answer;
           SingleShot.processing_time_seconds :=
             round2 (clock env (S (ticks st)) - clock env (ticks st));
           SingleShot.model := Args.model args;
           SingleShot.temperature := Args.temperature args;
           SingleShot.max_tokens := Args.max_tokens args;
           SingleShot.system_prompt := or_none (Args.system_prompt args) |};
      eexists; exists s; eexists
  end.
  rewrite Hanswer. unfold shown. simpl. split.
  { by destruct (SingleShot.preview answer). }
  repeat split; reflexivity.
Qed.

(** The loop body of [run_iterations]. *)
Lemma chained_process_question (question : Question) (st : State) :
  ∃ r completions st1 st',
    Chained.process_question env args question st = (Py.Ok r, st')
    ∧ Chained.question_id r = q_id question
    ∧ Chained.question_text r = q_text question
    ∧ Chained.system_prompt r = or_none (Args.system_prompt args)
    ∧ Chained.responses r = JStr (q_text question) :: completions
    ∧ length completions = 5
    ∧ chain env args st (JStr (q_text question)) completions st1
    ∧ dirs st' = dirs st
    ∧ requests st' = requests st ++ (asked args <$> take 5 (Chained.responses r))
    ∧ written st' = written st ++ [(result_file args (q_id question), Chained.to_json r)].
Proof.
  destruct (iterate_chain env args 5 (JStr (q_text question)) [JStr (q_text question)] st)
    as (completions & st1 & Hrun & Hlen & Hchain & Hreq & Hdirs & _ & Hwr).
  eexists _, completions, st1, _. unfold Chained.process_question, write_json.
  unfold_M. rewrite Hrun. simpl. split; [reflexivity|]. simpl.
  rewrite Hwr. repeat split; done.
Qed.
End Records.

(** ** The system prompt *)

Lemma build_payload_without_system model prompt temperature max_tokens :
  build_payload model prompt "" temperature max_tokens !! "system" = None.
Proof. reflexivity. Qed.

Lemma build_payload_keys model prompt temperature max_tokens :
  dom (build_payload model prompt "" temperature max_tokens)
  = ({["model"; "prompt"; "temperature"; "max_tokens"; "stream"]} : gset string).
Proof.
  unfold build_payload. rewrite bool_decide_eq_false_2 by (intros H; by apply H).
  rewrite !dom_insert_L, dom_empty_L. set_solver.
Qed.

Lemma json_of_or_none_empty : json_of_option (or_none "") = JNull.
Proof. reflexivity. Qed.

(** C10: with an empty system prompt, the payload the client sends has no
    [system] field (its fields are those of a call without a system prompt),
    and the record that is written, in either runner, stores [system_prompt]
    as null, not as the empty string.  The loop body returns that record;
    in the single-shot runner it does so when the endpoint keeps to its
    interface, as printing a response that is no text can raise, behind the
    write. *)
Theorem empty_system_prompt_is_absent (env : Env) (args : Args.t) :
  Args.system_prompt args = "" →
  (∀ prompt st, ∃ s payload,
      ask env args prompt st = (Py.Ok s, sent (Post generate_url payload 120) st)
      ∧ payload !! "system" = None
      ∧ dom payload = ({["model"; "prompt"; "temperature"; "max_tokens"; "stream"]} : gset string))
  ∧ (∀ question st, ∃ r st' path,
      SingleShot.process_question env args question st = (shown r, st')
      ∧ (text_endpoint env →
         SingleShot.process_question env args question st = (Py.Ok r, st'))
      ∧ SingleShot.system_prompt r = None
      ∧ written st' = written st ++ [(path, SingleShot.to_json r)]
      ∧ json_field "system_prompt" (SingleShot.to_json r) = Some JNull)
  ∧ (∀ question st, ∃ r st' path,
      Chained.process_question env args question st = (Py.Ok r, st')
      ∧ Chained.system_prompt r = None
      ∧ written st' = written st ++ [(path, Chained.to_json r)]
      ∧ json_field "system_prompt" (Chained.to_json r) = Some JNull).
Proof.
  intros Hempty. split; [|split].
  - intros prompt st.
    destruct (ask_returns env args prompt st) as [s Hs].
    exists s, (build_payload (Args.model args) prompt "" (Args.temperature args)
                 (Args.max_tokens args)).
    split; [|split].
    + rewrite Hs. unfold asked, generate_request. by rewrite Hempty.
    + apply build_payload_without_system.
    + apply build_payload_keys.
  - intros question st.
    destruct (single_shot_process_question env args question st)
      as (r & st' & s1 & s2 & Hrun & _ & _ & Hsys & Hask & _ & _ & _ & Hwr).
    exists r, st', (result_file args (q_id question)).
    rewrite Hempty in Hsys.
    split; [done|]. split.
    { intros Htext. destruct (query_ollama_text env _ _ _ _ _ _ _ _ Htext Hask) as [s Hs].
      by rewrite <- (shown_text r s Hs). }
    split; [done|]. split; [done|].
    unfold json_field, SingleShot.to_json. simpl. by rewrite Hsys.
  - intros question st.
    destruct (chained_process_question env args question st)
      as (r & cs & st1 & st' & Hrun & _ & _ & Hsys & _ & _ & _ & _ & _ & Hwr).
    exists r, st', (result_file args (q_id question)).
    rewrite Hempty in Hsys.
    split; [done|]. split; [done|]. split; [done|].
    unfold json_field, Chained.to_json. simpl. by rewrite Hsys.
Qed.

Lemma empty_system_prompt_is_absent_witness :
  Args.system_prompt default_args = ""
  ∧ ∃ s payload,
      ask echo_env default_args (JStr "2+2=?") two_questions
      = (Py.Ok s, sent (Post generate_url payload 120) two_questions)
      ∧ payload !! "system" = None
      ∧ dom payload
        = ({["model"; "prompt"; "temperature"; "max_tokens"; "stream"]} : gset string).
Proof.
  split; [reflexivity|].
  destruct (empty_system_prompt_is_absent echo_env default_args eq_refl) as [Hpayload _].
  apply Hpayload.
Defined.

(** ** Sorting *)

Section SortedFacts.
Context {A : Type} (key : A → string).

Global Instance key_le_trans : Transitive (key_le key).
Proof. intros x y z. unfold key_le. apply transitivity. Qed.

Global Instance key_le_total : Total (key_le key).
Proof. intros x y. unfold key_le. apply total, _. Qed.

Lemma insert_sorted_perm x l : Py.insert_sorted key x l ≡ₚ x :: l.
Proof.
  induction l as [|y l IH]; simpl; [done|].
  case_bool_decide; [done|]. rewrite IH. apply Permutation_swap.
Qed.

Lemma sorted_perm l : Py.sorted key l ≡ₚ l.
Proof.
  induction l as [|x l IH]; simpl; [done|].
  by rewrite insert_sorted_perm, IH.
Qed.

Lemma insert_sorted_sorted x l :
  StronglySorted (key_le key) l → StronglySorted (key_le key) (Py.insert_sorted key x l).
Proof.
  induction 1 as [|y l Hl IH Hy]; simpl; [repeat constructor|].
  case_bool_decide as Hxy.
  - constructor; [by constructor|]. constructor; [done|].
    eapply Forall_impl; [exact Hy|]. intros z Hz. by etrans.
  - constructor; [done|]. rewrite insert_sorted_perm. constructor; [|done].
    destruct (total (key_le key) x y); done.
Qed.

Lemma sorted_sorted l : StronglySorted (key_le key) (Py.sorted key l).
Proof.
  induction l as [|x l IH]; simpl; [constructor|]. by apply insert_sorted_sorted.
Qed.

Lemma length_sorted l : length (Py.sorted key l) = length l.
Proof. by rewrite sorted_perm. Qed.
End SortedFacts.

Global Instance string_key_antisym : AntiSymm (=) (key_le (@id string)).
Proof. intros x y. unfold key_le, id. apply (anti_symm _). Qed.

(** The sorted listing does not depend on the order of the listing. *)
Lemma sorted_names_unique (l1 l2 : list string) :
  l1 ≡ₚ l2 → Py.sorted id l1 = Py.sorted id l2.
Proof.
  intros Hperm. apply (StronglySorted_unique (key_le id)); [apply sorted_sorted..|].
  by rewrite !sorted_perm.
Qed.

(** ** The question loaders *)

Section Loaders.
Context (questions_dir : string) (preprocess strip_codeblocks strip_html : bool).

Local Abbreviation make :=
  (question_of preprocess strip_codeblocks strip_html).

Lemma file_text_listed entries filename :
  filename ∈ entries.*1 → is_Some (file_text entries filename).
Proof.
  intros ([name content] & Heq & Hin)%list_elem_of_fmap. simpl in Heq.
  subst filename. unfold file_text.
  destruct (list_find_elem_of (λ entry, entry.1 = name) entries (name, content))
    as [found ->]; [done..|]. by eexists.
Qed.

Lemma file_text_unique entries filename content :
  NoDup entries.*1 → (filename, content) ∈ entries →
  file_text entries filename = Some content.
Proof.
  intros Hnodup Hin. unfold file_text.
  destruct (list_find_elem_of (λ entry, entry.1 = filename) entries (filename, content))
    as [[i [name c]] Hfound]; [done..|].
  rewrite Hfound. simpl.
  apply list_find_Some in Hfound as (Hi & Hname & _). simpl in Hname. subst name.
  apply list_elem_of_lookup in Hin as [j Hj].
  assert (i = j) as ->; [|by simplify_eq].
  eapply NoDup_lookup; [exact Hnodup| |]; by rewrite list_lookup_fmap; erewrite ?Hi, ?Hj.
Qed.

Lemma file_text_perm entries entries' filename :
  NoDup entries.*1 → entries' ≡ₚ entries →
  file_text entries' filename = file_text entries filename.
Proof.
  intros Hnodup Hperm.
  destruct (file_text entries filename) as [content|] eqn:Hold.
  - apply file_text_unique; [by rewrite Hperm|]. rewrite Hperm.
    unfold file_text in Hold.
    destruct (list_find _ entries) as [[i [name c]]|] eqn:Hfound; simplify_eq/=.
    apply list_find_Some in Hfound as (Hi & Hname & _). simpl in Hname. subst name.
    by eapply list_elem_of_lookup_2.
  - unfold file_text in *.
    destruct (list_find _ entries) as [found|] eqn:Hfound; [done|].
    destruct (list_find _ entries') as [[i [name c]]|] eqn:Hfound'; [|done].
    exfalso. apply list_find_Some in Hfound' as (Hi & Hname & _).
    eapply list_find_None in Hfound. rewrite Forall_forall in Hfound.
    eapply Hfound; [|exact Hname]. rewrite <- Hperm. by eapply list_elem_of_lookup_2.
Qed.

Lemma question_of_perm entries entries' filename :
  NoDup entries.*1 → entries' ≡ₚ entries →
  make entries' filename = make entries filename.
Proof.
  intros Hnodup Hperm. unfold question_of.
  by rewrite (file_text_perm entries entries').
Qed.

Lemma read_text_listed st entries filename :
  dirs st !! questions_dir = Some entries →
  filename ∈ entries.*1 →
  read_text questions_dir filename st
  = (Py.Ok (default "" (file_text entries filename)), st).
Proof.
  intros Hdir Hin. unfold read_text. rewrite Hdir.
  destruct (file_text_listed entries filename Hin) as [content Hcontent].
  rewrite Hcontent. unfold file_text in Hcontent.
  destruct (list_find _ entries) as [[i [name c]]|]; by simplify_eq/=.
Qed.

Lemma read_loop_spec st entries :
  dirs st !! questions_dir = Some entries →
  ∀ filenames questions,
    filenames ⊆ entries.*1 →
    read_loop questions_dir preprocess strip_codeblocks strip_html filenames questions st
    = (Py.Ok (questions ++ (make entries <$> filter (λ f, recognized f) filenames)), st).
Proof.
  intros Hdir. induction filenames as [|filename rest IH]; intros questions Hsub; simpl.
  - by rewrite app_nil_r.
  - fold (recognized filename).
    assert (rest ⊆ entries.*1) as Hrest by set_solver.
    destruct (recognized filename) eqn:Hrec.
    + unfold_M. rewrite (read_text_listed st entries) by set_solver.
      rewrite IH by done. rewrite filter_cons_True by (by rewrite Hrec).
      by rewrite fmap_cons, <- app_assoc.
    + rewrite IH by done. rewrite filter_cons_False by (rewrite Hrec; intros []). done.
Qed.

(** What lines 43-65 of both scripts compute. *)
Lemma read_checked_missing st :
  dirs st !! questions_dir = None →
  read_checked questions_dir preprocess strip_codeblocks strip_html st
  = (Py.Raise (not_found questions_dir), st).
Proof.
  intros Hdir. unfold read_checked, os_path_exists. unfold_M. rewrite Hdir.
  rewrite bool_decide_eq_false_2; [done|]. by intros [? [=]].
Qed.

Lemma read_checked_spec st entries :
  dirs st !! questions_dir = Some entries →
  read_checked questions_dir preprocess strip_codeblocks strip_html st
  = (match make entries <$> filter (λ f, recognized f) (Py.sorted id entries.*1) with
     | [] => Py.Raise (nothing_found questions_dir)
     | questions => Py.Ok questions
     end, st).
Proof.
  intros Hdir. unfold read_checked, os_path_exists, os_listdir. unfold_M.
  rewrite Hdir. rewrite bool_decide_eq_true_2 by eauto. simpl. rewrite Hdir.
  rewrite (read_loop_spec st entries Hdir).
  - simpl. by destruct (make entries <$> _).
  - intros x. by rewrite sorted_perm.
Qed.

Lemma length_recognized_sorted (names : list string) :
  length (filter (λ f, recognized f) (Py.sorted id names))
  = length (filter (λ f, recognized f) names).
Proof. by rewrite sorted_perm. Qed.

Lemma single_shot_loader st :
  SingleShot.read_question_files questions_dir preprocess strip_codeblocks strip_html st
  = read_checked questions_dir preprocess strip_codeblocks strip_html st.
Proof.
  unfold SingleShot.read_question_files. unfold_M.
  by destruct (read_checked _ _ _ _ st) as [[questions|e] st'].
Qed.

Lemma chained_loader st :
  Chained.read_questions questions_dir preprocess strip_codeblocks strip_html st
  = match read_checked questions_dir preprocess strip_codeblocks strip_html st with
    | (Py.Ok questions, st') => (Py.Ok (Py.sorted q_id questions), st')
    | (Py.Raise e, st') => (Py.Raise e, st')
    end.
Proof. reflexivity. Qed.

(** A loader that returns has found the directory, and its questions come
    from the recognized names of the listing. *)
Lemma loaded_questions st st' questions :
  SingleShot.read_question_files questions_dir preprocess strip_codeblocks strip_html st
    = (Py.Ok questions, st')
  ∨ Chained.read_questions questions_dir preprocess strip_codeblocks strip_html st
    = (Py.Ok questions, st') →
  ∃ entries,
    dirs st !! questions_dir = Some entries
    ∧ st' = st
    ∧ questions ≡ₚ make entries <$> filter (λ f, recognized f) entries.*1.
Proof.
  rewrite single_shot_loader, chained_loader.
  destruct (dirs st !! questions_dir) as [entries|] eqn:Hdir.
  - rewrite (read_checked_spec st entries Hdir).
    assert (make entries <$> filter (λ f, recognized f) (Py.sorted id entries.*1)
            ≡ₚ make entries <$> filter (λ f, recognized f) entries.*1) as Hperm
      by (by rewrite sorted_perm).
    destruct (make entries <$> filter _ (Py.sorted id entries.*1)) as [|q qs] eqn:Hqs.
    + intros [[=]|[=]].
    + intros [[= <- <-]|[= <- <-]]; exists entries; (split; [done|split; [done|]]).
      * done.
      * etrans; [apply (sorted_perm q_id (q :: qs))|done].
  - rewrite (read_checked_missing st Hdir). intros [[=]|[=]].
Qed.
End Loaders.

Lemma StronglySorted_filter {A} (R : relation A) (P : A → Prop) `{∀ x, Decision (P x)} l :
  StronglySorted R l → StronglySorted R (filter P l).
Proof.
  induction 1 as [|x l Hl IH Hx]; [constructor|].
  rewrite filter_cons. case_decide; [|done].
  constructor; [done|]. rewrite Forall_forall in *.
  intros y [_ Hy]%list_elem_of_filter. auto.
Qed.

(** The single-shot loader returns its questions in the order of the sorted
    file names. *)
Lemma single_shot_loader_follows_file_names
    (questions_dir : string) (preprocess strip_codeblocks strip_html : bool)
    (st st' : State) (questions : list Question) :
  SingleShot.read_question_files questions_dir preprocess strip_codeblocks strip_html st
  = (Py.Ok questions, st') →
  StronglySorted (key_le q_file) questions.
Proof.
  rewrite single_shot_loader.
  destruct (dirs st !! questions_dir) as [entries|] eqn:Hdir.
  - rewrite (read_checked_spec _ _ _ _ st entries Hdir).
    destruct (question_of _ _ _ entries <$> _) as [|q qs] eqn:Hqs; [done|].
    intros [= <- <-]. rewrite <- Hqs.
    apply (StronglySorted_fmap _ (key_le id)); [done|].
    apply StronglySorted_filter, sorted_sorted.
  - by rewrite (read_checked_missing _ _ _ _ st Hdir).
Qed.

(** C2, as the code has it: from an existing directory with n >= 1 files of a
    recognized name, both loaders return exactly n questions, one per such
    file, whatever the order of the listing; the chained loader returns them
    sorted by identifier. *)
Theorem loaders_return_every_question
    (questions_dir : string) (preprocess strip_codeblocks strip_html : bool)
    (st : State) (entries : list (string * string)) (n : nat) :
  dirs st !! questions_dir = Some entries →
  n = length (filter (λ f, recognized f) entries.*1) →
  0 < n →
  ∃ single chained,
    SingleShot.read_question_files questions_dir preprocess strip_codeblocks strip_html st
    = (Py.Ok single, st)
    ∧ Chained.read_questions questions_dir preprocess strip_codeblocks strip_html st
      = (Py.Ok chained, st)
    ∧ length single = n
    ∧ length chained = n
    ∧ q_file <$> single ≡ₚ filter (λ f, recognized f) entries.*1
    ∧ chained ≡ₚ single
    ∧ StronglySorted (key_le q_id) chained
    ∧ (∀ st' entries',
         NoDup entries.*1 → entries' ≡ₚ entries →
         dirs st' !! questions_dir = Some entries' →
         SingleShot.read_question_files questions_dir preprocess strip_codeblocks
           strip_html st' = (Py.Ok single, st')
         ∧ Chained.read_questions questions_dir preprocess strip_codeblocks
             strip_html st' = (Py.Ok chained, st')).
Proof.
  intros Hdir Hn Hpos.
  set (make := question_of preprocess strip_codeblocks strip_html).
  set (names := filter (λ f, recognized f) (Py.sorted id entries.*1)).
  assert (length names = n) as Hlen.
  { unfold names. by rewrite length_recognized_sorted. }
  assert (∀ st' entries',
            NoDup entries.*1 → entries' ≡ₚ entries →
            dirs st' !! questions_dir = Some entries' →
            read_checked questions_dir preprocess strip_codeblocks strip_html st'
            = (Py.Ok (make entries <$> names), st')) as Hany.
  { intros st' entries' Hnodup Hperm Hdir'.
    rewrite (read_checked_spec _ _ _ _ st' entries' Hdir').
    assert (Py.sorted id entries'.*1 = Py.sorted id entries.*1) as ->
      by (apply sorted_names_unique; by rewrite Hperm).
    fold names.
    assert (question_of preprocess strip_codeblocks strip_html entries' <$> names
            = make entries <$> names) as ->.
    { apply list_fmap_ext. intros _ f _. by apply question_of_perm. }
    destruct (make entries <$> names) as [|q qs] eqn:Hqs; [|done].
    apply (f_equal length) in Hqs. rewrite length_fmap, Hlen in Hqs. simpl in Hqs. lia. }
  assert (read_checked questions_dir preprocess strip_codeblocks strip_html st
          = (Py.Ok (make entries <$> names), st)) as Hhere.
  { rewrite (read_checked_spec _ _ _ _ st entries Hdir). fold names. fold make.
    destruct (make entries <$> names) as [|q qs] eqn:Hqs; [|done].
    apply (f_equal length) in Hqs. rewrite length_fmap, Hlen in Hqs. simpl in Hqs. lia. }
  exists (make entries <$> names), (Py.sorted q_id (make entries <$> names)).
  split; [by rewrite single_shot_loader|].
  split; [by rewrite chained_loader, Hhere|].
  split; [by rewrite length_fmap|].
  split; [by rewrite length_sorted, length_fmap|].
  split.
  { rewrite <- list_fmap_compose. unfold names.
    rewrite (list_fmap_ext (q_file ∘ make entries) id) by done.
    by rewrite list_fmap_id, sorted_perm. }
  split; [apply sorted_perm|].
  split; [apply sorted_sorted|].
  intros st' entries' Hnodup Hperm Hdir'.
  rewrite single_shot_loader, chained_loader, (Hany st' entries') by done. done.
Qed.

Lemma loaders_return_every_question_witness :
  ∃ single chained,
    SingleShot.read_question_files "./questions" false false false two_questions
    = (Py.Ok single, two_questions)
    ∧ Chained.read_questions "./questions" false false false two_questions
      = (Py.Ok chained, two_questions)
    ∧ length single = 2
    ∧ length chained = 2.
Proof.
  destruct (loaders_return_every_question "./questions" false false false two_questions
              [("b.txt", "Capital of France?"); ("notes.json", "{}"); ("a.txt", "2+2=?")] 2)
    as (single & chained & H1 & H2 & H3 & H4 & _); [reflexivity|reflexivity|lia|].
  exists single, chained. auto.
Defined.

(** C2 fails as stated: an existing directory without a recognized file makes
    the loaders raise instead of returning no question, and the single-shot
    loader, which follows the sorted file names, returns [a-b] in front of
    [a]. *)
Lemma loaders_counterexample :
  (∃ e, SingleShot.read_question_files "./questions" false false false no_questions
        = (Py.Raise e, no_questions)
        ∧ Chained.read_questions "./questions" false false false no_questions
          = (Py.Raise e, no_questions))
  ∧ ∃ single,
      SingleShot.read_question_files "./questions" false false false dashed_names
      = (Py.Ok single, dashed_names)
      ∧ q_id <$> single = ["a-b"; "a"]
      ∧ ¬ StronglySorted (key_le q_id) single.
Proof.
  split.
  - exists (nothing_found "./questions"). split; vm_compute; reflexivity.
  - eexists. split; [vm_compute; reflexivity|]. split; [reflexivity|].
    intros Hsorted. apply StronglySorted_inv in Hsorted as [_ Hhead].
    apply Forall_cons in Hhead as [Hle _]. vm_compute in Hle. done.
Qed.

(** ** Identifiers *)

Lemma app_cons a s1 s2 : String a s1 +:+ s2 = String a (s1 +:+ s2).
Proof. reflexivity. Qed.

Lemma app_empty_r s : s +:+ "" = s.
Proof. induction s as [|a s IH]; [done|]. by rewrite app_cons, IH. Qed.

Lemma take_drop n : ∀ s, Py.take n s +:+ Py.drop n s = s.
Proof.
  induction n as [|n IH]; intros [|a s]; simpl; try done.
  by rewrite app_cons, IH.
Qed.

(** [os.path.splitext]: root + ext == path. *)
Lemma splitext_join p : (Py.splitext p).1 +:+ (Py.splitext p).2 = p.
Proof.
  unfold Py.splitext. case_bool_decide; simpl; [|apply app_empty_r].
  destruct (Py.all_dots _); simpl; [apply app_empty_r|apply take_drop].
Qed.

(** C3, as the code has it: the identifier of a question is its file name
    without the extension that [os.path.splitext] splits off, so within a run
    two questions with the same identifier and the same split-off extension
    are one question, from one file; files that differ in that extension only
    share their identifier. *)
Theorem identifiers_unique_up_to_extension
    (questions_dir : string) (preprocess strip_codeblocks strip_html : bool)
    (st st' : State) (questions : list Question) :
  SingleShot.read_question_files questions_dir preprocess strip_codeblocks strip_html st
    = (Py.Ok questions, st')
  ∨ Chained.read_questions questions_dir preprocess strip_codeblocks strip_html st
    = (Py.Ok questions, st') →
  (∀ q, q ∈ questions →
        q_file q = q_id q +:+ (Py.splitext (q_file q)).2 ∧ recognized (q_file q))
  ∧ (∀ q1 q2, q1 ∈ questions → q2 ∈ questions →
        q_id q1 = q_id q2 →
        (Py.splitext (q_file q1)).2 = (Py.splitext (q_file q2)).2 →
        q1 = q2).
Proof.
  intros (entries & Hdir & -> & Hperm)%loaded_questions.
  assert (∀ q, q ∈ questions →
            ∃ f, q = question_of preprocess strip_codeblocks strip_html entries f
                 ∧ recognized f) as Hfrom.
  { intros q. rewrite Hperm. intros (f & -> & Hf)%list_elem_of_fmap.
    apply list_elem_of_filter in Hf as [Hrec _]. eauto. }
  split.
  - intros q (f & -> & Hrec)%Hfrom. simpl. by rewrite splitext_join.
  - intros q1 q2 (f1 & -> & _)%Hfrom (f2 & -> & _)%Hfrom. simpl. intros Hid Hext.
    assert (f1 = f2) as ->; [|done].
    by rewrite <- (splitext_join f1), <- (splitext_join f2), Hid, Hext.
Qed.

Lemma identifiers_unique_up_to_extension_witness :
  let entries := [("a.txt", "first"); ("a.md", "second")] in
  let from_md := question_of false false false entries "a.md" in
  let from_txt := question_of false false false entries "a.txt" in
  Chained.read_questions "./questions" false false false two_extensions
  = (Py.Ok [from_md; from_txt], two_extensions)
  ∧ q_file from_md = q_id from_md +:+ (Py.splitext (q_file from_md)).2
  ∧ recognized (q_file from_md).
Proof.
  intros entries from_md from_txt.
  assert (Chained.read_questions "./questions" false false false two_extensions
          = (Py.Ok [from_md; from_txt], two_extensions)) as Hload
    by (vm_compute; reflexivity).
  split; [exact Hload|].
  destruct (identifiers_unique_up_to_extension "./questions" false false false
              two_extensions two_extensions [from_md; from_txt] (or_intror Hload))
    as [Hfile _].
  apply Hfile. apply list_elem_of_here.
Defined.

(** C3 fails as stated: [a.md] and [a.txt] are two files of one directory
    and both yield the identifier [a]. *)
Lemma identifiers_counterexample :
  ∃ questions q1 q2,
    SingleShot.read_question_files "./questions" false false false two_extensions
    = (Py.Ok questions, two_extensions)
    ∧ Chained.read_questions "./questions" false false false two_extensions
      = (Py.Ok questions, two_extensions)
    ∧ q1 ∈ questions ∧ q2 ∈ questions
    ∧ q_file q1 = "a.md" ∧ q_file q2 = "a.txt"
    ∧ q_id q1 = "a" ∧ q_id q2 = "a".
Proof.
  eexists _, _, _. split; [vm_compute; reflexivity|].
  split; [vm_compute; reflexivity|].
  split; [apply list_elem_of_here|].
  split; [apply list_elem_of_further, list_elem_of_here|].
  repeat split.
Qed.

(** ** Whole runs *)

(** What [os.makedirs] leaves as it is, and what it makes. *)
Lemma makedirs_existing fuel : ∀ name directories d entries,
  directories !! d = Some entries →
  directories !! name = None →
  makedirs fuel name directories !! d = Some entries.
Proof.
  induction fuel as [|fuel IH]; intros name directories d entries Hd Hname;
    cbn [makedirs]; destruct (makedirs_split name) as [head tail];
    (rewrite lookup_insert_ne by congruence); [done|].
  destruct (negb (bool_decide (head = "")) && negb (bool_decide (tail = ""))
            && negb (bool_decide (is_Some (directories !! head)))) eqn:Hmake; [|done].
  apply andb_true_iff in Hmake as [_ Hmissing].
  apply negb_true_iff, bool_decide_eq_false in Hmissing.
  apply IH; [done|]. by apply eq_None_not_Some.
Qed.

Lemma makedirs_missing fuel : ∀ name directories d,
  directories !! d = None →
  makedirs fuel name directories !! d = None
  ∨ makedirs fuel name directories !! d = Some [].
Proof.
  induction fuel as [|fuel IH]; intros name directories d Hd;
    cbn [makedirs]; destruct (makedirs_split name) as [head tail];
    (destruct (decide (name = d)) as [->|Hne];
     [right; by rewrite lookup_insert_eq|rewrite lookup_insert_ne by done]);
    [by left|].
  destruct (negb (bool_decide (head = "")) && negb (bool_decide (tail = ""))
            && negb (bool_decide (is_Some (directories !! head)))); [|by left].
  by apply IH.
Qed.


Section Runs.
Context (env : Env) (args : Args.t).

Lemma ensure_output_dir_prepared st :
  ensure_output_dir (Args.output_dir args) st = (Py.Ok (), prepared args st).
Proof.
  unfold prepared, ensure_output_dir, os_path_exists, os_makedirs. unfold_M.
  by case_bool_decide.
Qed.

Lemma prepared_unchanged st :
  requests (prepared args st) = requests st
  ∧ ticks (prepared args st) = ticks st
  ∧ written (prepared args st) = written st.
Proof.
  unfold prepared, ensure_output_dir, os_path_exists, os_makedirs. unfold_M.
  by case_bool_decide.
Qed.

(** A directory that exists is still there, with its entries, when the
    loader runs. *)
Lemma prepared_existing st d entries :
  dirs st !! d = Some entries → dirs (prepared args st) !! d = Some entries.
Proof.
  intros Hd. unfold prepared, ensure_output_dir, os_path_exists, os_makedirs.
  unfold_M. case_bool_decide as Hout; simpl; [done|].
  apply makedirs_existing; [done|]. by apply eq_None_not_Some.
Qed.

(** A directory that is missing is still missing, unless it is the output
    directory, which has been created empty. *)
Lemma prepared_missing st d :
  dirs st !! d = None →
  dirs (prepared args st) !! d = None ∨ dirs (prepared args st) !! d = Some [].
Proof.
  intros Hd. unfold prepared, ensure_output_dir, os_path_exists, os_makedirs.
  unfold_M. case_bool_decide as Hout; simpl; [by left|].
  by apply makedirs_missing.
Qed.

(** The loop of [run_test]: it goes through the questions until the
    response of one cannot be printed; the record of that question has
    been written as well. *)
Lemma single_shot_process_questions questions : ∀ results st,
  ∃ more st',
    Forall2 (answered env args) (take (length more) questions) more
    ∧ dirs st' = dirs st
    ∧ written st' = written st ++ single_shot_records args more
    ∧ ((SingleShot.process_questions env args questions results st
        = (Py.Ok (results ++ more), st')
        ∧ length more = length questions)
       ∨ (∃ e r, last more = Some r
                 ∧ shown r = Py.Raise e
                 ∧ SingleShot.process_questions env args questions results st
                   = (Py.Raise e, st'))).
Proof.
  induction questions as [|q questions IH]; intros results st; simpl.
  - exists [], st. rewrite !app_nil_r. split; [constructor|]. by repeat split; try left.
  - destruct (single_shot_process_question env args q st)
      as (r & st1 & s1 & s2 & Hrun & Hid & Htext & _ & Hask & _ & Hdirs & _ & Hwr).
    assert (answered env args q r) as Hr by (unfold answered; eauto).
    unfold_M. rewrite Hrun. destruct (shown r) as [r'|e] eqn:Hshown.
    + assert (r' = r) as ->.
      { unfold shown in Hshown. destruct (SingleShot.preview _); congruence. }
      destruct (IH (results ++ [r]) st1)
        as (more & st' & Hall & Hdirs' & Hwr' & Hend).
      exists (r :: more), st'. simpl. split; [by constructor|].
      split; [congruence|]. split.
      { rewrite Hwr', Hwr, <- app_assoc. unfold single_shot_records. simpl.
        by rewrite Hid. }
      rewrite <- app_assoc in Hend. simpl in Hend.
      destruct Hend as [[Hrest Hlen]|(e & r' & Hlast & Hraise & Hrest)].
      * left. by rewrite Hlen.
      * right. exists e, r'. split; [|done].
        destruct more; [done|]. done.
    + exists [r], st1. simpl. rewrite take_0. split; [constructor; [exact Hr|constructor]|].
      split; [done|].
      split; [by rewrite Hwr; unfold single_shot_records; simpl; rewrite Hid|].
      right. by exists e, r.
Qed.

(** The response of a record is text when the endpoint keeps to its
    interface, and the loop body then returns. *)
Lemma answered_text q r :
  text_endpoint env → answered env args q r → ∃ s, SingleShot.response r = JStr s.
Proof.
  intros Htext (_ & _ & s1 & s2 & Hask). by eapply query_ollama_text.
Qed.

Lemma answered_shown q r :
  text_endpoint env → answered env args q r → shown r = Py.Ok r.
Proof.
  intros Htext Hr. destruct (answered_text q r Htext Hr) as [s Hs].
  by eapply shown_text.
Qed.

Lemma chained_process_questions questions : ∀ results st,
  ∃ more st',
    Chained.process_questions env args questions results st
    = (Py.Ok (results ++ more), st')
    ∧ Forall2 (iterated env args) questions more
    ∧ dirs st' = dirs st
    ∧ written st' = written st ++ chained_records args more.
Proof.
  induction questions as [|q questions IH]; intros results st; simpl.
  - exists [], st. rewrite !app_nil_r. by repeat split.
  - destruct (chained_process_question env args q st)
      as (r & cs & s2 & st1 & Hrun & Hid & Htext & _ & Hresp & Hlen & Hchain
          & Hdirs & _ & Hwr).
    destruct (IH (results ++ [r]) st1) as (more & st' & Hrest & Hall & Hdirs' & Hwr').
    exists (r :: more), st'. unfold_M. rewrite Hrun, Hrest, <- app_assoc.
    split; [done|]. split.
    { constructor; [|done]. unfold iterated. eauto 10. }
    split; [congruence|].
    rewrite Hwr', Hwr, <- app_assoc. unfold chained_records. simpl.
    by rewrite Hid.
Qed.

(** [run_test], by what the loader does in the prepared state. *)
Lemma run_test_raises st e :
  SingleShot.read_question_files (Args.questions_dir args) (Args.preprocess args)
    (Args.strip_codeblocks args) (Args.strip_html args) (prepared args st)
  = (Py.Raise e, prepared args st) →
  SingleShot.run_test env args st = (Py.Raise e, prepared args st).
Proof.
  intros Hload. unfold SingleShot.run_test. unfold_M.
  by rewrite ensure_output_dir_prepared, Hload.
Qed.

(** With the questions loaded, [run_test] returns a record for every
    question and writes the aggregate, or stops at the first response that
    cannot be printed, the aggregate not written. *)
Lemma run_test_returns st questions :
  SingleShot.read_question_files (Args.questions_dir args) (Args.preprocess args)
    (Args.strip_codeblocks args) (Args.strip_html args) (prepared args st)
  = (Py.Ok questions, prepared args st) →
  ∃ results st',
    Forall2 (answered env args) (take (length results) questions) results
    ∧ dirs st' = dirs (prepared args st)
    ∧ ((SingleShot.run_test env args st = (Py.Ok results, st')
        ∧ length results = length questions
        ∧ written st' = written st ++ single_shot_files args results)
       ∨ (∃ e r, last results = Some r
                 ∧ shown r = Py.Raise e
                 ∧ SingleShot.run_test env args st = (Py.Raise e, st')
                 ∧ written st' = written st ++ single_shot_records args results)).
Proof.
  intros Hload.
  destruct (single_shot_process_questions questions [] (prepared args st))
    as (results & st1 & Hall & Hdirs & Hwr & Hend).
  destruct (prepared_unchanged st) as (_ & _ & Hsame). rewrite Hsame in Hwr.
  unfold SingleShot.run_test, write_json. unfold_M.
  rewrite ensure_output_dir_prepared, Hload.
  destruct Hend as [[Hrun Hlen]|(e & r & Hlast & Hraise & Hrun)]; rewrite Hrun.
  - exists results,
      (write_json (all_results_file args) (JList (SingleShot.to_json <$> results)) st1).2.
    split; [done|]. split; [exact Hdirs|]. left.
    split; [reflexivity|]. split; [done|]. simpl.
    rewrite Hwr. unfold single_shot_files, all_results_file.
    by rewrite <- app_assoc.
  - exists results, st1. split; [done|]. split; [done|]. right. by exists e, r.
Qed.

Lemma run_iterations_raises st e :
  Chained.read_questions (Args.questions_dir args) (Args.preprocess args)
    (Args.strip_codeblocks args) (Args.strip_html args) (prepared args st)
  = (Py.Raise e, prepared args st) →
  Chained.run_iterations env args st = (Py.Raise e, prepared args st).
Proof.
  intros Hload. unfold Chained.run_iterations. unfold_M.
  by rewrite ensure_output_dir_prepared, Hload.
Qed.

Lemma run_iterations_returns st questions :
  Chained.read_questions (Args.questions_dir args) (Args.preprocess args)
    (Args.strip_codeblocks args) (Args.strip_html args) (prepared args st)
  = (Py.Ok questions, prepared args st) →
  ∃ results st',
    Chained.run_iterations env args st = (Py.Ok results, st')
    ∧ Forall2 (iterated env args) questions results
    ∧ written st' = written st ++ chained_files args results.
Proof.
  intros Hload.
  destruct (chained_process_questions questions [] (prepared args st))
    as (results & st1 & Hrun & Hall & _ & Hwr).
  exists results. eexists. unfold Chained.run_iterations, write_json. unfold_M.
  rewrite ensure_output_dir_prepared, Hload, Hrun. simpl.
  split; [reflexivity|]. split; [done|]. simpl.
  destruct (prepared_unchanged st) as (_ & _ & Hsame).
  rewrite Hwr, Hsame. unfold chained_files, all_results_file.
  by rewrite <- app_assoc.
Qed.
End Runs.

(** ** How the scripts end *)

Section Mains.
Context (env : Env) (args : Args.t).

Local Abbreviation questions_dir := (Args.questions_dir args).

Lemma check_model_availability_returns model st :
  ∃ b, SingleShot.check_model_availability env model st = (Py.Ok b, checked st).
Proof.
  unfold SingleShot.check_model_availability, requests_get, checked. unfold_M.
  destruct (get env _ _) as [e|response]; simpl; [eauto|].
  case_bool_decide; simpl; [|eauto].
  destruct (tags_models response) as [models|e]; simpl; [|eauto].
  destruct (existsb (is_str model) models); [eauto|].
  destruct (join models); simpl; eauto.
Qed.

Lemma prepared_checked st :
  dirs (prepared args (checked st)) = dirs (prepared args st)
  ∧ written (prepared args (checked st)) = written st.
Proof.
  unfold prepared, checked, ensure_output_dir, os_path_exists, os_makedirs.
  unfold_M. simpl. by case_bool_decide.
Qed.

Lemma questions_in_length entries :
  length (questions_in args entries) = length (filter (λ f, recognized f) entries.*1).
Proof. unfold questions_in. by rewrite length_fmap, length_recognized_sorted. Qed.

(** The loaders in a state whose input directory is missing, is without a
    recognized file, or has one. *)
Lemma loaders_missing st :
  dirs st !! questions_dir = None →
  SingleShot.read_question_files questions_dir (Args.preprocess args)
    (Args.strip_codeblocks args) (Args.strip_html args) st
  = (Py.Raise (not_found questions_dir), st)
  ∧ Chained.read_questions questions_dir (Args.preprocess args)
      (Args.strip_codeblocks args) (Args.strip_html args) st
    = (Py.Raise (not_found questions_dir), st).
Proof.
  intros Hdir. by rewrite single_shot_loader, chained_loader, read_checked_missing.
Qed.

Lemma loaders_nothing st entries :
  dirs st !! questions_dir = Some entries →
  filter (λ f, recognized f) entries.*1 = [] →
  SingleShot.read_question_files questions_dir (Args.preprocess args)
    (Args.strip_codeblocks args) (Args.strip_html args) st
  = (Py.Raise (nothing_found questions_dir), st)
  ∧ Chained.read_questions questions_dir (Args.preprocess args)
      (Args.strip_codeblocks args) (Args.strip_html args) st
    = (Py.Raise (nothing_found questions_dir), st).
Proof.
  intros Hdir Hnone.
  rewrite single_shot_loader, chained_loader, (read_checked_spec _ _ _ _ st entries Hdir).
  fold (questions_in args entries).
  destruct (questions_in args entries) as [|q qs] eqn:Hqs; [done|].
  apply (f_equal length) in Hqs. rewrite questions_in_length, Hnone in Hqs. done.
Qed.

Lemma loaders_something st entries :
  dirs st !! questions_dir = Some entries →
  0 < length (filter (λ f, recognized f) entries.*1) →
  SingleShot.read_question_files questions_dir (Args.preprocess args)
    (Args.strip_codeblocks args) (Args.strip_html args) st
  = (Py.Ok (questions_in args entries), st)
  ∧ Chained.read_questions questions_dir (Args.preprocess args)
      (Args.strip_codeblocks args) (Args.strip_html args) st
    = (Py.Ok (Py.sorted q_id (questions_in args entries)), st).
Proof.
  intros Hdir Hsome.
  rewrite single_shot_loader, chained_loader, (read_checked_spec _ _ _ _ st entries Hdir).
  fold (questions_in args entries).
  destruct (questions_in args entries) as [|q qs] eqn:Hqs; [|done].
  apply (f_equal length) in Hqs. rewrite questions_in_length in Hqs. simpl in Hqs. lia.
Qed.

(** The mean of the single-shot script is defined as soon as there is a
    record. *)
Lemma single_shot_average results :
  results ≠ [] → ∃ avg, SingleShot.average_time results = Py.Ok avg.
Proof.
  intros Hsome. unfold SingleShot.average_time, div_len.
  rewrite bool_decide_eq_false_2; [eauto|]. by destruct results.
Qed.

(** The sum of the chained script fails at its first record when the last
    response of that record is text. *)
Lemma chained_average results :
  results ≠ [] →
  Forall (λ r, ∃ s, last (Chained.responses r) = Some (JStr s)) results →
  Chained.average_time results = Py.Raise (Py.Exn Py.TypeError type_error_text).
Proof.
  intros Hsome Htext. destruct results as [|r results]; [done|].
  apply Forall_cons in Htext as [[s Hr] _]. unfold Chained.average_time. simpl.
  by rewrite Hr.
Qed.

(** Along a chain, the completions of an endpoint that keeps to its
    interface are text. *)
Lemma chain_text st prompt completions st' :
  text_endpoint env →
  chain env args st prompt completions st' →
  Forall (λ v, ∃ s, v = JStr s) completions.
Proof.
  intros Htext. induction 1 as [|st1 st2 st3 prompt completion rest Hask _ IH];
    constructor; [|done].
  by eapply query_ollama_text.
Qed.

Lemma iterated_text questions results :
  text_endpoint env →
  Forall2 (iterated env args) questions results →
  Forall (λ r, ∃ s, last (Chained.responses r) = Some (JStr s)) results.
Proof.
  intros Htext.
  induction 1 as [|q r qs rs (_ & _ & cs & s1 & s2 & Hresp & Hlen & Hchain) _ IH];
    constructor; [|done].
  apply chain_text in Hchain; [|done]. rewrite Hresp.
  destruct cs as [|c cs _] using rev_ind; [done|].
  apply Forall_app in Hchain as [_ [[s ->] _]%Forall_cons].
  exists s. by rewrite app_comm_cons, last_snoc.
Qed.


Lemma single_shot_main_raises st e st' :
  SingleShot.run_test env args (checked st) = (Py.Raise e, st') →
  SingleShot.main_try env args st = (Py.Raise e, st')
  ∧ SingleShot.main env args st
    = {| printed := Some (ErrorDuringTesting (Py.str_exn e)); exit_status := 0;
         final := st' |}.
Proof.
  intros Hrun.
  destruct (check_model_availability_returns (Args.model args) st) as [b Hb].
  assert (SingleShot.main_try env args st = (Py.Raise e, st'))
    as Htry.
  { unfold SingleShot.main_try. unfold_M. by rewrite Hb, Hrun. }
  split; [done|].
  unfold SingleShot.main, run_script, SingleShot.main_body. unfold_M.
  by rewrite Htry.
Qed.

Lemma single_shot_main_returns st results st' :
  SingleShot.run_test env args (checked st) = (Py.Ok results, st') →
  results ≠ [] →
  ∃ avg,
    SingleShot.average_time results = Py.Ok avg
    ∧ SingleShot.main_try env args st = (Py.Ok (AverageResponseTime avg), st')
    ∧ SingleShot.main env args st
      = {| printed := Some (AverageResponseTime avg); exit_status := 0; final := st' |}.
Proof.
  intros Hrun Hsome.
  destruct (check_model_availability_returns (Args.model args) st) as [b Hb].
  destruct (single_shot_average results Hsome) as [avg Havg].
  exists avg. split; [done|].
  assert (SingleShot.main_try env args st = (Py.Ok (AverageResponseTime avg), st'))
    as Htry.
  { unfold SingleShot.main_try. unfold_M. by rewrite Hb, Hrun, Havg. }
  split; [done|].
  unfold SingleShot.main, run_script, SingleShot.main_body. unfold_M.
  by rewrite Htry.
Qed.

Lemma chained_main_raises st e :
  Chained.run_iterations env args st = (Py.Raise e, prepared args st) →
  Chained.main_try env args st = (Py.Raise e, prepared args st)
  ∧ Chained.main env args st
    = {| printed := Some (ErrorDuringTesting (Py.str_exn e)); exit_status := 0;
         final := prepared args st |}.
Proof.
  intros Hrun.
  assert (Chained.main_try env args st = (Py.Raise e, prepared args st)) as Htry.
  { unfold Chained.main_try. unfold_M. by rewrite Hrun. }
  split; [done|].
  unfold Chained.main, run_script, Chained.main_body. unfold_M. by rewrite Htry.
Qed.

Lemma chained_main_returns st results st' e :
  Chained.run_iterations env args st = (Py.Ok results, st') →
  Chained.average_time results = Py.Raise e →
  Chained.main_try env args st = (Py.Raise e, st')
  ∧ Chained.main env args st
    = {| printed := Some (ErrorDuringTesting (Py.str_exn e)); exit_status := 0;
         final := st' |}.
Proof.
  intros Hrun Havg.
  assert (Chained.main_try env args st = (Py.Raise e, st')) as Htry.
  { unfold Chained.main_try. unfold_M. by rewrite Hrun, Havg. }
  split; [done|].
  unfold Chained.main, run_script, Chained.main_body. unfold_M. by rewrite Htry.
Qed.

Lemma chained_main_mean st results st' avg :
  Chained.run_iterations env args st = (Py.Ok results, st') →
  Chained.average_time results = Py.Ok avg →
  Chained.main_try env args st = (Py.Ok (AverageResponseTime avg), st')
  ∧ Chained.main env args st
    = {| printed := Some (AverageResponseTime avg); exit_status := 0; final := st' |}.
Proof.
  intros Hrun Havg.
  assert (Chained.main_try env args st = (Py.Ok (AverageResponseTime avg), st'))
    as Htry.
  { unfold Chained.main_try. unfold_M. by rewrite Hrun, Havg. }
  split; [done|].
  unfold Chained.main, run_script, Chained.main_body. unfold_M. by rewrite Htry.
Qed.
End Mains.

Section Outcomes.
Context (env : Env) (args : Args.t).

Local Abbreviation questions_dir := (Args.questions_dir args).

(** A run of [run_test] stops in the loader, with one of its two errors
    and nothing written, or goes through the questions of a directory that
    has some: it returns a record for every question, or it stops behind
    the record whose response cannot be printed. *)
Lemma run_test_cases st :
  (∃ e, (e = not_found questions_dir ∧ dirs (prepared args st) !! questions_dir = None
         ∨ e = nothing_found questions_dir
           ∧ ∃ entries, dirs (prepared args st) !! questions_dir = Some entries
                        ∧ filter (λ f, recognized f) entries.*1 = [])
        ∧ SingleShot.run_test env args st = (Py.Raise e, prepared args st))
  ∨ (∃ entries results st',
        dirs (prepared args st) !! questions_dir = Some entries
        ∧ 0 < length (filter (λ f, recognized f) entries.*1)
        ∧ Forall2 (answered env args)
            (take (length results) (questions_in args entries)) results
        ∧ dirs st' = dirs (prepared args st)
        ∧ ((SingleShot.run_test env args st = (Py.Ok results, st')
            ∧ length results = length (questions_in args entries)
            ∧ written st' = written st ++ single_shot_files args results)
           ∨ (∃ e r, last results = Some r
                     ∧ shown r = Py.Raise e
                     ∧ SingleShot.run_test env args st = (Py.Raise e, st')
                     ∧ written st' = written st ++ single_shot_records args results))).
Proof.
  destruct (dirs (prepared args st) !! questions_dir) as [entries|] eqn:Hdir.
  - destruct (filter (λ f, recognized f) entries.*1) as [|f fs] eqn:Hrec.
    + left. exists (nothing_found questions_dir). split; [right; eauto|].
      apply run_test_raises. by apply (loaders_nothing args _ entries).
    + right.
      assert (0 < length (filter (λ f, recognized f) entries.*1)) as Hpos
        by (rewrite Hrec; simpl; lia).
      destruct (loaders_something args _ entries Hdir Hpos) as [Hload _].
      destruct (run_test_returns env args st _ Hload)
        as (results & st' & Hall & Hdirs & Hend).
      exists entries, results, st'. by repeat split.
  - left. exists (not_found questions_dir). split; [by left|].
    apply run_test_raises. by apply loaders_missing.
Qed.

(** With an endpoint that keeps to its interface every response can be
    printed, and a run that has found questions returns. *)
Lemma run_test_text st :
  text_endpoint env →
  (∃ e, (e = not_found questions_dir ∧ dirs (prepared args st) !! questions_dir = None
         ∨ e = nothing_found questions_dir
           ∧ ∃ entries, dirs (prepared args st) !! questions_dir = Some entries
                        ∧ filter (λ f, recognized f) entries.*1 = [])
        ∧ SingleShot.run_test env args st = (Py.Raise e, prepared args st))
  ∨ (∃ entries results st',
        dirs (prepared args st) !! questions_dir = Some entries
        ∧ 0 < length (filter (λ f, recognized f) entries.*1)
        ∧ SingleShot.run_test env args st = (Py.Ok results, st')
        ∧ Forall2 (answered env args) (questions_in args entries) results
        ∧ written st' = written st ++ single_shot_files args results).
Proof.
  intros Htext.
  destruct (run_test_cases st)
    as [Hraise|(entries & results & st' & Hdir & Hpos & Hall & _ & Hend)];
    [by left|].
  right. exists entries, results, st'.
  destruct Hend as [(Hrun & Hlen & Hwr)|(e & r & Hlast & Hshown & _)].
  - rewrite take_ge in Hall by lia. by repeat split.
  - exfalso. apply last_Some in Hlast as [done ->].
    apply Forall2_app_inv_r in Hall as (qs1 & qs2 & _ & Hr & _).
    apply Forall2_cons_inv_r in Hr as (q & qs & Hr & _ & _).
    rewrite (answered_shown env args q r Htext Hr) in Hshown. done.
Qed.

Lemma run_iterations_cases st :
  (∃ e, (e = not_found questions_dir ∧ dirs (prepared args st) !! questions_dir = None
         ∨ e = nothing_found questions_dir
           ∧ ∃ entries, dirs (prepared args st) !! questions_dir = Some entries
                        ∧ filter (λ f, recognized f) entries.*1 = [])
        ∧ Chained.run_iterations env args st = (Py.Raise e, prepared args st))
  ∨ (∃ entries results st',
        dirs (prepared args st) !! questions_dir = Some entries
        ∧ 0 < length (filter (λ f, recognized f) entries.*1)
        ∧ Chained.run_iterations env args st = (Py.Ok results, st')
        ∧ Forall2 (iterated env args) (Py.sorted q_id (questions_in args entries)) results
        ∧ written st' = written st ++ chained_files args results).
Proof.
  destruct (dirs (prepared args st) !! questions_dir) as [entries|] eqn:Hdir.
  - destruct (filter (λ f, recognized f) entries.*1) as [|f fs] eqn:Hrec.
    + left. exists (nothing_found questions_dir). split; [right; eauto|].
      apply run_iterations_raises. by apply (loaders_nothing args _ entries).
    + right.
      assert (0 < length (filter (λ f, recognized f) entries.*1)) as Hpos
        by (rewrite Hrec; simpl; lia).
      destruct (loaders_something args _ entries Hdir Hpos) as [_ Hload].
      destruct (run_iterations_returns env args st _ Hload)
        as (results & st' & ? & ? & ?).
      exists entries, results, st'. by repeat split.
  - left. exists (not_found questions_dir). split; [by left|].
    apply run_iterations_raises. by apply loaders_missing.
Qed.

Lemma answered_some entries results :
  0 < length (filter (λ f, recognized f) entries.*1) →
  Forall2 (answered env args) (questions_in args entries) results →
  length results = length (filter (λ f, recognized f) entries.*1) ∧ results ≠ [].
Proof.
  intros Hpos Hall. apply Forall2_length in Hall.
  rewrite questions_in_length in Hall. split; [done|].
  intros ->. simpl in Hall. lia.
Qed.

Lemma iterated_some entries results :
  0 < length (filter (λ f, recognized f) entries.*1) →
  Forall2 (iterated env args) (Py.sorted q_id (questions_in args entries)) results →
  length results = length (filter (λ f, recognized f) entries.*1) ∧ results ≠ [].
Proof.
  intros Hpos Hall. apply Forall2_length in Hall.
  rewrite length_sorted, questions_in_length in Hall. split; [done|].
  intros ->. simpl in Hall. lia.
Qed.

(** What printing a response raises is a type error. *)
Lemma shown_raises r e : shown r = Py.Raise e → Py.exn_cls e = Py.TypeError.
Proof.
  unfold shown, SingleShot.preview, len, has_slice.
  destruct (SingleShot.response r); simpl; try (by intros [= <-]);
    by case_bool_decide; intros [= <-].
Qed.

(** With an endpoint that cannot be reached, every completion is the
    connection error text. *)
Lemma answered_unreachable q r :
  unreachable env → answered env args q r →
  SingleShot.response r = JStr connect_error_text.
Proof.
  intros Hdown (_ & _ & s1 & s2 & Hask).
  destruct (Hdown (requests s1) (asked args (JStr (q_text q)))) as (e & Hpost & Hconn).
  unfold ask in Hask.
  rewrite (query_ollama_unreachable env _ _ _ _ _ s1 e Hpost Hconn) in Hask.
  by injection Hask as <- _.
Qed.

Lemma unreachable_text : unreachable env → text_endpoint env.
Proof.
  intros Hdown history r answer v Hpost _.
  destruct (Hdown history r) as (e & He & _). congruence.
Qed.

(** What the file of a record holds. *)
Lemma single_shot_record_fields (r : SingleShot.Result) :
  json_field "question_id" (SingleShot.to_json r) = Some (JStr (SingleShot.question_id r))
  ∧ json_field "question_text" (SingleShot.to_json r)
    = Some (JStr (SingleShot.question_text r))
  ∧ json_field "response" (SingleShot.to_json r) = Some (SingleShot.response r).
Proof. by repeat split. Qed.

Lemma chained_record_fields (r : Chained.Result) :
  json_field "question_id" (Chained.to_json r) = Some (JStr (Chained.question_id r))
  ∧ json_field "question_text" (Chained.to_json r) = Some (JStr (Chained.question_text r))
  ∧ json_field "responses" (Chained.to_json r) = Some (JList (Chained.responses r)).
Proof. by repeat split. Qed.

(** C5: with an endpoint that cannot be reached, a single-shot run over a
    directory with n >= 1 questions writes one record per question and the
    aggregate; the file of a question is [<id>_result.json], and what it
    holds under [response] is the connection error text, an error string;
    the aggregate is the list of what the record files hold.  The script
    runs to its end: it reports the mean of the n elapsed times and exits
    with status 0. *)
Theorem unreachable_endpoint_run (st : State) (entries : list (string * string)) (n : nat) :
  unreachable env →
  dirs st !! questions_dir = Some entries →
  n = length (filter (λ f, recognized f) entries.*1) →
  0 < n →
  ∃ results avg,
    printed (SingleShot.main env args st) = Some (AverageResponseTime avg)
    ∧ exit_status (SingleShot.main env args st) = 0%Z
    ∧ written (final (SingleShot.main env args st))
      = written st ++ single_shot_files args results
    ∧ single_shot_files args results
      = single_shot_records args results
        ++ [(all_results_file args, JList (single_shot_records args results).*2)]
    ∧ Forall2 (answered env args) (questions_in args entries) results
    ∧ length results = n
    ∧ Forall (λ r, SingleShot.response r = JStr connect_error_text
                   ∧ is_error_value (SingleShot.response r) = true) results
    ∧ Forall2 (λ q file,
                 file.1 = result_file args (q_id q)
                 ∧ json_field "question_id" file.2 = Some (JStr (q_id q))
                 ∧ json_field "question_text" file.2 = Some (JStr (q_text q))
                 ∧ json_field "response" file.2 = Some (JStr connect_error_text))
        (questions_in args entries) (single_shot_records args results)
    ∧ SingleShot.average_time results = Py.Ok avg.
Proof.
  intros Hdown Hdir -> Hpos.
  assert (dirs (prepared args (checked st)) !! questions_dir = Some entries) as Hdir'.
  { destruct (prepared_checked args st) as [-> _]. by apply prepared_existing. }
  destruct (run_test_text (checked st) (unreachable_text Hdown))
    as [(e & [[_ Hnone]|(_ & entries' & Hdir'' & Hnone)] & _)
       |(entries' & results & st' & Hdir'' & _ & Hrun & Hall & Hwr)].
  { congruence. }
  { assert (entries' = entries) as -> by congruence. rewrite Hnone in Hpos.
    simpl in Hpos. lia. }
  assert (entries' = entries) as -> by congruence.
  destruct (answered_some entries results Hpos Hall) as [Hlen Hsome].
  destruct (single_shot_main_returns env args st results st' Hrun Hsome)
    as (avg & Havg & _ & Hmain).
  exists results, avg. rewrite Hmain. simpl.
  split; [done|]. split; [done|]. split; [done|]. split.
  { unfold single_shot_files, single_shot_records.
    by rewrite <- list_fmap_compose. }
  split; [done|]. split; [done|]. split; [|split; [|done]].
  - clear -Hall Hdown. induction Hall as [|q r qs rs Hr _ IH]; constructor; [|done].
    by rewrite (answered_unreachable q r Hdown Hr).
  - clear -Hall Hdown. unfold single_shot_records.
    induction Hall as [|q r qs rs Hr _ IH]; [constructor|].
    rewrite fmap_cons. constructor; [|done]. cbv beta. cbn [fst snd].
    pose proof (answered_unreachable q r Hdown Hr) as Hresp.
    destruct Hr as (Hid & Htext & _).
    destruct (single_shot_record_fields r) as (-> & -> & ->).
    by rewrite Hid, Htext, Hresp.
Qed.

(** C6, as the code has it: when the input directory does not exist, the
    run stops in the loader before any file is written, neither a record nor
    the aggregate; the handler of the script reports the error that the
    loader raised, and the script then runs to its end, so the process exits
    with status 0. *)
Theorem missing_input_directory (st : State) :
  dirs st !! questions_dir = None →
  (∃ e st', SingleShot.main_try env args st = (Py.Raise e, st')
            ∧ written st' = written st
            ∧ SingleShot.main env args st
              = {| printed := Some (ErrorDuringTesting (Py.str_exn e));
                   exit_status := 0; final := st' |})
  ∧ exit_status (SingleShot.main env args st) = 0%Z
  ∧ written (final (SingleShot.main env args st)) = written st
  ∧ (∃ e st', Chained.main_try env args st = (Py.Raise e, st')
              ∧ written st' = written st
              ∧ Chained.main env args st
                = {| printed := Some (ErrorDuringTesting (Py.str_exn e));
                     exit_status := 0; final := st' |})
  ∧ exit_status (Chained.main env args st) = 0%Z
  ∧ written (final (Chained.main env args st)) = written st.
Proof.
  intros Hdir.
  assert (∀ s, dirs s = dirs st →
            ∃ e, SingleShot.read_question_files questions_dir (Args.preprocess args)
                     (Args.strip_codeblocks args) (Args.strip_html args)
                     (prepared args s) = (Py.Raise e, prepared args s)
                 ∧ Chained.read_questions questions_dir (Args.preprocess args)
                     (Args.strip_codeblocks args) (Args.strip_html args)
                     (prepared args s) = (Py.Raise e, prepared args s)) as Hload.
  { intros s Hs. rewrite <- Hs in Hdir.
    destruct (prepared_missing args s _ Hdir) as [Hnone|Hempty].
    - exists (not_found questions_dir). by apply loaders_missing.
    - exists (nothing_found questions_dir). by apply (loaders_nothing args _ []). }
  destruct (Hload (checked st) eq_refl) as (e1 & Hsingle & _).
  destruct (Hload st eq_refl) as (e2 & _ & Hchained).
  apply run_test_raises with (env := env) in Hsingle.
  apply run_iterations_raises with (env := env) in Hchained.
  destruct (single_shot_main_raises env args st e1 _ Hsingle) as [Htry1 Hmain1].
  destruct (chained_main_raises env args st e2 Hchained) as [Htry2 Hmain2].
  destruct (prepared_checked args st) as [_ Hwr1].
  destruct (prepared_unchanged args st) as (_ & _ & Hwr2).
  rewrite Hmain1, Hmain2. simpl.
  split; [by exists e1, (prepared args (checked st))|].
  split; [done|]. split; [done|].
  split; [by exists e2, (prepared args st)|]. done.
Qed.

(** C7, as the code has it: after all questions are processed the
    single-shot script computes and reports the mean of the elapsed times;
    the list of records is never empty there, because on an empty question
    set the loader raises its own error (a ValueError, no file found) before
    any question is processed: the handler reports that error, nothing is
    written, and no run fails with a division by zero. *)
Theorem mean_time_without_division_by_zero (st : State) :
  (∀ results st',
      SingleShot.run_test env args (checked st) = (Py.Ok results, st') →
      results ≠ []
      ∧ ∃ avg, SingleShot.average_time results = Py.Ok avg
               ∧ printed (SingleShot.main env args st) = Some (AverageResponseTime avg))
  ∧ (∀ entries,
      dirs st !! questions_dir = Some entries →
      filter (λ f, recognized f) entries.*1 = [] →
      SingleShot.main_try env args st
      = (Py.Raise (nothing_found questions_dir), prepared args (checked st))
      ∧ printed (SingleShot.main env args st)
        = Some (ErrorDuringTesting (Py.str_exn (nothing_found questions_dir)))
      ∧ written (final (SingleShot.main env args st)) = written st)
  ∧ (∀ e st',
      SingleShot.main_try env args st = (Py.Raise e, st') →
      Py.exn_cls e ≠ Py.ZeroDivisionError).
Proof.
  split; [|split].
  - intros results st' Hrun.
    destruct (run_test_cases (checked st))
      as [(e & _ & Hraise)
         |(entries & results' & st'' & _ & Hpos & _ & _
           & [(Hret & Hlen & _)|(e & r & _ & _ & Hraise & _)])];
      [congruence| |congruence].
    rewrite Hret in Hrun. injection Hrun as -> ->.
    assert (results ≠ []) as Hsome.
    { intros ->. rewrite questions_in_length in Hlen. simpl in Hlen. lia. }
    split; [done|].
    destruct (single_shot_main_returns env args st results st' Hret Hsome)
      as (avg & Havg & _ & Hmain).
    exists avg. by rewrite Hmain.
  - intros entries Hdir Hnone.
    assert (dirs (prepared args (checked st)) !! questions_dir = Some entries) as Hdir'.
    { destruct (prepared_checked args st) as [-> _]. by apply prepared_existing. }
    destruct (loaders_nothing args _ entries Hdir' Hnone) as [Hload _].
    apply run_test_raises with (env := env) in Hload.
    destruct (single_shot_main_raises env args st _ _ Hload) as [Htry Hmain].
    rewrite Hmain. simpl. destruct (prepared_checked args st) as [_ Hwr]. done.
  - intros e st' Htry.
    destruct (run_test_cases (checked st))
      as [(e' & He' & Hraise)
         |(entries & results & st'' & _ & Hpos & _ & _
           & [(Hret & Hlen & _)|(e' & r & _ & Hshown & Hraise & _)])].
    + destruct (single_shot_main_raises env args st _ _ Hraise) as [Htry' _].
      rewrite Htry' in Htry. injection Htry as <- _.
      by destruct He' as [[-> _]|[-> _]].
    + assert (results ≠ []) as Hsome.
      { intros ->. rewrite questions_in_length in Hlen. simpl in Hlen. lia. }
      destruct (single_shot_main_returns env args st results st'' Hret Hsome)
        as (avg & _ & Htry' & _).
      congruence.
    + destruct (single_shot_main_raises env args st _ _ Hraise) as [Htry' _].
      rewrite Htry' in Htry. injection Htry as <- _.
      by rewrite (shown_raises r e').
Qed.

Lemma chained_never_reports_mean (st : State) (avg : Q) :
  text_endpoint env →
  printed (Chained.main env args st) ≠ Some (AverageResponseTime avg).
Proof.
  intros Htext.
  destruct (run_iterations_cases st)
    as [(e & _ & Hraise)|(entries & results & st' & _ & Hpos & Hret & Hall & _)].
  - destruct (chained_main_raises env args st _ Hraise) as [_ ->]. done.
  - destruct (iterated_some entries results Hpos Hall) as [_ Hsome].
    pose proof (chained_average results Hsome (iterated_text env args _ _ Htext Hall))
      as Havg.
    destruct (chained_main_returns env args st results st' _ Hret Havg) as [_ ->]. done.
Qed.

(** C9: the completions being text, as the interface of the endpoint has
    it: after a chained run over a non-empty question set, the summary adds
    up the last element of every record's [responses]; that element is a
    completion, a string, so the sum raises a type error at the first
    record, the handler reports it, and no chained run reports a numeric
    mean. *)
Theorem chained_mean_is_a_type_error (st : State) (entries : list (string * string)) :
  text_endpoint env →
  dirs st !! questions_dir = Some entries →
  0 < length (filter (λ f, recognized f) entries.*1) →
  ∃ results st',
    Chained.run_iterations env args st = (Py.Ok results, st')
    ∧ results ≠ []
    ∧ Forall (λ r, ∃ s, last (Chained.responses r) = Some (JStr s)) results
    ∧ Chained.average_time results = Py.Raise (Py.Exn Py.TypeError type_error_text)
    ∧ Chained.main_try env args st
      = (Py.Raise (Py.Exn Py.TypeError type_error_text), st')
    ∧ printed (Chained.main env args st) = Some (ErrorDuringTesting type_error_text)
    ∧ (∀ st0 avg,
         printed (Chained.main env args st0) ≠ Some (AverageResponseTime avg)).
Proof.
  intros Htext Hdir Hpos.
  pose proof (prepared_existing args st _ entries Hdir) as Hdir'.
  destruct (loaders_something args _ entries Hdir' Hpos) as [_ Hload].
  destruct (run_iterations_returns env args st _ Hload) as (results & st' & Hret & Hall & _).
  destruct (iterated_some entries results Hpos Hall) as [_ Hsome].
  pose proof (iterated_text env args _ _ Htext Hall) as Hlast.
  pose proof (chained_average results Hsome Hlast) as Havg.
  destruct (chained_main_returns env args st results st' _ Hret Havg) as [Htry Hmain].
  exists results, st'. rewrite Hmain. simpl.
  split; [done|]. split; [done|]. split; [done|].
  split; [done|]. split; [done|]. split; [done|].
  intros st0 avg. by apply chained_never_reports_mean.
Qed.

Lemma iterated_chain questions results :
  Forall2 (iterated env args) questions results →
  Forall (λ r, ∃ completions s1 s2,
              Chained.responses r = JStr (Chained.question_text r) :: completions
              ∧ length completions = 5
              ∧ chain env args s1 (JStr (Chained.question_text r)) completions s2) results.
Proof.
  induction 1 as [|q r qs rs (_ & Htext & cs & s1 & s2 & Hresp & Hlen & Hchain) _ IH];
    constructor; [|done].
  exists cs, s1, s2. by rewrite Htext.
Qed.

(** C1: for every question the chained runner starts the sequence with the
    question text and calls the inference client exactly five times, each
    time with the last element as the prompt, appending the result: the
    record's sequence has six elements, element 0 is the question text, and
    element k, for k from 1 to 5, is the completion the client produced
    for element k-1; the record is written with that sequence under
    [responses].  This holds for the loop body on any question in any
    state; a run over a directory with questions returns, and the records
    of a run that returns are those of the questions of the directory,
    sorted by identifier, one for one. *)
Theorem chained_sequence (question : Question) (st : State) :
  (∃ r completions st1 st',
      Chained.process_question env args question st = (Py.Ok r, st')
      ∧ Chained.question_text r = q_text question
      ∧ Chained.responses r = JStr (q_text question) :: completions
      ∧ length (Chained.responses r) = 6
      ∧ Chained.responses r !! 0 = Some (JStr (q_text question))
      ∧ chain env args st (JStr (q_text question)) completions st1
      ∧ requests st' = requests st ++ (asked args <$> take 5 (Chained.responses r))
      ∧ length (requests st') = length (requests st) + 5
      ∧ (∀ k prev next,
           Chained.responses r !! k = Some prev →
           Chained.responses r !! S k = Some next →
           ∃ s1 s2, ask env args prev s1 = (Py.Ok next, s2))
      ∧ written st'
        = written st ++ [(result_file args (q_id question), Chained.to_json r)]
      ∧ json_field "responses" (Chained.to_json r) = Some (JList (Chained.responses r)))
  ∧ (∀ entries,
      dirs st !! questions_dir = Some entries →
      0 < length (filter (λ f, recognized f) entries.*1) →
      ∃ results st',
        Chained.run_iterations env args st = (Py.Ok results, st')
        ∧ Forall2 (iterated env args) (Py.sorted q_id (questions_in args entries)) results)
  ∧ (∀ results st',
      Chained.run_iterations env args st = (Py.Ok results, st') →
      (∃ entries,
          dirs (prepared args st) !! questions_dir = Some entries
          ∧ Forall2 (iterated env args) (Py.sorted q_id (questions_in args entries))
              results
          ∧ written st' = written st ++ chained_files args results)
      ∧ Forall (λ r, ∃ completions s1 s2,
                  Chained.responses r = JStr (Chained.question_text r) :: completions
                  ∧ length completions = 5
                  ∧ chain env args s1 (JStr (Chained.question_text r)) completions s2)
          results).
Proof.
  split; [|split].
  - destruct (chained_process_question env args question st)
      as (r & completions & st1 & st' & Hrun & _ & Htext & _ & Hresp & Hlen & Hchain
          & _ & Hreq & Hwr).
    exists r, completions, st1, st'.
    split; [done|]. split; [done|]. split; [done|].
    split; [by rewrite Hresp; simpl; rewrite Hlen|].
    split; [by rewrite Hresp|]. split; [done|]. split; [done|]. split; [|split].
    + rewrite Hreq, length_app, length_fmap, length_take, Hresp. simpl.
      rewrite Hlen. lia.
    + intros k prev next. rewrite Hresp.
      apply (chain_lookup env args _ _ _ _ Hchain).
    + split; [done|]. apply chained_record_fields.
  - intros entries Hdir Hpos.
    pose proof (prepared_existing args st _ entries Hdir) as Hdir'.
    destruct (loaders_something args _ entries Hdir' Hpos) as [_ Hload].
    destruct (run_iterations_returns env args st _ Hload)
      as (results & st' & Hret & Hall & _).
    by exists results, st'.
  - intros results st' Hrun.
    destruct (run_iterations_cases st)
      as [(e & _ & Hraise)|(entries & results' & st'' & Hdir & _ & Hret & Hall & Hwr)];
      [congruence|].
    rewrite Hret in Hrun. injection Hrun as -> ->.
    split; [by exists entries|]. by eapply iterated_chain.
Qed.
End Outcomes.

(** ** The properties on concrete worlds *)

Lemma unreachable_env_unreachable : unreachable unreachable_env.
Proof. intros history r. exists refused. by split. Qed.

Lemma echo_env_text : text_endpoint echo_env.
Proof.
  intros history r answer v Hpost Hjson. injection Hpost as <-.
  injection Hjson as <-. by eexists.
Qed.

Lemma unreachable_endpoint_run_witness :
  ∃ results avg,
    printed (SingleShot.main unreachable_env default_args two_questions)
    = Some (AverageResponseTime avg)
    ∧ exit_status (SingleShot.main unreachable_env default_args two_questions) = 0%Z
    ∧ written (final (SingleShot.main unreachable_env default_args two_questions))
      = written two_questions ++ single_shot_files default_args results
    ∧ length results = 2
    ∧ Forall (λ file, json_field "response" file.2 = Some (JStr connect_error_text))
        (single_shot_records default_args results).
Proof.
  destruct (unreachable_endpoint_run unreachable_env default_args two_questions
              [("b.txt", "Capital of France?"); ("notes.json", "{}"); ("a.txt", "2+2=?")] 2)
    as (results & avg & Hprinted & Hexit & Hwritten & _ & _ & Hlen & _ & Hfiles & _).
  - intros history r. exists refused. split; reflexivity.
  - reflexivity.
  - reflexivity.
  - lia.
  - exists results, avg. repeat split; try done.
    clear -Hfiles. induction Hfiles as [|q file qs files (_ & _ & _ & Hfile) _ IH];
      by constructor.
Defined.

Lemma missing_input_directory_witness :
  dirs no_directory !! Args.questions_dir default_args = None
  ∧ exit_status (SingleShot.main echo_env default_args no_directory) = 0%Z
  ∧ written (final (SingleShot.main echo_env default_args no_directory))
    = written no_directory.
Proof.
  split; [reflexivity|].
  destruct (missing_input_directory echo_env default_args no_directory)
    as (_ & Hexit & Hwritten & _); [reflexivity|].
  by split.
Defined.

(** C6 fails as stated in its last part: with the input directory missing, the
    single-shot script reports the error and then ends with exit status 0,
    as the handler of the script has caught the exception. *)
Lemma missing_directory_exits_normally :
  dirs no_directory !! Args.questions_dir default_args = None
  ∧ printed (SingleShot.main echo_env default_args no_directory)
    = Some (ErrorDuringTesting "Questions directory './questions' not found.")
  ∧ written (final (SingleShot.main echo_env default_args no_directory)) = []
  ∧ exit_status (SingleShot.main echo_env default_args no_directory) = 0%Z
  ∧ exit_status (Chained.main echo_env default_args no_directory) = 0%Z.
Proof. vm_compute. by repeat split. Qed.

(** C7 fails as stated: on an existing directory without a question, the
    single-shot script never reaches the division; the loader raises a
    ValueError, and that is what the script reports. *)
Lemma empty_question_set_raises_value_error :
  dirs no_questions !! Args.questions_dir default_args = Some []
  ∧ (∃ st',
       SingleShot.main_try echo_env default_args no_questions
       = (Py.Raise (Py.Exn Py.ValueError "No .txt or .md files found in './questions'"),
          st'))
  ∧ printed (SingleShot.main echo_env default_args no_questions)
    = Some (ErrorDuringTesting "No .txt or .md files found in './questions'")
  ∧ printed (SingleShot.main echo_env default_args no_questions)
    ≠ Some (ErrorDuringTesting "division by zero").
Proof.
  split; [reflexivity|]. split; [eexists; vm_compute; reflexivity|].
  split; [vm_compute; reflexivity|]. vm_compute. intros [=].
Qed.

Lemma chained_mean_is_a_type_error_witness :
  ∃ results st',
    Chained.run_iterations echo_env default_args two_questions = (Py.Ok results, st')
    ∧ results ≠ []
    ∧ Forall (λ r, ∃ s, last (Chained.responses r) = Some (JStr s)) results
    ∧ Chained.average_time results = Py.Raise (Py.Exn Py.TypeError type_error_text)
    ∧ Chained.main_try echo_env default_args two_questions
      = (Py.Raise (Py.Exn Py.TypeError type_error_text), st')
    ∧ printed (Chained.main echo_env default_args two_questions)
      = Some (ErrorDuringTesting type_error_text)
    ∧ (∀ st0 avg,
         printed (Chained.main echo_env default_args st0) ≠ Some (AverageResponseTime avg)).
Proof.
  apply (chained_mean_is_a_type_error echo_env default_args two_questions
           [("b.txt", "Capital of France?"); ("notes.json", "{}"); ("a.txt", "2+2=?")]).
  - intros history r answer v Hpost Hjson. injection Hpost as <-.
    injection Hjson as <-. by eexists.
  - reflexivity.
  - vm_compute. lia.
Defined.

(** With the output directory under an input directory that is missing,
    [os.makedirs] makes the input directory on its way: the loader finds it,
    empty. *)
Example nested_output_directory :
  dirs (prepared nested_args no_directory) !! "./q" = Some []
  ∧ printed (SingleShot.main echo_env nested_args no_directory)
    = Some (ErrorDuringTesting "No .txt or .md files found in './q'")
  ∧ written (final (SingleShot.main echo_env nested_args no_directory)) = []
  ∧ exit_status (SingleShot.main echo_env nested_args no_directory) = 0%Z.
Proof. vm_compute. by repeat split. Qed.

(** What the premise of C9 is for: an endpoint whose [response] is a number
    makes the chained script print a mean, the mean of those numbers. *)
Example chained_numeric_mean :
  ¬ text_endpoint number_env
  ∧ ∃ avg,
      printed (Chained.main number_env default_args two_questions)
      = Some (AverageResponseTime avg)
      ∧ (avg == 5)%Q.
Proof.
  split.
  - intros Htext.
    destruct (Htext [] (Get "" 0) _ (JInt 5) eq_refl eq_refl) as [s [=]].
  - eexists. split; [vm_compute; reflexivity|]. reflexivity.
Qed.

(** An endpoint whose [response] is null stops the single-shot script at the
    first question: the record has been written, its response cannot be
    printed, and there is no aggregate. *)
Example single_shot_null_response :
  printed (SingleShot.main null_env default_args two_questions)
  = Some (ErrorDuringTesting "object of type 'NoneType' has no len()")
  ∧ (λ file, (file.1, json_field "response" file.2))
      <$> written (final (SingleShot.main null_env default_args two_questions))
    = [("./results/a_result.json", Some JNull)]
  ∧ exit_status (SingleShot.main null_env default_args two_questions) = 0%Z.
Proof. vm_compute. by repeat split. Qed.

(** The example of the spec: the questions [a.txt] and [b.txt] against an
    endpoint that answers with the prompt reversed. *)
Example single_shot_echo_run :
  (λ file, (file.1, json_field "response" file.2))
    <$> written (final (SingleShot.main echo_env default_args two_questions))
  = [("./results/a_result.json", Some (JStr "?=2+2"));
     ("./results/b_result.json", Some (JStr "?ecnarF fo latipaC"));
     ("./results/all_results.json", None)].
Proof. vm_compute. reflexivity. Qed.

Example chained_echo_run :
  (λ file, (file.1, json_field "responses" file.2))
    <$> take 1 (written (final (Chained.main echo_env default_args two_questions)))
  = [("./results/a_result.json",
      Some (JList [JStr "2+2=?"; JStr "?=2+2"; JStr "2+2=?";
                   JStr "?=2+2"; JStr "2+2=?"; JStr "?=2+2"]))].
Proof. vm_compute. reflexivity. Qed.

(** ** Stripping fenced blocks *)

Section Strings.
Lemma app_assoc_str (a b c : string) : (a +:+ b) +:+ c = a +:+ (b +:+ c).
Proof. induction a as [|x a IH]; [done|]. by rewrite !app_cons, IH. Qed.

Lemma length_app_str (a b : string) :
  String.length (a +:+ b) = String.length a + String.length b.
Proof. induction a as [|x a IH]; [done|]. rewrite app_cons. simpl. by rewrite IH. Qed.

Lemma drop_app_str (a b : string) : Py.drop (String.length a) (a +:+ b) = b.
Proof. induction a as [|x a IH]; [by destruct b|]. by rewrite app_cons. Qed.

Lemma prefix_empty (s : string) : String.prefix "" s = true.
Proof. by destruct s. Qed.

Lemma startswith_spec (s p : string) :
  Py.startswith s p = true ↔ ∃ r, s = p +:+ r.
Proof.
  unfold Py.startswith. revert s. induction p as [|x p IH]; intros s.
  - rewrite prefix_empty. split; [intros _; by exists s|done].
  - destruct s as [|y s]; simpl.
    + split; [done|]. intros [r Hr]. by rewrite app_cons in Hr.
    + destruct (ascii_dec x y) as [->|Hne].
      * rewrite IH. split; intros [r Hr]; exists r.
        -- by rewrite app_cons, Hr.
        -- rewrite app_cons in Hr. by injection Hr.
      * split; [done|]. intros [r Hr]. rewrite app_cons in Hr. by injection Hr.
Qed.

Lemma startswith_app (p r : string) : Py.startswith (p +:+ r) p = true.
Proof. apply startswith_spec. by exists r. Qed.

Lemma startswith_backtick (a : ascii) (s : string) :
  a ≠ backtick → Py.startswith (String a s) Re.fence = false.
Proof.
  intros Hne. destruct (Py.startswith (String a s) Re.fence) eqn:Hs; [|done].
  apply startswith_spec in Hs as [r Hr]. unfold Re.fence in Hr.
  rewrite app_cons in Hr. injection Hr as -> _. by destruct Hne.
Qed.

Lemma startswith_char (c a : ascii) (s : string) :
  Py.startswith (String a s) (String c "") = bool_decide (a = c).
Proof.
  destruct (Py.startswith (String a s) (String c "")) eqn:Hs.
  - apply startswith_spec in Hs as [r Hr]. rewrite app_cons in Hr.
    injection Hr as -> _. by rewrite bool_decide_eq_true_2.
  - case_bool_decide as Hac; [|done]. subst a.
    assert (Py.startswith (String c s) (String c "") = true) as Hyes; [|congruence].
    apply startswith_spec. by exists s.
Qed.

Lemma startswith_cons (b c : ascii) (x p : string) :
  Py.startswith (String b x) (String c p) = bool_decide (b = c) && Py.startswith x p.
Proof.
  destruct (Py.startswith (String b x) (String c p)) eqn:Hs.
  - apply startswith_spec in Hs as [r Hr]. rewrite app_cons in Hr.
    injection Hr as -> ->. rewrite bool_decide_eq_true_2 by done.
    by rewrite startswith_app.
  - case_bool_decide as Hbc; [|done]. subst b. simpl.
    destruct (Py.startswith x p) eqn:Hx; [|done].
    apply startswith_spec in Hx as [r ->].
    assert (Py.startswith (String c (p +:+ r)) (String c p) = true) as Hyes; [|congruence].
    apply startswith_spec. by exists r.
Qed.
End Strings.

Section Scan.
Context (matcher : string → option nat).

(** A match is dropped as a whole. *)
Lemma sub_go_skip (x rest : string) :
  Re.sub_go matcher (String.length x) (x +:+ rest) = Re.sub_go matcher 0 rest.
Proof.
  induction x as [|a x IH]; [by destruct rest|]. by rewrite app_cons.
Qed.

Lemma sub_match (x rest : string) :
  x ≠ "" →
  matcher (x +:+ rest) = Some (String.length x) →
  Re.sub matcher (x +:+ rest) = Re.sub matcher rest.
Proof.
  intros Hx Hmatch. unfold Re.sub. destruct x as [|a x]; [done|].
  rewrite app_cons in *. simpl in *. rewrite Hmatch. apply sub_go_skip.
Qed.

Lemma sub_no_match (a : ascii) (s : string) :
  matcher (String a s) = None →
  Re.sub matcher (String a s) = String a (Re.sub matcher s).
Proof. intros Hnone. unfold Re.sub. simpl. by rewrite Hnone. Qed.
End Scan.

Section Fenced.
Import Py Re.

Lemma is_alnum_LF : is_alnum LF = false.
Proof. reflexivity. Qed.

Lemma alnum_run_info info rest :
  all_alnum info = true → alnum_run (info +:+ String LF rest) = String.length info.
Proof.
  induction info as [|a info IH]; simpl; [done|].
  intros [Ha Hinfo]%andb_true_iff. rewrite ?app_cons. simpl. rewrite Ha.
  by rewrite IH.
Qed.

Lemma find_cons p a s :
  find p (String a s)
  = if startswith (String a s) p then Some 0 else S <$> find p s.
Proof. reflexivity. Qed.

(** A line feed in front of three backticks cannot begin inside a body that
    holds none and end in the closing fence. *)
Lemma find_closing body rest :
  find closing body = None →
  find closing (body +:+ closing +:+ rest) = Some (String.length body).
Proof.
  induction body as [|a body IH].
  - intros _. change ("" +:+ closing +:+ rest) with (closing +:+ rest).
    destruct rest; reflexivity.
  - intros Hnone. rewrite app_cons.
    assert (startswith (String a body) closing = false ∧ find closing body = None)
      as [Hhere Hbody].
    { rewrite find_cons in Hnone. revert Hnone.
      destruct (startswith (String a body) closing); [done|].
      by destruct (find closing body). }
    assert (startswith (String a (body +:+ closing +:+ rest)) closing = false)
      as Hstraddle.
    { destruct (startswith (String a (body +:+ closing +:+ rest)) closing) eqn:Hs;
        [|done].
      apply startswith_spec in Hs as [r Hr]. exfalso.
      apply not_true_iff_false in Hhere. apply Hhere. apply startswith_spec.
      unfold closing, fence in *. rewrite !app_cons in Hr.
      destruct body as [|b1 [|b2 [|b3 body]]];
        rewrite ?app_cons in Hr; simplify_eq/=.
      exists body. by rewrite !app_cons. }
    rewrite find_cons, Hstraddle, (IH Hbody). done.
Qed.

Lemma length_fenced_block info body :
  String.length (fenced_block info body)
  = 3 + String.length info + 1 + String.length body + 4.
Proof.
  unfold fenced_block. rewrite !length_app_str. cbn [String.length].
  rewrite length_app_str.
  change (String.length fence) with 3. change (String.length closing) with 4. lia.
Qed.

Lemma match_fenced_block info body rest :
  all_alnum info = true →
  find closing body = None →
  match_fenced (fenced_block info body +:+ rest)
  = Some (String.length (fenced_block info body)).
Proof.
  intros Hinfo Hbody. rewrite length_fenced_block.
  assert (fenced_block info body +:+ rest
          = fence +:+ (info +:+ String LF (body +:+ closing +:+ rest))) as ->.
  { unfold fenced_block. rewrite !app_assoc_str, app_cons. by rewrite app_assoc_str. }
  unfold match_fenced. rewrite startswith_app.
  change (drop 3 (fence +:+ ?s)) with s. cbv zeta.
  rewrite (alnum_run_info info _ Hinfo), drop_app_str.
  rewrite bool_decide_eq_true_2 by done.
  by rewrite (find_closing body rest Hbody).
Qed.

Lemma sub_fenced_clean pre rest :
  no_backtick pre = true →
  sub match_fenced (pre +:+ rest) = pre +:+ sub match_fenced rest.
Proof.
  induction pre as [|a pre IH]; simpl; [done|].
  intros [Ha Hpre]%andb_true_iff. rewrite ?app_cons.
  rewrite sub_no_match, IH; [done..|].
  unfold match_fenced. rewrite startswith_backtick; [done|].
  intros ->. by rewrite bool_decide_eq_true_2 in Ha.
Qed.

Lemma sub_fenced_block pre info body post :
  no_backtick pre = true →
  all_alnum info = true →
  find closing body = None →
  sub match_fenced (pre +:+ fenced_block info body +:+ post)
  = sub match_fenced (pre +:+ post).
Proof.
  intros Hpre Hinfo Hbody.
  rewrite (sub_fenced_clean pre (fenced_block info body +:+ post)) by done.
  rewrite (sub_fenced_clean pre post) by done. f_equal.
  apply sub_match.
  - unfold fenced_block, fence. by rewrite app_cons.
  - by apply match_fenced_block.
Qed.
End Fenced.

(** ** Texts without three backticks in a row *)

Section Fences.
Import Py Re.

Lemma find_empty p : find p "" = if startswith "" p then Some 0 else None.
Proof. reflexivity. Qed.

Lemma find_none_cons p a s :
  find p (String a s) = None ↔ startswith (String a s) p = false ∧ find p s = None.
Proof.
  rewrite find_cons. destruct (startswith (String a s) p).
  - split; [done|]. by intros [? _].
  - destruct (find p s); simpl; split; try done. by intros [_ ?].
Qed.

Lemma find_none_start p s : find p s = None → startswith s p = false.
Proof.
  destruct s as [|a s].
  - rewrite find_empty. by destruct (startswith "" p).
  - by intros [? _]%find_none_cons.
Qed.

(** [find] finds what occurs. *)
Lemma find_none_spec p s : find p s = None → ∀ a b, s ≠ a +:+ p +:+ b.
Proof.
  intros Hs a b ->. revert Hs. induction a as [|x a IH].
  - change ("" +:+ p +:+ b) with (p +:+ b). intros Hs%find_none_start.
    by rewrite startswith_app in Hs.
  - rewrite app_cons. intros [_ Hs]%find_none_cons. by apply IH.
Qed.

Lemma startswith_fence a b c r :
  startswith (String a (String b (String c r))) fence
  = bool_decide (a = backtick) && bool_decide (b = backtick) && bool_decide (c = backtick).
Proof.
  unfold fence. rewrite !startswith_cons. unfold startswith.
  by rewrite prefix_empty, andb_true_r, andb_assoc.
Qed.

Lemma ends_line_tail a s : ends_line (String a s) = true → ends_line s = true.
Proof. by destruct s. Qed.

(** A text that ends a line, or none, puts no fence together with what
    follows it. *)
Lemma startswith_fence_line r tail :
  r ≠ "" → find fence r = None → ends_line r = true →
  startswith (r +:+ tail) fence = false.
Proof.
  intros Hr Hfind Hline. destruct r as [|a [|b [|c r]]]; [done|..].
  - simpl in Hline. apply bool_decide_eq_true in Hline as ->.
    rewrite app_cons. by apply startswith_backtick.
  - simpl in Hline. apply bool_decide_eq_true in Hline as ->.
    rewrite !app_cons. unfold fence. rewrite !startswith_cons.
    rewrite (bool_decide_eq_false_2 (LF = "`"%char)) by done.
    by rewrite andb_false_r.
  - apply find_none_start in Hfind. rewrite !app_cons.
    by rewrite startswith_fence in *.
Qed.

(** No match of the pattern of a fenced block begins in a text without a
    fence that ends a line, or that a fence follows. *)
Lemma match_fenced_front r tail :
  r ≠ "" → find fence r = None →
  ends_line r = true ∨ startswith tail fence = true →
  match_fenced (r +:+ tail) = None.
Proof.
  intros Hr Hfind [Hline|Hfence].
  { unfold match_fenced. by rewrite startswith_fence_line. }
  apply startswith_spec in Hfence as [rest ->]. unfold fence.
  destruct r as [|a [|b [|c r]]]; [done|..].
  - rewrite !app_cons. change ("" +:+ ?s) with s.
    destruct (decide (a = backtick)) as [->|Ha].
    + unfold match_fenced. by rewrite startswith_fence.
    + unfold match_fenced. by rewrite startswith_backtick.
  - rewrite !app_cons. change ("" +:+ ?s) with s.
    destruct (decide (a = backtick)) as [->|Ha];
      [|unfold match_fenced; by rewrite startswith_backtick].
    destruct (decide (b = backtick)) as [->|Hb].
    + unfold match_fenced. by rewrite startswith_fence.
    + unfold match_fenced. rewrite startswith_fence.
      rewrite (bool_decide_eq_false_2 (b = backtick)) by done.
      by rewrite andb_false_r.
  - apply find_none_start in Hfind. rewrite !app_cons. unfold match_fenced.
    by rewrite startswith_fence in *; rewrite Hfind.
Qed.

Lemma sub_fenced_front pre tail :
  find fence pre = None →
  ends_line pre = true ∨ startswith tail fence = true →
  sub match_fenced (pre +:+ tail) = pre +:+ sub match_fenced tail.
Proof.
  induction pre as [|a pre IH]; [done|].
  intros Hfind Hfront. pose proof Hfind as [_ Hpre]%find_none_cons.
  rewrite app_cons, sub_no_match.
  - rewrite IH; [by rewrite app_cons|done|].
    destruct Hfront as [Hline|Hfence]; [left; by eapply ends_line_tail|by right].
  - rewrite <- app_cons. by apply match_fenced_front.
Qed.

Lemma sub_fenced_none s : find fence s = None → sub match_fenced s = s.
Proof.
  induction s as [|a s IH]; [done|]. intros [Hstart Hs]%find_none_cons.
  rewrite sub_no_match, IH; [done..|]. unfold match_fenced. by rewrite Hstart.
Qed.

Lemma find_fence_app pre post :
  find fence pre = None → find fence post = None → ends_line pre = true →
  find fence (pre +:+ post) = None.
Proof.
  induction pre as [|a pre IH]; [done|].
  intros Hfind Hpost Hline. pose proof Hfind as [_ Hpre]%find_none_cons.
  rewrite app_cons. apply find_none_cons. split.
  - rewrite <- app_cons. by apply startswith_fence_line.
  - apply IH; [done..|]. by eapply ends_line_tail.
Qed.

(** The block in front of which the text has no fence is deleted, and the
    scan goes on behind it. *)
Lemma sub_fenced_deleted pre info body post :
  find fence pre = None →
  all_alnum info = true →
  find closing body = None →
  sub match_fenced (pre +:+ fenced_block info body +:+ post)
  = pre +:+ sub match_fenced post.
Proof.
  intros Hpre Hinfo Hbody. rewrite sub_fenced_front; [f_equal|done|].
  - apply sub_match.
    + unfold fenced_block, fence. by rewrite app_cons.
    + by apply match_fenced_block.
  - right. unfold fenced_block. rewrite !app_assoc_str. apply startswith_app.
Qed.

(** *** The later passes put no fence together *)

Lemma startswith_fence_kept a s :
  a ≠ LF → find fence (String a s) = None →
  startswith (String a (sub_indented_go InLine s)) fence = false.
Proof.
  intros Ha Hfind%find_none_start. unfold fence in *.
  rewrite startswith_cons in *.
  destruct (decide (a = backtick)) as [->|Hne];
    [|by rewrite (bool_decide_eq_false_2 (a = "`"%char))].
  rewrite (bool_decide_eq_true_2 ("`"%char = "`"%char)) in * by done. simpl in *.
  destruct s as [|b s]; [done|]. cbn [sub_indented_go].
  rewrite startswith_cons in *.
  destruct (decide (b = backtick)) as [->|Hne];
    [|by rewrite (bool_decide_eq_false_2 (b = "`"%char))].
  rewrite (bool_decide_eq_true_2 ("`"%char = "`"%char)) in * by done. simpl in *.
  destruct s as [|c s]; [done|]. cbn [sub_indented_go].
  by rewrite startswith_char in *.
Qed.

Lemma find_fence_sub_indented s : ∀ mode,
  find fence s = None → find fence (sub_indented_go mode s) = None.
Proof.
  induction s as [|a s IH]; intros mode Hfind; [done|].
  pose proof Hfind as [Hstart Hs]%find_none_cons.
  assert (find fence
            (String a (sub_indented_go (if bool_decide (a = LF) then LineStart else InLine)
                         s)) = None) as Hkept.
  { apply find_none_cons. split; [|by apply IH].
    case_bool_decide as Ha; [subst a; by apply startswith_backtick|].
    by apply startswith_fence_kept. }
  cbn [sub_indented_go]. destruct mode.
  - destruct (startswith (String a s) "    "); [by apply IH|done].
  - done.
  - by case_bool_decide as Ha; [|apply IH].
Qed.

Lemma startswith_tick_tag_kept a s :
  a ≠ LF → find tick_tag (String a s) = None →
  startswith (String a (sub_indented_go InLine s)) tick_tag = false.
Proof.
  intros Ha Hfind%find_none_start. unfold tick_tag in *.
  rewrite startswith_cons in *.
  destruct (decide (a = backtick)) as [->|Hne];
    [|by rewrite (bool_decide_eq_false_2 (a = "`"%char))].
  rewrite (bool_decide_eq_true_2 ("`"%char = "`"%char)) in * by done. simpl in *.
  destruct s as [|b s]; [done|]. cbn [sub_indented_go].
  by rewrite startswith_char in *.
Qed.

Lemma find_tick_tag_sub_indented s : ∀ mode,
  find tick_tag s = None → find tick_tag (sub_indented_go mode s) = None.
Proof.
  induction s as [|a s IH]; intros mode Hfind; [done|].
  pose proof Hfind as [Hstart Hs]%find_none_cons.
  assert (find tick_tag
            (String a (sub_indented_go (if bool_decide (a = LF) then LineStart else InLine)
                         s)) = None) as Hkept.
  { apply find_none_cons. split; [|by apply IH].
    case_bool_decide as Ha; [|by apply startswith_tick_tag_kept].
    subst a. unfold tick_tag. rewrite startswith_cons.
    by rewrite (bool_decide_eq_false_2 (LF = "`"%char)). }
  cbn [sub_indented_go]. destruct mode.
  - destruct (startswith (String a s) "    "); [by apply IH|done].
  - done.
  - by case_bool_decide as Ha; [|apply IH].
Qed.

(** A tag that is deleted brings no backticks together when no backtick
    stands in front of a [<]. *)
Lemma match_tag_none a s : a ≠ "<"%char → match_tag (String a s) = None.
Proof. intros Ha. simpl. by rewrite bool_decide_eq_false_2. Qed.

Lemma tick_tag_head b s :
  startswith (String backtick (String b s)) tick_tag = false → b ≠ "<"%char.
Proof.
  unfold tick_tag. rewrite startswith_cons, startswith_char.
  rewrite (bool_decide_eq_true_2 (backtick = "`"%char)) by done.
  by intros ?%bool_decide_eq_false.
Qed.

Lemma startswith_fence_kept_tag a s :
  find fence (String a s) = None → find tick_tag (String a s) = None →
  startswith (String a (sub_go match_tag 0 s)) fence = false.
Proof.
  intros Hfence%find_none_start Htick.
  destruct (decide (a = backtick)) as [->|Hne]; [|by apply startswith_backtick].
  destruct s as [|b s]; [done|].
  apply find_none_cons in Htick as [Hb%tick_tag_head Htick].
  cbn [sub_go]. rewrite (match_tag_none b s Hb).
  destruct s as [|c s].
  { unfold fence. rewrite !startswith_cons. by rewrite !andb_false_r. }
  destruct (decide (b = backtick)) as [->|Hne].
  - apply find_none_cons in Htick as [Hc%tick_tag_head _].
    cbn [sub_go]. rewrite (match_tag_none c s Hc).
    by rewrite startswith_fence in *.
  - cbn [sub_go]. destruct (match_tag (String c s)) as [[|k]|].
    + rewrite startswith_fence.
      rewrite (bool_decide_eq_false_2 (b = backtick)) by done.
      by rewrite andb_false_r.
    + unfold fence. rewrite !startswith_cons.
      rewrite (bool_decide_eq_false_2 (b = "`"%char)) by done.
      by rewrite andb_false_r.
    + rewrite startswith_fence.
      rewrite (bool_decide_eq_false_2 (b = backtick)) by done.
      by rewrite andb_false_r.
Qed.

Lemma find_fence_sub_tag s : ∀ skip,
  find fence s = None → find tick_tag s = None →
  find fence (sub_go match_tag skip s) = None.
Proof.
  induction s as [|a s IH]; intros skip Hfence Htick; [done|].
  pose proof Hfence as [_ Hs]%find_none_cons.
  pose proof Htick as [_ Ht]%find_none_cons.
  assert (find fence (String a (sub_go match_tag 0 s)) = None) as Hkept.
  { apply find_none_cons. split; [by apply startswith_fence_kept_tag|by apply IH]. }
  cbn [sub_go]. destruct skip as [|k]; [|by apply IH].
  destruct (match_tag (String a s)) as [[|k]|]; [done|by apply IH|done].
Qed.
End Fences.

Section Absent.
Lemma no_backtick_app a b :
  no_backtick (a +:+ b) = no_backtick a && no_backtick b.
Proof.
  induction a as [|x a IH]; [done|]. rewrite app_cons. simpl.
  by rewrite IH, andb_assoc.
Qed.

(** The passes only delete. *)
Lemma no_backtick_sub_go matcher s : ∀ skip,
  no_backtick s = true → no_backtick (Re.sub_go matcher skip s) = true.
Proof.
  induction s as [|a s IH]; intros skip; simpl; [done|].
  intros [Ha Hs]%andb_true_iff.
  destruct skip as [|k]; [|by apply IH].
  destruct (matcher (String a s)) as [[|k]|]; simpl; rewrite ?Ha; simpl; auto.
Qed.

Lemma no_backtick_sub_indented_go s : ∀ mode,
  no_backtick s = true → no_backtick (Re.sub_indented_go mode s) = true.
Proof.
  induction s as [|a s IH]; intros mode; [done|].
  intros [Ha Hs]%andb_true_iff. cbn [Re.sub_indented_go].
  destruct mode; destruct (bool_decide (a = Py.LF));
    try destruct (Py.startswith _ _); cbn [no_backtick]; rewrite ?Ha; simpl; auto.
Qed.

Lemma no_backtick_preprocess text strip_codeblocks strip_html :
  no_backtick text = true →
  no_backtick (preprocess_markdown text strip_codeblocks strip_html) = true.
Proof.
  intros Htext. unfold preprocess_markdown, Re.sub, Re.sub_indented.
  destruct strip_codeblocks, strip_html; simpl;
    auto using no_backtick_sub_go, no_backtick_sub_indented_go.
Qed.
End Absent.

(** The output of [preprocess_markdown] with code-block stripping, from what
    the first pass leaves. *)
Lemma preprocess_later_passes (text : string) (strip_html : bool) :
  preprocess_markdown text true strip_html
  = let rest := Re.sub_indented (Re.sub Re.match_fenced text) in
    if strip_html then Re.sub Re.match_tag rest else rest.
Proof. unfold preprocess_markdown. by destruct strip_html. Qed.

(** The first pass on a text with blocks that its pattern matches: every
    block goes, and the pass goes on behind it. *)
Lemma sub_fenced_with_blocks (blocks : list Block) (behind : string) :
  Forall (λ b, Py.find Re.fence (block_lead b) = None
               ∧ all_alnum (block_info b) = true
               ∧ Py.find Re.closing (block_body b) = None) blocks →
  Re.sub Re.match_fenced (with_blocks blocks behind)
  = without_blocks blocks (Re.sub Re.match_fenced behind).
Proof.
  induction 1 as [|b rest (Hlead & Hinfo & Hbody) _ IH]; cbn [with_blocks without_blocks];
    [done|].
  by rewrite sub_fenced_deleted, IH.
Qed.

(** The first pass on the text without the blocks, when every block started
    a line. *)
Lemma sub_fenced_without_blocks (blocks : list Block) (behind : string) :
  Forall (λ b, Py.find Re.fence (block_lead b) = None
               ∧ all_alnum (block_info b) = true
               ∧ Py.find Re.closing (block_body b) = None) blocks →
  Forall (λ b, ends_line (block_lead b) = true) blocks →
  Re.sub Re.match_fenced (without_blocks blocks behind)
  = without_blocks blocks (Re.sub Re.match_fenced behind).
Proof.
  induction 1 as [|b rest (Hlead & _) _ IH]; cbn [without_blocks]; [done|].
  intros [Hline Hlines]%Forall_cons.
  rewrite sub_fenced_front by auto. by rewrite IH.
Qed.

Lemma find_fence_without_blocks (blocks : list Block) (behind : string) :
  Forall (λ b, Py.find Re.fence (block_lead b) = None
               ∧ all_alnum (block_info b) = true
               ∧ Py.find Re.closing (block_body b) = None) blocks →
  Forall (λ b, ends_line (block_lead b) = true) blocks →
  Py.find Re.fence behind = None →
  Py.find Re.fence (without_blocks blocks behind) = None.
Proof.
  induction 1 as [|b rest (Hlead & _) _ IH]; cbn [without_blocks]; [done|].
  intros [Hline Hlines]%Forall_cons Hbehind.
  apply find_fence_app; auto.
Qed.

(** C8, as the code has it: with code-block stripping, take a text with any
    number of fenced blocks, in each of which the opening fence is followed
    by an info string of ASCII letters and digits (or none) and a line feed
    and the body holds no line feed followed by three backticks, the text
    in front of each block having no three backticks in a row.  The first
    pass deletes every one of these blocks and goes on behind the last.
    When every block starts a line, the output is that of the text without
    the blocks.  When, besides, the text behind the last block has no three
    backticks in a row either, and, with tag stripping, the text without the
    blocks has no backtick directly in front of a [<], the output has no
    three backticks in a row: no fenced block occurs in it. *)
Theorem fenced_block_is_stripped
    (blocks : list Block) (behind : string) (strip_html : bool) :
  Forall (λ b, Py.find Re.fence (block_lead b) = None
               ∧ all_alnum (block_info b) = true
               ∧ Py.find Re.closing (block_body b) = None) blocks →
  let output := preprocess_markdown (with_blocks blocks behind) true strip_html in
  output
  = (let rest :=
       Re.sub_indented (without_blocks blocks (Re.sub Re.match_fenced behind)) in
     if strip_html then Re.sub Re.match_tag rest else rest)
  ∧ (Forall (λ b, ends_line (block_lead b) = true) blocks →
     output = preprocess_markdown (without_blocks blocks behind) true strip_html
     ∧ (Py.find Re.fence behind = None →
        (strip_html = true → Py.find tick_tag (without_blocks blocks behind) = None) →
        Py.find Re.fence output = None
        ∧ ∀ info body, ¬ occurs (fenced_block info body) output)).
Proof.
  intros Hblocks output.
  assert (output
          = (let rest :=
               Re.sub_indented (without_blocks blocks (Re.sub Re.match_fenced behind)) in
             if strip_html then Re.sub Re.match_tag rest else rest)) as Hout.
  { unfold output. by rewrite preprocess_later_passes, sub_fenced_with_blocks. }
  split; [done|]. intros Hlines.
  split.
  { by rewrite Hout, preprocess_later_passes, sub_fenced_without_blocks. }
  intros Hbehind Htick.
  assert (Py.find Re.fence output = None) as Hnone.
  { rewrite Hout, (sub_fenced_none behind Hbehind). cbv zeta.
    pose proof (find_fence_without_blocks blocks behind Hblocks Hlines Hbehind) as Htext.
    pose proof (find_fence_sub_indented _ Re.LineStart Htext) as Hkept.
    destruct strip_html; [|done].
    apply find_fence_sub_tag; [done|].
    apply find_tick_tag_sub_indented. by apply Htick. }
  split; [done|]. intros info body (before & after & Hoccurs).
  apply (find_none_spec _ _ Hnone before
           (info +:+ String Py.LF (body +:+ Re.closing) +:+ after)).
  rewrite Hoccurs. unfold fenced_block. by rewrite !app_assoc_str.
Qed.

Lemma fenced_block_is_stripped_witness :
  preprocess_markdown (with_blocks two_blocks (String Py.LF "Done.")) true true
  = preprocess_markdown (without_blocks two_blocks (String Py.LF "Done.")) true true
  ∧ Py.find Re.fence
      (preprocess_markdown (with_blocks two_blocks (String Py.LF "Done.")) true true)
    = None.
Proof.
  destruct (fenced_block_is_stripped two_blocks (String Py.LF "Done.") true) as [_ Hlines].
  - repeat constructor.
  - destruct Hlines as [Hsame Habsent]; [repeat constructor|].
    destruct Habsent as [Hnone _]; [reflexivity|reflexivity|].
    by split.
Defined.

(** C8 fails as stated: a fenced block whose info string is [c++] is left in
    place, and so is a block that the removal of another one has put
    together. *)
Lemma fenced_block_survives :
  preprocess_markdown (fenced_block "c++" "int x;") true false
  = fenced_block "c++" "int x;"
  ∧ occurs (fenced_block "c++" "int x;")
      (preprocess_markdown (fenced_block "c++" "int x;") true false)
  ∧ preprocess_markdown
      ("`" +:+ fenced_block "" "a" +:+ "``" +:+ String Py.LF "b" +:+ Re.closing)
      true false
    = fenced_block "" "b".
Proof.
  split; [vm_compute; reflexivity|]. split; [|vm_compute; reflexivity].
  exists "", "". vm_compute. reflexivity.
Qed.

(** ** The built-ins on concrete inputs *)

Example endswith_txt : Py.endswith "a.txt" ".txt" = true ∧ Py.endswith "a.text" ".txt" = false.
Proof. by split. Qed.

Example splitext_examples :
  Py.splitext "a.txt" = ("a", ".txt")
  ∧ Py.splitext "a.b.md" = ("a.b", ".md")
  ∧ Py.splitext ".txt" = (".txt", "")
  ∧ Py.splitext "..txt" = ("..txt", "")
  ∧ Py.splitext ".txt.txt" = (".txt", ".txt").
Proof. by repeat split. Qed.

Example strip_example : Py.strip (String Py.LF "  a b " +:+ String Py.LF "") = "a b".
Proof. reflexivity. Qed.

Example strip_beyond_ascii :
  Py.strip (String "194" (String "160" (" a" +:+ String "227" (String "128" (String "128" "")))))
  = "a".
Proof. reflexivity. Qed.

Example path_split_examples :
  Py.path_split "./q/out" = ("./q", "out")
  ∧ Py.path_split "out/" = ("out", "")
  ∧ Py.path_split "/out" = ("/", "out")
  ∧ Py.path_split "out" = ("", "out").
Proof. by repeat split. Qed.

Example makedirs_example :
  dom (makedirs 7 "a/b/c/" ({[ "a" := [("x.txt", "1")] ]}))
  = ({[ "a"; "a/b"; "a/b/c/" ]} : gset string)
  ∧ makedirs 7 "a/b/c/" ({[ "a" := [("x.txt", "1")] ]}) !! "a" = Some [("x.txt", "1")].
Proof. split; [|reflexivity]. apply set_eq. intros x. vm_compute. tauto. Qed.

Example sorted_example :
  Py.sorted id ["b"; "a-b.txt"; "a.txt"; "a"] = ["a"; "a-b.txt"; "a.txt"; "b"].
Proof. reflexivity. Qed.

Example path_join_example :
  Py.path_join "./results" "a_result.json" = "./results/a_result.json"
  ∧ Py.path_join "out/" "all_results.json" = "out/all_results.json".
Proof. by split. Qed.

Example strip_fenced_example :
  preprocess_markdown ("a" +:+ String Py.LF (fenced_block "py" "x=1") +:+ String Py.LF "b")
    true false
  = "a" +:+ String Py.LF (String Py.LF "b").
Proof. vm_compute. reflexivity. Qed.

Example strip_two_blocks_example :
  with_blocks two_blocks (String Py.LF "Done.")
  = "Run `this`:" +:+ String Py.LF "```python" +:+ String Py.LF "print(1)"
    +:+ String Py.LF "```" +:+ String Py.LF "Then:" +:+ String Py.LF "```"
    +:+ String Py.LF "ls" +:+ String Py.LF "```" +:+ String Py.LF "Done."
  ∧ preprocess_markdown (with_blocks two_blocks (String Py.LF "Done.")) true true
    = "Run `this`:" +:+ String Py.LF "" +:+ String Py.LF "Then:"
      +:+ String Py.LF "" +:+ String Py.LF "Done.".
Proof. split; vm_compute; reflexivity. Qed.

Example strip_indented_example :
  preprocess_markdown
    ("x" +:+ String Py.LF "    code" +:+ String Py.LF "  y" +:+ String Py.LF "     z")
    true false
  = "x" +:+ String Py.LF (String Py.LF "  y" +:+ String Py.LF "").
Proof. vm_compute. reflexivity. Qed.

Example strip_html_example :
  preprocess_markdown "a <b> c < d <e f='>'> g" false true = "a  c '> g".
Proof. vm_compute. reflexivity. Qed.

Example empty_fenced_block_example :
  preprocess_markdown (Re.fence +:+ Re.closing) true false = Re.fence +:+ Re.closing.
Proof. vm_compute. reflexivity. Qed.

(** * Further properties *)

(** ** What the three substitutions leave behind *)

Section Passes.
Import Py Re.

Lemma find_char_none (c : ascii) (s : string) :
  find (String c "") s = None ↔ without c s = true.
Proof.
  induction s as [|a s IH]; [done|].
  rewrite find_cons, startswith_char. simpl.
  case_bool_decide; simpl; [done|].
  rewrite <- IH. by destruct (find (String c "") s).
Qed.

(** The scans only delete characters. *)
Lemma sub_go_sublist matcher s : ∀ skip,
  sublist (chars (sub_go matcher skip s)) (chars s).
Proof.
  induction s as [|a s IH]; intros skip; simpl; [done|].
  destruct skip as [|k]; [|by apply sublist_cons].
  destruct (matcher (String a s)) as [[|k]|]; simpl;
    auto using sublist_cons, sublist_skip.
Qed.

Lemma sub_indented_go_sublist s : ∀ mode,
  sublist (chars (sub_indented_go mode s)) (chars s).
Proof.
  induction s as [|a s IH]; intros mode; [done|]. cbn [sub_indented_go].
  destruct mode; destruct (bool_decide (a = LF));
    try destruct (startswith _ _); simpl; auto using sublist_cons, sublist_skip.
Qed.

Lemma without_spec c s : without c s = true ↔ c ∉ chars s.
Proof.
  unfold chars. induction s as [|a s IH]; simpl.
  - split; [intros _; apply not_elem_of_nil|done].
  - rewrite andb_true_iff, IH, not_elem_of_cons.
    case_bool_decide; simpl; intuition congruence.
Qed.

Lemma without_sublist c s t :
  sublist (chars t) (chars s) → without c s = true → without c t = true.
Proof.
  rewrite !without_spec. intros Hsub Hs Ht.
  apply Hs. by eapply sublist_subseteq.
Qed.

Lemma without_app c a b : without c (a +:+ b) = without c a && without c b.
Proof.
  induction a as [|x a IH]; [done|]. rewrite app_cons. simpl.
  by rewrite IH, andb_assoc.
Qed.

(** *** Tags *)

Lemma no_tag_sub_tag s : ∀ skip, no_tag (sub_go match_tag skip s) = true.
Proof.
  induction s as [|a s IH]; intros skip; [done|]. cbn [sub_go].
  destruct skip as [|k]; [|apply IH]. cbn [match_tag].
  case_bool_decide as Ha.
  - destruct (find ">" s) as [j|] eqn:Hfind; simpl; [apply IH|].
    rewrite bool_decide_eq_true_2 by done. rewrite IH, andb_true_r.
    apply (without_sublist _ s); [apply sub_go_sublist|].
    by apply find_char_none.
  - simpl. rewrite bool_decide_eq_false_2 by done. apply IH.
Qed.

Lemma sub_tag_clean s : no_tag s = true → sub match_tag s = s.
Proof.
  unfold sub. induction s as [|a s IH]; [done|]. simpl.
  intros [Ha Hs]%andb_true_iff. case_bool_decide.
  - apply find_char_none in Ha. rewrite Ha. simpl. by rewrite IH.
  - by rewrite IH.
Qed.

Lemma no_tag_spec s :
  no_tag s = true → ∀ a b c, s ≠ a +:+ "<" +:+ b +:+ ">" +:+ c.
Proof.
  intros Hs a b c ->. revert Hs. induction a as [|x a IH].
  - change ("" +:+ "<" +:+ b +:+ ">" +:+ c) with (String "<" (b +:+ ">" +:+ c)).
    simpl. rewrite without_app. change (">" +:+ c) with (String ">" c). simpl.
    by rewrite andb_false_r.
  - rewrite app_cons. simpl. intros [_ Hs]%andb_true_iff. by apply IH.
Qed.

(** *** Indented lines *)

Lemma kept_line_start n : ∀ s,
  startswith (sub_indented_go InLine s) (String.string_of_list_ascii (replicate n " "%char))
  = startswith s (String.string_of_list_ascii (replicate n " "%char)).
Proof.
  induction n as [|n IH]; intros s; simpl.
  - unfold startswith. by rewrite !prefix_empty.
  - destruct s as [|b s]; [done|]. cbn [sub_indented_go].
    rewrite !startswith_cons.
    destruct (decide (b = " "%char)) as [->|Hb].
    * rewrite (bool_decide_eq_false_2 (" "%char = LF)) by done.
      rewrite bool_decide_eq_true_2 by done. simpl. apply IH.
    * by rewrite !(bool_decide_eq_false_2 (b = " "%char)) by done.
Qed.

Lemma no_indented_line_sub s : ∀ mode,
  match mode with
  | LineStart => no_indented_line_go true (sub_indented_go mode s) = true
  | InLine => no_indented_line_go false (sub_indented_go mode s) = true
  | Dropping => ∀ b, no_indented_line_go b (sub_indented_go mode s) = true
  end.
Proof.
  induction s as [|a s IH]; intros mode; [by destruct mode|].
  pose proof (IH LineStart) as IHstart. pose proof (IH InLine) as IHin.
  pose proof (IH Dropping) as IHdrop. simpl in IHstart, IHin, IHdrop.
  destruct mode; cbn [sub_indented_go].
  - destruct (startswith (String a s) "    ") eqn:Hfour; [apply IHdrop|].
    cbn [no_indented_line_go]. apply andb_true_iff. split.
    + apply negb_true_iff.
      change "    " with (String " " (String.string_of_list_ascii (replicate 3 " "%char)))
        in *.
      rewrite startswith_cons in *.
      destruct (decide (a = " "%char)) as [->|Ha].
      * rewrite (bool_decide_eq_false_2 (" "%char = LF)) by done.
        rewrite (kept_line_start 3). exact Hfour.
      * by rewrite (bool_decide_eq_false_2 (a = " "%char)) by done.
    + case_bool_decide; [apply IHstart|apply IHin].
  - cbn [no_indented_line_go]. simpl.
    case_bool_decide; [apply IHstart|apply IHin].
  - intros b. case_bool_decide as Ha; [|apply IHdrop].
    cbn [no_indented_line_go]. apply andb_true_iff. split.
    + destruct b; [|done]. subst a. by rewrite startswith_cons.
    + rewrite bool_decide_eq_true_2 by done. apply IHstart.
Qed.

Lemma sub_indented_clean s : ∀ mode,
  mode ≠ Dropping →
  no_indented_line_go (match mode with LineStart => true | _ => false end) s = true →
  sub_indented_go mode s = s.
Proof.
  induction s as [|a s IH]; intros mode Hmode; [done|].
  cbn [no_indented_line_go sub_indented_go].
  intros [Hhead Hrest]%andb_true_iff.
  assert (sub_indented_go (if bool_decide (a = LF) then LineStart else InLine) s = s)
    as Hnext.
  { apply IH; by case_bool_decide. }
  destruct mode; [|by rewrite Hnext|done].
  apply negb_true_iff in Hhead. rewrite Hhead. by rewrite Hnext.
Qed.

Lemma no_indented_line_spec s :
  no_indented_line s = true →
  (∀ b, s ≠ "    " +:+ b) ∧ (∀ a b, s ≠ a +:+ String LF ("    " +:+ b)).
Proof.
  intros Hs. split.
  - intros b ->. unfold no_indented_line in Hs.
    change ("    " +:+ b) with (String " " ("   " +:+ b)) in Hs.
    cbn [no_indented_line_go] in Hs. apply andb_true_iff in Hs as [Hhead _].
    apply negb_true_iff in Hhead.
    change (String " " ("   " +:+ b)) with ("    " +:+ b) in Hhead.
    by rewrite startswith_app in Hhead.
  - intros a b ->. unfold no_indented_line in Hs.
    assert (∀ flag, no_indented_line_go flag (a +:+ String LF ("    " +:+ b)) = false)
      as Hfalse; [|by rewrite Hfalse in Hs].
    clear Hs. induction a as [|x a IH]; intros flag.
    + change ("" +:+ String LF ("    " +:+ b)) with (String LF ("    " +:+ b)).
      cbn [no_indented_line_go]. rewrite (bool_decide_eq_true_2 (LF = LF)) by done.
      change ("    " +:+ b) with (String " " ("   " +:+ b)).
      cbn [no_indented_line_go].
      change (String " " ("   " +:+ b)) with ("    " +:+ b).
      rewrite startswith_app. simpl. by rewrite andb_false_r.
    + rewrite app_cons. cbn [no_indented_line_go]. by rewrite IH, andb_false_r.
Qed.
End Passes.

(** ** [preprocess_markdown] as a whole *)

Lemma length_chars (s : string) : length (chars s) = String.length s.
Proof. unfold chars. induction s as [|a s IH]; simpl; by rewrite ?IH. Qed.

(** X1: with tag stripping, the output of [preprocess_markdown] holds no tag:
    no [<] of the output has a [>] anywhere behind it. *)
Theorem strip_html_leaves_no_tag (text : string) (strip_codeblocks : bool) :
  ∀ a b c, preprocess_markdown text strip_codeblocks true ≠ a +:+ "<" +:+ b +:+ ">" +:+ c.
Proof.
  apply no_tag_spec. unfold preprocess_markdown, Re.sub.
  destruct strip_codeblocks; simpl; apply no_tag_sub_tag.
Qed.

(** X2: stripping the tags a second time changes nothing. *)
Theorem strip_html_twice (text : string) (strip_codeblocks : bool) :
  preprocess_markdown (preprocess_markdown text strip_codeblocks true) false true
  = preprocess_markdown text strip_codeblocks true.
Proof.
  assert (no_tag (preprocess_markdown text strip_codeblocks true) = true) as Hclean.
  { unfold preprocess_markdown, Re.sub.
    destruct strip_codeblocks; simpl; apply no_tag_sub_tag. }
  unfold preprocess_markdown at 1. simpl. by apply sub_tag_clean.
Qed.

(** X3: with code-block stripping and without tag stripping, no line of the
    output starts with four spaces: neither the first line nor a line behind
    a line feed. *)
Theorem strip_codeblocks_leaves_no_indented_line (text : string) :
  (∀ b, preprocess_markdown text true false ≠ "    " +:+ b)
  ∧ (∀ a b, preprocess_markdown text true false ≠ a +:+ String Py.LF ("    " +:+ b)).
Proof.
  apply no_indented_line_spec. unfold preprocess_markdown, Re.sub_indented. simpl.
  apply (no_indented_line_sub _ Re.LineStart).
Qed.

(** X4: [preprocess_markdown] only deletes: its output is a subsequence of the
    characters of the text, so nothing is inserted or reordered, and the
    output is no longer than the text. *)
Theorem preprocess_only_deletes (text : string) (strip_codeblocks strip_html : bool) :
  sublist (chars (preprocess_markdown text strip_codeblocks strip_html)) (chars text)
  ∧ String.length (preprocess_markdown text strip_codeblocks strip_html)
    ≤ String.length text.
Proof.
  assert (sublist (chars (preprocess_markdown text strip_codeblocks strip_html))
            (chars text)) as Hsub.
  { unfold preprocess_markdown, Re.sub, Re.sub_indented.
    destruct strip_codeblocks, strip_html; simpl; try done.
    - etrans; [apply sub_go_sublist|]. etrans; [apply sub_indented_go_sublist|].
      apply sub_go_sublist.
    - etrans; [apply sub_indented_go_sublist|]. apply sub_go_sublist.
    - apply sub_go_sublist. }
  split; [done|]. rewrite <- !length_chars. by apply sublist_length.
Qed.

(** X5: a text without backticks, without a line that starts with four
    spaces and without a tag is returned as it is, whatever the flags. *)
Theorem preprocess_plain_text (text : string) (strip_codeblocks strip_html : bool) :
  no_backtick text = true →
  no_indented_line text = true →
  no_tag text = true →
  preprocess_markdown text strip_codeblocks strip_html = text.
Proof.
  intros Hticks Hlines Htags.
  assert (Re.sub Re.match_fenced text = text) as Hfenced.
  { rewrite <- (app_empty_r text) at 1. rewrite sub_fenced_clean by done.
    apply app_empty_r. }
  assert (Re.sub_indented text = text) as Hindented.
  { by apply sub_indented_clean. }
  unfold preprocess_markdown.
  destruct strip_codeblocks, strip_html; simpl;
    by rewrite ?Hfenced, ?Hindented, ?sub_tag_clean.
Qed.

Lemma preprocess_plain_text_witness :
  preprocess_markdown "Is 1 < 2? What is 2 + 2?" true true = "Is 1 < 2? What is 2 + 2?".
Proof. apply preprocess_plain_text; reflexivity. Defined.

(** ** More on the loaders *)

Lemma file_text_elem entries filename content :
  file_text entries filename = Some content → (filename, content) ∈ entries.
Proof.
  unfold file_text.
  destruct (list_find _ entries) as [[i [name c]]|] eqn:Hfound; [|done].
  simpl. intros [= <-].
  apply list_find_Some in Hfound as (Hi & Hname & _). simpl in Hname. subst name.
  by eapply list_elem_of_lookup_2.
Qed.

(** X6: when preprocessing is off, or on without any of its two options, the
    text of every loaded question is the stripped content of its file; the
    two options have no effect without [--preprocess]. *)
Theorem loader_text_is_stripped_content
    (questions_dir : string) (preprocess strip_codeblocks strip_html : bool)
    (st st' : State) (questions : list Question) :
  preprocess = false ∨ (strip_codeblocks = false ∧ strip_html = false) →
  SingleShot.read_question_files questions_dir preprocess strip_codeblocks strip_html st
    = (Py.Ok questions, st')
  ∨ Chained.read_questions questions_dir preprocess strip_codeblocks strip_html st
    = (Py.Ok questions, st') →
  ∃ entries,
    dirs st !! questions_dir = Some entries
    ∧ ∀ q, q ∈ questions →
        ∃ content, (q_file q, content) ∈ entries ∧ q_text q = Py.strip content.
Proof.
  intros Hoff (entries & Hdir & -> & Hperm)%loaded_questions.
  exists entries. split; [done|]. intros q. rewrite Hperm.
  intros (f & -> & [_ Hf]%list_elem_of_filter)%list_elem_of_fmap.
  destruct (file_text_listed entries f Hf) as [content Hcontent].
  exists content. split; [by apply file_text_elem|].
  unfold question_of. rewrite Hcontent. simpl.
  destruct Hoff as [->|[-> ->]]; [done|]. by destruct preprocess.
Qed.

Lemma loader_text_is_stripped_content_witness :
  ∃ entries,
    dirs two_questions !! "./questions" = Some entries
    ∧ ∀ q, q ∈ Py.sorted q_id
               [question_of false true true
                  [("b.txt", "Capital of France?"); ("notes.json", "{}"); ("a.txt", "2+2=?")]
                  "a.txt";
                question_of false true true
                  [("b.txt", "Capital of France?"); ("notes.json", "{}"); ("a.txt", "2+2=?")]
                  "b.txt"] →
        ∃ content, (q_file q, content) ∈ entries ∧ q_text q = Py.strip content.
Proof.
  apply (loader_text_is_stripped_content "./questions" false true true
           two_questions two_questions).
  - by left.
  - right. vm_compute. reflexivity.
Defined.

(** *** Identifiers of ordinary file names *)

Lemma rfind_lower c s : (-1 ≤ Py.rfind c s)%Z.
Proof.
  induction s as [|a s IH]; simpl; [done|].
  repeat case_bool_decide; lia.
Qed.

Lemma rfind_app c a b :
  Py.rfind c (a +:+ b)
  = if bool_decide (0 ≤ Py.rfind c b)%Z
    then (Z.of_nat (String.length a) + Py.rfind c b)%Z
    else Py.rfind c a.
Proof.
  induction a as [|x a IH].
  - change ("" +:+ b) with b. pose proof (rfind_lower c b).
    case_bool_decide; simpl; lia.
  - rewrite app_cons. cbn [Py.rfind String.length]. rewrite IH.
    pose proof (rfind_lower c a). pose proof (rfind_lower c b).
    repeat case_bool_decide; lia.
Qed.

Lemma rfind_without c s : without c s = true → Py.rfind c s = (-1)%Z.
Proof.
  induction s as [|a s IH]; simpl; [done|].
  intros [Ha Hs]%andb_true_iff. rewrite (IH Hs).
  apply negb_true_iff in Ha. rewrite Ha. by rewrite bool_decide_eq_false_2 by lia.
Qed.

Lemma take_app_str (a b : string) : Py.take (String.length a) (a +:+ b) = a.
Proof.
  induction a as [|x a IH]; [by destruct b|]. rewrite app_cons. simpl. by rewrite IH.
Qed.

(** X7: for a file name made of a stem without a slash and with some
    character other than a dot, followed by [.txt] or [.md], the loaders take
    the file up and its identifier is the stem, so its record goes to
    [<stem>_result.json] in the output directory. *)
Theorem identifier_of_plain_name (stem ext : string) :
  ext = ".txt" ∨ ext = ".md" →
  without "/" stem = true →
  Py.all_dots stem = false →
  Py.splitext (stem +:+ ext) = (stem, ext)
  ∧ recognized (stem +:+ ext) = true
  ∧ ∀ preprocess strip_codeblocks strip_html entries args,
      let q := question_of preprocess strip_codeblocks strip_html entries (stem +:+ ext) in
      q_id q = stem
      ∧ result_file args (q_id q)
        = Py.path_join (Args.output_dir args) (stem +:+ "_result.json").
Proof.
  intros Hext Hslash Hdots.
  assert (Py.rfind "." ext = 0%Z ∧ Py.rfind "/" ext = (-1)%Z
          ∧ Py.endswith (stem +:+ ext) ext = true) as (Hdot & Hsep & Hends).
  { assert (Py.drop (String.length (stem +:+ ext) - String.length ext) (stem +:+ ext)
            = ext) as Hdrop.
    { rewrite length_app_str.
      replace (String.length stem + String.length ext - String.length ext)
        with (String.length stem) by lia.
      apply drop_app_str. }
    unfold Py.endswith. rewrite Hdrop.
    rewrite (bool_decide_eq_true_2 (ext = ext)) by done.
    rewrite bool_decide_eq_true_2 by (rewrite length_app_str; lia).
    by destruct Hext as [->| ->]. }
  assert (Py.splitext (stem +:+ ext) = (stem, ext)) as Hsplit.
  { unfold Py.splitext. rewrite !rfind_app, Hdot, Hsep, (rfind_without _ _ Hslash).
    rewrite (bool_decide_eq_true_2 (0 ≤ 0)%Z) by lia.
    rewrite (bool_decide_eq_false_2 (0 ≤ -1)%Z) by lia.
    rewrite bool_decide_eq_true_2 by lia.
    replace (Z.to_nat (-1 + 1)) with 0 by done.
    replace (Z.to_nat (Z.of_nat (String.length stem) + 0) - 0)
      with (String.length stem) by lia.
    replace (Z.to_nat (Z.of_nat (String.length stem) + 0))
      with (String.length stem) by lia.
    change (Py.drop 0 (stem +:+ ext)) with (stem +:+ ext).
    by rewrite take_app_str, Hdots, drop_app_str. }
  split; [done|]. split.
  { unfold recognized. destruct Hext as [->| ->]; rewrite Hends; [done|].
    apply orb_true_r. }
  intros preprocess strip_codeblocks strip_html entries args q. subst q.
  unfold question_of. simpl. by rewrite Hsplit.
Qed.

Lemma identifier_of_plain_name_witness :
  Py.splitext ("question_0001" +:+ ".txt") = ("question_0001", ".txt")
  ∧ recognized ("question_0001" +:+ ".txt") = true.
Proof.
  destruct (identifier_of_plain_name "question_0001" ".txt") as (Hsplit & Hrec & _);
    [by left|reflexivity|reflexivity|].
  by split.
Defined.

(** *** The two loaders side by side *)

Lemma sorted_of_sorted {A} (key : A → string) (l : list A) :
  StronglySorted (key_le key) l → Py.sorted key l = l.
Proof.
  induction 1 as [|x l _ IH Hx]; [done|]. simpl. rewrite IH.
  destruct l as [|y l]; [done|]. simpl.
  apply Forall_cons in Hx as [Hxy _]. by rewrite bool_decide_eq_true_2.
Qed.

(** Python's sort is stable: the elements of one key keep their order. *)
Lemma insert_sorted_stable {A} (key : A → string) (k : string) (x : A) (l : list A) :
  filter (λ y, key y = k) (Py.insert_sorted key x l) = filter (λ y, key y = k) (x :: l).
Proof.
  induction l as [|y l IH]; [done|]. simpl.
  case_bool_decide as Hxy; [done|].
  assert (key x ≠ key y) as Hne.
  { intros Heq. apply Hxy. rewrite Heq. done. }
  rewrite (filter_cons _ y), IH, !(filter_cons _ x), (filter_cons _ y).
  repeat case_decide; congruence.
Qed.

Lemma sorted_stable {A} (key : A → string) (k : string) (l : list A) :
  filter (λ y, key y = k) (Py.sorted key l) = filter (λ y, key y = k) l.
Proof.
  induction l as [|x l IH]; [done|]. simpl.
  by rewrite insert_sorted_stable, !filter_cons, IH.
Qed.

(** X8: the two loaders return the same questions; they return them in the
    same order exactly when the order of the file names is an order of the
    identifiers, and in any case the questions of one identifier come in the
    order of their file names in both. *)
Theorem loaders_side_by_side
    (questions_dir : string) (preprocess strip_codeblocks strip_html : bool)
    (st st' : State) (single : list Question) :
  SingleShot.read_question_files questions_dir preprocess strip_codeblocks strip_html st
  = (Py.Ok single, st') →
  ∃ chained,
    Chained.read_questions questions_dir preprocess strip_codeblocks strip_html st
    = (Py.Ok chained, st')
    ∧ chained ≡ₚ single
    ∧ (chained = single ↔ StronglySorted (key_le q_id) single)
    ∧ ∀ i, filter (λ q, q_id q = i) chained = filter (λ q, q_id q = i) single.
Proof.
  rewrite single_shot_loader, chained_loader. intros ->.
  exists (Py.sorted q_id single). split; [done|]. split; [apply sorted_perm|].
  split; [|intros i; apply sorted_stable].
  split.
  - intros <-. apply sorted_sorted.
  - apply sorted_of_sorted.
Qed.

Lemma loaders_side_by_side_witness :
  ∃ chained,
    Chained.read_questions "./questions" false false false dashed_names
    = (Py.Ok chained, dashed_names)
    ∧ chained ≡ₚ [question_of false false false
                    [("a.txt", "first"); ("a-b.txt", "second")] "a-b.txt";
                  question_of false false false
                    [("a.txt", "first"); ("a-b.txt", "second")] "a.txt"].
Proof.
  destruct (loaders_side_by_side "./questions" false false false dashed_names
              dashed_names
              [question_of false false false
                 [("a.txt", "first"); ("a-b.txt", "second")] "a-b.txt";
               question_of false false false
                 [("a.txt", "first"); ("a-b.txt", "second")] "a.txt"])
    as (chained & Hload & Hperm & _); [vm_compute; reflexivity|].
  by exists chained.
Defined.

(** *** Trimmed text *)

Section Strip.
Import Py.

Lemma rev_app_spec s1 : ∀ s2, String.rev_app s1 s2 = String.rev s1 +:+ s2.
Proof.
  induction s1 as [|a s1 IH]; intros s2; [done|].
  unfold String.rev. simpl. rewrite (IH (String a s2)), (IH (String a "")).
  by rewrite app_assoc_str.
Qed.

Lemma rev_cons a s : String.rev (String a s) = String.rev s +:+ String a "".
Proof. unfold String.rev at 1. simpl. apply rev_app_spec. Qed.

Lemma rev_app_distr a b : String.rev (a +:+ b) = String.rev b +:+ String.rev a.
Proof.
  induction a as [|x a IH].
  - change ("" +:+ b) with b. by rewrite app_empty_r.
  - by rewrite app_cons, !rev_cons, IH, app_assoc_str.
Qed.

Lemma rev_involutive s : String.rev (String.rev s) = s.
Proof.
  induction s as [|a s IH]; [done|]. by rewrite rev_cons, rev_app_distr, IH.
Qed.

Section Go.
Context (two : ascii → ascii → bool) (three : ascii → ascii → ascii → bool).

Lemma strip_go_head n : ∀ x a r,
  String.length x ≤ n → strip_go two three x = String a r → is_space a = false.
Proof.
  induction n as [|n IH]; intros x a r Hn; destruct x as [|a0 s1]; try done;
    simpl in Hn; [lia|].
  cbn [strip_go]. destruct (is_space a0) eqn:Ha0; [apply IH; lia|].
  destruct s1 as [|b s2]; [by intros [= <- _]|].
  destruct (two a0 b); [apply IH; simpl in Hn; lia|].
  destruct s2 as [|c s3]; [by intros [= <- _]|].
  destruct (three a0 b c); [apply IH; simpl in Hn; lia|]. by intros [= <- _].
Qed.

Lemma strip_go_suffix n : ∀ x,
  String.length x ≤ n → ∃ p, x = p +:+ strip_go two three x.
Proof.
  induction n as [|n IH]; intros x Hn; destruct x as [|a0 s1];
    try (by exists ""); simpl in Hn; [lia|].
  cbn [strip_go]. destruct (is_space a0).
  { destruct (IH s1) as [p Hp]; [lia|]. exists (String a0 p).
    by rewrite app_cons, <- Hp. }
  destruct s1 as [|b s2]; [by exists ""|].
  destruct (two a0 b).
  { destruct (IH s2) as [p Hp]; [simpl in Hn; lia|].
    exists (String a0 (String b p)). by rewrite !app_cons, <- Hp. }
  destruct s2 as [|c s3]; [by exists ""|].
  destruct (three a0 b c); [|by exists ""].
  destruct (IH s3) as [p Hp]; [simpl in Hn; lia|].
  exists (String a0 (String b (String c p))). by rewrite !app_cons, <- Hp.
Qed.
End Go.

(** [s.strip()] neither starts nor ends with a white-space character of
    the ASCII range. *)
Lemma strip_trimmed s :
  (∀ a r, strip s = String a r → is_space a = false)
  ∧ (∀ a r, strip s = r +:+ String a "" → is_space a = false).
Proof.
  unfold strip, rstrip, lstrip. split; intros a r Hs.
  - apply (f_equal String.rev) in Hs. rewrite rev_involutive, rev_cons in Hs.
    destruct (strip_go_suffix (λ b a, is_space2 a b) (λ c b a, is_space3 a b c) _
                (String.rev (strip_go is_space2 is_space3 s)) (le_n _)) as [p Hp].
    rewrite Hs in Hp. apply (f_equal String.rev) in Hp.
    rewrite rev_involutive, <- app_assoc_str, rev_app_distr in Hp.
    change (String.rev (String a "")) with (String a "") in Hp.
    rewrite app_cons in Hp. by eapply strip_go_head.
  - apply (f_equal String.rev) in Hs. rewrite rev_involutive, rev_app_distr in Hs.
    change (String.rev (String a "")) with (String a "") in Hs.
    rewrite app_cons in Hs. by eapply strip_go_head.
Qed.
End Strip.

(** X9: without preprocessing, the text of a loaded question neither starts
    nor ends with an ASCII white-space character. *)
Theorem loaded_text_is_trimmed
    (questions_dir : string) (strip_codeblocks strip_html : bool)
    (st st' : State) (questions : list Question) :
  SingleShot.read_question_files questions_dir false strip_codeblocks strip_html st
    = (Py.Ok questions, st')
  ∨ Chained.read_questions questions_dir false strip_codeblocks strip_html st
    = (Py.Ok questions, st') →
  ∀ q, q ∈ questions →
    (∀ a r, q_text q = String a r → Py.is_space a = false)
    ∧ (∀ a r, q_text q = r +:+ String a "" → Py.is_space a = false).
Proof.
  intros (entries & Hdir & -> & Hperm)%loaded_questions q. rewrite Hperm.
  intros (f & -> & _)%list_elem_of_fmap. unfold question_of. simpl.
  apply strip_trimmed.
Qed.

Lemma loaded_text_is_trimmed_witness :
  q_text (question_of false false false [("a.txt", "  2+2=?  ")] "a.txt") = "2+2=?"
  ∧ Py.is_space "2" = false.
Proof.
  destruct (loaded_text_is_trimmed "./questions" false false padded_question
              padded_question
              [question_of false false false [("a.txt", "  2+2=?  ")] "a.txt"])
    with (q := question_of false false false [("a.txt", "  2+2=?  ")] "a.txt")
    as [Hfirst _].
  - left. vm_compute. reflexivity.
  - apply list_elem_of_here.
  - split; [reflexivity|]. apply (Hfirst "2"%char "+2=?"). reflexivity.
Defined.

(** ** More on the runs *)

Section Traces.
Context (env : Env) (args : Args.t).


Lemma shown_returns r r' : shown r = Py.Ok r' → r' = r.
Proof. unfold shown. destruct (SingleShot.preview _); congruence. Qed.


(** The loop body of [run_iterations], with the clock. *)
Lemma chained_process_question_trace (question : Question) (st : State) :
  ∃ r st',
    Chained.process_question env args question st = (Py.Ok r, st')
    ∧ length (Chained.responses r) = 6
    ∧ requests st' = requests st ++ (asked args <$> take 5 (Chained.responses r))
    ∧ ticks st' = ticks st.
Proof.
  destruct (iterate_chain env args 5 (JStr (q_text question)) [JStr (q_text question)] st)
    as (completions & st1 & Hrun & Hlen & _ & Hreq & _ & Hticks & _).
  eexists _, _. unfold Chained.process_question, write_json.
  unfold_M. rewrite Hrun. simpl. split; [reflexivity|]. simpl.
  by rewrite Hlen.
Qed.

Lemma chained_process_questions_trace questions : ∀ results st,
  ∃ more st',
    Chained.process_questions env args questions results st
    = (Py.Ok (results ++ more), st')
    ∧ requests st'
      = requests st ++ (more ≫= λ r, asked args <$> take 5 (Chained.responses r))
    ∧ Forall (λ r, length (Chained.responses r) = 6) more
    ∧ ticks st' = ticks st.
Proof.
  induction questions as [|q questions IH]; intros results st; simpl.
  - exists [], st. rewrite !app_nil_r. by repeat split.
  - destruct (chained_process_question_trace q st)
      as (r & st1 & Hrun & Hsix & Hreq & Hticks).
    destruct (IH (results ++ [r]) st1) as (more & st' & Hrest & Hreq' & Hall & Hticks').
    exists (r :: more), st'. unfold_M. rewrite Hrun, Hrest, <- app_assoc.
    split; [done|]. split; [|split].
    + rewrite Hreq', Hreq, <- app_assoc. done.
    + by constructor.
    + congruence.
Qed.

Lemma length_bind_five (results : list Chained.Result) :
  Forall (λ r, length (Chained.responses r) = 6) results →
  length (results ≫= λ r, asked args <$> take 5 (Chained.responses r))
  = 5 * length results.
Proof.
  induction 1 as [|r results Hr _ IH]; [done|].
  rewrite bind_cons, length_app, IH, length_fmap, length_take, Hr. simpl. lia.
Qed.


(** X11: a chained run that completes has sent five requests per record,
    in the order of the records, the prompts of a record's requests being
    the first five elements of its [responses]; it has not read the clock,
    so that no record of a chained run holds a time. *)
Theorem chained_run_trace (st st' : State) (results : list Chained.Result) :
  Chained.run_iterations env args st = (Py.Ok results, st') →
  requests st'
  = requests st ++ (results ≫= λ r, asked args <$> take 5 (Chained.responses r))
  ∧ length (requests st') = length (requests st) + 5 * length results
  ∧ ticks st' = ticks st.
Proof.
  intros Hrun. unfold Chained.run_iterations, write_json in Hrun. unfold_M.
  rewrite ensure_output_dir_prepared in Hrun.
  destruct (Chained.read_questions _ _ _ _ (prepared args st))
    as [[questions|e] st1] eqn:Hload; [|done].
  destruct (loaded_questions _ _ _ _ _ _ _ (or_intror Hload)) as (_ & _ & -> & _).
  destruct (chained_process_questions_trace questions [] (prepared args st))
    as (more & st2 & Hloop & Hreq & Hsix & Hticks).
  rewrite Hloop in Hrun. simpl in Hrun. injection Hrun as <- <-. simpl.
  destruct (prepared_unchanged args st) as (Hr & Ht & _).
  rewrite Hr in Hreq. rewrite Ht in Hticks.
  split; [done|]. split; [|done].
  by rewrite Hreq, length_app, length_bind_five.
Qed.
End Traces.


Lemma chained_run_trace_witness :
  ∃ results st',
    Chained.run_iterations echo_env default_args two_questions = (Py.Ok results, st')
    ∧ length (requests st') = length (requests two_questions) + 5 * length results
    ∧ ticks st' = ticks two_questions.
Proof.
  let out := eval vm_compute in (Chained.run_iterations echo_env default_args two_questions) in
  match out with
  | (Py.Ok ?results, ?st') =>
      exists results, st';
      assert (Chained.run_iterations echo_env default_args two_questions
              = (Py.Ok results, st')) as Hrun by (vm_compute; reflexivity);
      destruct (chained_run_trace echo_env default_args two_questions st' results Hrun)
        as (_ & Hlen & Hticks)
  end.
  by repeat split.
Defined.

(** *** An endpoint that cannot be reached, in the chained runner *)

Section Unreachable.
Context (env : Env) (args : Args.t).

Lemma ask_unreachable prompt st :
  unreachable env →
  ask env args prompt st = (Py.Ok (JStr connect_error_text), sent (asked args prompt) st).
Proof.
  intros Hdown. destruct (Hdown (requests st) (asked args prompt)) as (e & Hpost & Hconn).
  by apply query_ollama_unreachable with e.
Qed.

Lemma chain_unreachable st prompt completions st' :
  unreachable env →
  chain env args st prompt completions st' →
  completions = replicate (length completions) (JStr connect_error_text).
Proof.
  intros Hdown.
  induction 1 as [|st1 st2 st3 prompt completion rest Hask _ IH]; [done|].
  rewrite ask_unreachable in Hask by done. injection Hask as <- _.
  simpl. by rewrite <- IH.
Qed.

(** X12: when the endpoint cannot be reached, the chained runner does not
    stop at the first failure: it sends all five requests of a question, the
    connection error text being the prompt of the second to the fifth, and
    the record holds the question text followed by five copies of that
    text; so does every record of a run. *)
Theorem chained_feeds_error_text_back (question : Question) (st : State) :
  unreachable env →
  (∃ r st',
      Chained.process_question env args question st = (Py.Ok r, st')
      ∧ Chained.responses r
        = JStr (q_text question) :: replicate 5 (JStr connect_error_text)
      ∧ requests st'
        = requests st ++ asked args (JStr (q_text question))
                         :: replicate 4 (asked args (JStr connect_error_text)))
  ∧ (∀ results st',
      Chained.run_iterations env args st = (Py.Ok results, st') →
      Forall (λ r, Chained.responses r
                   = JStr (Chained.question_text r)
                     :: replicate 5 (JStr connect_error_text)) results).
Proof.
  intros Hdown. split.
  - destruct (chained_process_question env args question st)
      as (r & completions & st1 & st' & Hrun & _ & _ & _ & Hresp & Hlen & Hchain
          & _ & Hreq & _).
    apply chain_unreachable in Hchain; [|done]. rewrite Hlen in Hchain.
    exists r, st'. split; [done|]. rewrite Hreq, Hresp, Hchain. done.
  - intros results st' Hrun.
    destruct (run_iterations_cases env args st)
      as [(e & _ & Hraise)|(entries & results' & st'' & _ & _ & Hret & Hall & _)];
      [congruence|].
    rewrite Hret in Hrun. injection Hrun as -> ->.
    apply iterated_chain in Hall. eapply Forall_impl; [exact Hall|].
    intros r (completions & s1 & s2 & Hresp & Hlen & Hchain). simpl.
    apply chain_unreachable in Hchain; [|done]. by rewrite Hresp, Hchain, Hlen.
Qed.
End Unreachable.

Lemma chained_feeds_error_text_back_witness :
  ∃ r st',
    Chained.process_question unreachable_env default_args
      {| q_id := "a"; q_text := "2+2=?"; q_file := "a.txt" |} two_questions = (Py.Ok r, st')
    ∧ Chained.responses r = JStr "2+2=?" :: replicate 5 (JStr connect_error_text)
    ∧ requests st'
      = requests two_questions ++ asked default_args (JStr "2+2=?")
                                  :: replicate 4 (asked default_args (JStr connect_error_text)).
Proof.
  apply (chained_feeds_error_text_back unreachable_env default_args
           {| q_id := "a"; q_text := "2+2=?"; q_file := "a.txt" |} two_questions).
  intros history r. exists refused. split; reflexivity.
Defined.

(** *** What a completion that is no error text tells *)

Section Answers.
Context (env : Env).

(** X13: what the client returns, unless it is a string that starts with
    [Error: ], comes from an answer with status 200 whose body was decoded:
    it is the [response] field of the body as it is, or the empty string
    when the body has no such field. *)
Theorem query_ollama_answer model prompt system_prompt temperature max_tokens st s st' :
  query_ollama env model prompt system_prompt temperature max_tokens st = (Py.Ok s, st') →
  is_error_value s = false →
  ∃ response,
    post env (requests st)
      (generate_request model prompt system_prompt temperature max_tokens)
    = HttpReturns response
    ∧ status_code response = 200
    ∧ (json_response response = Py.Ok (Some s)
       ∨ (json_response response = Py.Ok None ∧ s = JStr "")).
Proof.
  unfold query_ollama, requests_post, generate_request. unfold_M.
  destruct (post env _ _) as [e|response]; simpl.
  - destruct (Py.is_connection_error e); intros [= <- _]; [done|].
    simpl. by rewrite error_prefix.
  - case_bool_decide as Hstatus; simpl.
    + destruct (json_response response) as [[answer|]|e] eqn:Hjson; simpl.
      * intros [= <- _] _. exists response. split; [done|]. split; [done|]. by left.
      * intros [= <- _] _. exists response. split; [done|]. split; [done|]. by right.
      * destruct (Py.is_connection_error e); intros [= <- _]; [done|].
        simpl. by rewrite error_prefix.
    + intros [= <- _] Herr. exfalso. revert Herr.
      change (is_error_string
                ("Error: " +:+ ("Received status code " +:+ pretty (status_code response)
                                +:+ ": " +:+ text response)) = false → False).
      by rewrite error_prefix.
Qed.
End Answers.

Lemma query_ollama_answer_witness :
  ∃ response,
    post echo_env [] (generate_request "llama3.2" (JStr "abc") "" (7 # 10) 1000)
    = HttpReturns response
    ∧ status_code response = 200
    ∧ (json_response response = Py.Ok (Some (JStr "cba"))
       ∨ (json_response response = Py.Ok None ∧ JStr "cba" = JStr "")).
Proof.
  apply (query_ollama_answer echo_env "llama3.2" (JStr "abc") "" (7 # 10) 1000
           (world ∅) (JStr "cba")
           (sent (generate_request "llama3.2" (JStr "abc") "" (7 # 10) 1000) (world ∅))).
  - reflexivity.
  - reflexivity.
Defined.

(** *** How every run ends *)

Section Endings.
Context (env : Env) (args : Args.t).

Local Abbreviation questions_dir := (Args.questions_dir args).





(** X15: what a run of either script writes is nothing at all, when the
    loader raised, or else the files of the records, one write per record,
    followed by one write of [all_results.json], whose content is the list
    of exactly the contents of those record files, in the order in which
    they were written; or, in the single-shot script with an endpoint that
    does not keep to its interface, the files of the records up to one
    whose response could not be printed, and no aggregate. *)
Theorem aggregate_holds_the_records (st : State) :
  (∃ files,
      written (final (SingleShot.main env args st)) = written st ++ files
      ∧ (files = []
         ∨ (∃ records, records ≠ []
              ∧ files = records ++ [(all_results_file args, JList records.*2)])
         ∨ (¬ text_endpoint env
            ∧ ∃ results r e,
                files = single_shot_records args results
                ∧ last results = Some r
                ∧ shown r = Py.Raise e)))
  ∧ (∃ files,
      written (final (Chained.main env args st)) = written st ++ files
      ∧ (files = []
         ∨ ∃ records, records ≠ []
             ∧ files = records ++ [(all_results_file args, JList records.*2)])).
Proof.
  split.
  - destruct (run_test_cases env args (checked st))
      as [(e & He & Hraise)
         |(entries & results & st' & _ & Hpos & Hall & _
           & [(Hret & Hlen & Hwr)|(e & r & Hlast & Hshown & Hraise & Hwr)])].
    + destruct (single_shot_main_raises env args st _ _ Hraise) as [_ Hmain].
      exists []. rewrite Hmain. simpl.
      destruct (prepared_checked args st) as [_ ->]. rewrite app_nil_r. by split; [|left].
    + assert (results ≠ []) as Hsome.
      { intros ->. rewrite questions_in_length in Hlen. simpl in Hlen. lia. }
      destruct (single_shot_main_returns env args st results st' Hret Hsome)
        as (avg & _ & _ & Hmain).
      exists (single_shot_files args results). rewrite Hmain. simpl.
      split; [done|]. right. left. exists (single_shot_records args results).
      split; [by destruct results|].
      unfold single_shot_files, single_shot_records.
      by rewrite <- list_fmap_compose.
    + destruct (single_shot_main_raises env args st _ _ Hraise) as [_ Hmain].
      exists (single_shot_records args results). rewrite Hmain. simpl.
      split; [done|]. right. right. split; [|by exists results, r, e].
      intros Htext. apply last_Some in Hlast as [done ->].
      apply Forall2_app_inv_r in Hall as (qs1 & qs2 & _ & Hr & _).
      apply Forall2_cons_inv_r in Hr as (q & qs & Hr & _ & _).
      rewrite (answered_shown env args q r Htext Hr) in Hshown. done.
  - destruct (run_iterations_cases env args st)
      as [(e & He & Hraise)|(entries & results & st' & _ & Hpos & Hret & Hall & Hwr)].
    + destruct (chained_main_raises env args st _ Hraise) as [_ Hmain].
      exists []. rewrite Hmain. simpl.
      destruct (prepared_unchanged args st) as (_ & _ & ->). rewrite app_nil_r.
      by split; [|left].
    + destruct (iterated_some env args entries results Hpos Hall) as [_ Hsome].
      assert (final (Chained.main env args st) = st') as ->.
      { destruct (Chained.average_time results) as [avg|e] eqn:Havg.
        - by destruct (chained_main_mean env args st results st' avg Hret Havg)
            as [_ ->].
        - by destruct (chained_main_returns env args st results st' e Hret Havg)
            as [_ ->]. }
      exists (chained_files args results).
      split; [done|]. right. exists (chained_records args results).
      split; [by destruct results|].
      unfold chained_files, chained_records.
      by rewrite <- list_fmap_compose.
Qed.
End Endings.

(** *** The availability check *)

Section Availability.
Context (env : Env).

Lemma existsb_is_str (model_name : string) (models : list json) :
  existsb (is_str model_name) models = true ↔ JStr model_name ∈ models.
Proof.
  induction models as [|v models IH]; simpl.
  - split; [done|]. by intros ?%elem_of_nil.
  - rewrite orb_true_iff, IH, elem_of_cons. split; intros [Hv|Hin]; auto.
    + left. destruct v; try done. simpl in Hv.
      by apply bool_decide_eq_true in Hv as ->.
    + left. subst v. simpl. by apply bool_decide_eq_true_2.
Qed.

Lemma join_strings (models : list json) : ∀ i,
  (∃ joined, join_from i models = Py.Ok joined)
  ↔ Forall (λ v, ∃ s, v = JStr s) models.
Proof.
  induction models as [|v models IH]; intros i; simpl.
  - split; [constructor|eauto].
  - rewrite Forall_cons, <- (IH (S i)). destruct v; simpl;
      try (split; [by intros [? [=]]|by intros [[? [=]] _]]).
    destruct (join_from (S i) models) as [rest|e]; split.
    + intros _. eauto.
    + eauto.
    + by intros [? [=]].
    + by intros [_ [? [=]]].
Qed.

(** X16: [check_model_availability] never raises and sends one request, a
    GET of the model list with a timeout of 10 seconds.  It answers [False]
    in one case only: the endpoint answered with status 200, the names of
    the models were decoded, all of them are strings and the model is not
    among them.  In every other case, an endpoint that cannot be reached
    and a name that is no string included, it answers [True]. *)
Theorem check_model_availability_spec (model_name : string) (st : State) :
  ∃ b,
    SingleShot.check_model_availability env model_name st
    = (Py.Ok b, sent (Get SingleShot.tags_url 10) st)
    ∧ (b = false ↔
       ∃ response models,
         get env (requests st) (Get SingleShot.tags_url 10) = HttpReturns response
         ∧ tags_status_code response = 200
         ∧ tags_models response = Py.Ok models
         ∧ (JStr model_name ∉ models)
         ∧ Forall (λ v, ∃ s, v = JStr s) models).
Proof.
  unfold SingleShot.check_model_availability, requests_get. unfold_M.
  destruct (get env _ _) as [e|response] eqn:Hget; simpl.
  - exists true. split; [done|]. split; [done|]. by intros (? & ? & [=] & _).
  - case_bool_decide as Hstatus; simpl.
    + destruct (tags_models response) as [models|e] eqn:Hmodels; simpl.
      * destruct (existsb (is_str model_name) models) eqn:Hin.
        -- exists true. split; [done|]. split; [done|].
           intros (? & ? & [= <-] & _ & Hsame & Hout & _).
           apply existsb_is_str in Hin. congruence.
        -- unfold join. destruct (join_from 0 models) as [joined|e] eqn:Hjoin; simpl.
           ++ exists false. split; [done|]. split; [|done]. intros _.
              exists response, models. repeat split; try done.
              ** intros Hyes%existsb_is_str. congruence.
              ** apply (join_strings models 0). eauto.
           ++ exists true. split; [done|]. split; [done|].
              intros (response' & models' & [= <-] & _ & Hsame & _ & Hall).
              assert (models = models') as <- by congruence.
              apply (join_strings models 0) in Hall as [joined Hjoined]. congruence.
      * exists true. split; [done|]. split; [done|].
        intros (? & ? & [= <-] & _ & Hsame & _). congruence.
    + exists true. split; [done|]. split; [done|].
      intros (? & ? & [= <-] & Hok & _). done.
Qed.
End Availability.

(** X17: the availability check is advisory.  Whatever the model list
    endpoint answers, the model being absent included, the single-shot script
    goes on and ends as it would have otherwise: two surroundings that differ
    in that endpoint only give the same outcome. *)
Theorem availability_check_is_advisory (env env' : Env) (args : Args.t) (st : State) :
  post env = post env' →
  clock env = clock env' →
  SingleShot.main env args st = SingleShot.main env' args st.
Proof.
  destruct env as [p g c], env' as [p' g' c']. simpl. intros <- <-.
  unfold SingleShot.main, run_script, SingleShot.main_body, SingleShot.main_try.
  unfold_M.
  destruct (check_model_availability_returns {| post := p; get := g; clock := c |}
              (Args.model args) st) as [b ->].
  destruct (check_model_availability_returns {| post := p; get := g'; clock := c |}
              (Args.model args) st) as [b' ->].
  reflexivity.
Qed.

Lemma availability_check_is_advisory_witness :
  SingleShot.main echo_env default_args two_questions
  = SingleShot.main no_models_env default_args two_questions.
Proof.
  apply (availability_check_is_advisory echo_env no_models_env default_args two_questions).
  - reflexivity.
  - reflexivity.
Defined.

(** *** What a record says of its request *)

Section Provenance.
Context (env : Env) (args : Args.t).

Lemma asked_payload prompt :
  ∃ payload,
    asked args prompt = Post generate_url payload 120
    ∧ payload !! "model" = Some (JStr (Args.model args))
    ∧ payload !! "prompt" = Some prompt
    ∧ payload !! "temperature" = Some (JFloat (Args.temperature args))
    ∧ payload !! "max_tokens" = Some (JInt (Args.max_tokens args))
    ∧ payload !! "stream" = Some (JBool false)
    ∧ payload !! "system" = JStr <$> or_none (Args.system_prompt args).
Proof.
  eexists. split; [reflexivity|]. unfold build_payload, or_none.
  destruct (decide (Args.system_prompt args = "")) as [Hempty|Hsome].
  - rewrite (bool_decide_eq_false_2 (Args.system_prompt args ≠ ""))
      by (intros Hne; by apply Hne).
    rewrite (bool_decide_eq_true_2 (Args.system_prompt args = "")) by done.
    by repeat split.
  - rewrite (bool_decide_eq_true_2 (Args.system_prompt args ≠ "")) by done.
    rewrite (bool_decide_eq_false_2 (Args.system_prompt args = "")) by done.
    by repeat split.
Qed.

(** The loop body of [run_test], with the fields of the record. *)
Lemma single_shot_process_question_fields (question : Question) (st : State) :
  ∃ r st',
    SingleShot.process_question env args question st = (shown r, st')
    ∧ answered env args question r
    ∧ SingleShot.question_id r = q_id question
    ∧ SingleShot.question_text r = q_text question
    ∧ SingleShot.model r = Args.model args
    ∧ SingleShot.temperature r = Args.temperature args
    ∧ SingleShot.max_tokens r = Args.max_tokens args
    ∧ SingleShot.system_prompt r = or_none (Args.system_prompt args)
    ∧ requests st' = requests st ++ [asked args (JStr (q_text question))]
    ∧ written st' = written st ++ [(result_file args (q_id question), SingleShot.to_json r)].
Proof.
  unfold SingleShot.process_question, time_time, write_json. unfold_M.
  match goal with
  | |- context [query_ollama env ?m ?p ?sp ?t ?mt ?s] =>
      destruct (query_ollama_returns env m p sp t mt s) as [answer Hanswer]
  end.
  rewrite Hanswer. unfold shown. simpl.
  exists {| SingleShot.question_id := q_id question;
            SingleShot.question_text := q_text question;
            SingleShot.response := answer;
            SingleShot.processing_time_seconds :=
              round2 (clock env (S (ticks st)) - clock env (ticks st));
            SingleShot.model := Args.model args;
            SingleShot.temperature := Args.temperature args;
            SingleShot.max_tokens := Args.max_tokens args;
            SingleShot.system_prompt := or_none (Args.system_prompt args) |}.
  eexists. split.
  { simpl. destruct (SingleShot.preview answer); reflexivity. }
  split; [|by simpl]. unfold answered. simpl. repeat split; eauto.
Qed.

(** X18: a record tells the truth about the request it comes from.  The
    loop body of the single-shot runner sends one request, with a timeout
    of 120 seconds and streaming off, whose model, prompt, temperature and
    token limit are the record's [model], [question_text], [temperature]
    and [max_tokens], and whose [system] field is the record's
    [system_prompt], being absent exactly when that is null; it writes the
    record, and returns it unless the endpoint does not keep to its
    interface and the response cannot be printed.  Each of the five
    requests of the chained loop body carries the record's settings in the
    same way. *)
Theorem record_matches_request (question : Question) (st : State) :
  (∃ r st' payload,
      SingleShot.process_question env args question st = (shown r, st')
      ∧ (SingleShot.process_question env args question st = (Py.Ok r, st')
         ∨ ¬ text_endpoint env)
      ∧ written st'
        = written st ++ [(result_file args (SingleShot.question_id r),
                          SingleShot.to_json r)]
      ∧ requests st' = requests st ++ [Post generate_url payload 120]
      ∧ payload !! "model" = Some (JStr (SingleShot.model r))
      ∧ payload !! "prompt" = Some (JStr (SingleShot.question_text r))
      ∧ payload !! "temperature" = Some (JFloat (SingleShot.temperature r))
      ∧ payload !! "max_tokens" = Some (JInt (SingleShot.max_tokens r))
      ∧ payload !! "stream" = Some (JBool false)
      ∧ payload !! "system" = JStr <$> SingleShot.system_prompt r)
  ∧ (∃ r st' sent_requests,
      Chained.process_question env args question st = (Py.Ok r, st')
      ∧ requests st' = requests st ++ sent_requests
      ∧ length sent_requests = 5
      ∧ ∀ request, request ∈ sent_requests →
          ∃ payload,
            request = Post generate_url payload 120
            ∧ payload !! "model" = Some (JStr (Chained.model r))
            ∧ payload !! "temperature" = Some (JFloat (Chained.temperature r))
            ∧ payload !! "max_tokens" = Some (JInt (Chained.max_tokens r))
            ∧ payload !! "stream" = Some (JBool false)
            ∧ payload !! "system" = JStr <$> Chained.system_prompt r).
Proof.
  split.
  - destruct (asked_payload (JStr (q_text question)))
      as (payload & Hasked & Hmodel & Hprompt & Htemp & Hmax & Hstream & Hsystem).
    destruct (single_shot_process_question_fields question st)
      as (r & st' & Hrun & Hr & Hid & Htext & Hmodel' & Htemp' & Hmax' & Hsys
          & Hreq & Hwr).
    exists r, st', payload. split; [done|]. split.
    { destruct (shown r) as [r'|e] eqn:Hshown.
      - left. by apply shown_returns in Hshown as ->.
      - right. intros Hkeeps.
        by rewrite (answered_shown env args question r Hkeeps Hr) in Hshown. }
    split; [by rewrite Hid|]. split; [by rewrite Hreq, Hasked|].
    by rewrite Htext, Hsys, Hmodel', Htemp', Hmax'.
  - destruct (iterate_chain env args 5 (JStr (q_text question)) [JStr (q_text question)] st)
      as (completions & st1 & Hrun & Hlen & _ & Hreq & _).
    unfold Chained.process_question, write_json. unfold_M. rewrite Hrun. simpl.
    eexists _, _, _. split; [reflexivity|]. simpl. split; [exact Hreq|]. split.
    + rewrite length_fmap, length_take. cbn [length]. rewrite Hlen. lia.
    + intros request (prompt & -> & _)%list_elem_of_fmap.
      destruct (asked_payload prompt)
        as (payload & Hasked & Hmodel & _ & Htemp & Hmax & Hstream & Hsystem).
      by exists payload.
Qed.
End Provenance.

(** *** The recursion of [os.makedirs] *)

Section Makedirs.
Import Py.

Lemma length_rev_str s : String.length (String.rev s) = String.length s.
Proof.
  induction s as [|a s IH]; [done|]. rewrite rev_cons, length_app_str, IH. simpl. lia.
Qed.

Lemma length_lstrip_slashes s : String.length (lstrip_slashes s) ≤ String.length s.
Proof. induction s as [|a s IH]; simpl; [done|]. case_bool_decide; simpl; lia. Qed.

Lemma length_rstrip_slashes s : String.length (rstrip_slashes s) ≤ String.length s.
Proof.
  unfold rstrip_slashes. rewrite length_rev_str.
  etrans; [apply length_lstrip_slashes|]. by rewrite length_rev_str.
Qed.

(** The two parts of a path are not longer than the path. *)
Lemma path_split_length p :
  String.length (path_split p).1 + String.length (path_split p).2 ≤ String.length p.
Proof.
  unfold path_split. simpl.
  set (i := Z.to_nat (rfind "/" p + 1)).
  assert (String.length (take i p) + String.length (drop i p) = String.length p)
    as Hparts by (by rewrite <- length_app_str, take_drop).
  destruct (negb (bool_decide (take i p = "")) && negb (all_slashes (take i p)));
    [|lia].
  pose proof (length_rstrip_slashes (take i p)). lia.
Qed.

Lemma makedirs_split_shorter name head tail :
  makedirs_split name = (head, tail) → tail ≠ "" →
  String.length head < String.length name.
Proof.
  unfold makedirs_split. pose proof (path_split_length name) as Hname.
  destruct (path_split name) as [head1 tail1]. simpl in Hname.
  case_bool_decide as Htail.
  - pose proof (path_split_length head1) as Hhead.
    intros Hsplit Hne. rewrite Hsplit in Hhead. simpl in Hhead.
    destruct tail; [done|]. simpl in Hhead. lia.
  - intros [= <- <-] _. destruct tail1; [done|]. simpl in Hname. lia.
Qed.

(** The fuel that [os_makedirs] gives is enough: more changes nothing. *)
Lemma makedirs_fuel n : ∀ name fuel directories,
  String.length name ≤ n → String.length name ≤ fuel →
  makedirs fuel name directories = makedirs (String.length name) name directories.
Proof.
  induction n as [|n IH]; intros name fuel directories Hn Hfuel.
  - destruct name; [|simpl in Hn; lia]. by destruct fuel.
  - destruct fuel as [|fuel], (String.length name) as [|len] eqn:Hlen;
      [done|lia| |]; cbn [makedirs];
      destruct (makedirs_split name) as [head tail] eqn:Hsplit.
    + destruct name; [|done]. by injection Hsplit as <- <-.
    + destruct (negb (bool_decide (head = "")) && negb (bool_decide (tail = ""))
                && negb (bool_decide (is_Some (directories !! head)))) eqn:Hmake;
        [|done].
      assert (tail ≠ "") as Htail.
      { intros ->. rewrite (bool_decide_eq_true_2 ("" = "")) in Hmake by done.
        by rewrite andb_false_r in Hmake. }
      pose proof (makedirs_split_shorter name head tail Hsplit Htail) as Hshort.
      rewrite (IH head fuel), (IH head len) by lia. done.
Qed.
End Makedirs.

(** *** The output directory *)

Section OutputDirectory.
Context (env : Env) (args : Args.t).

Local Abbreviation questions_dir := (Args.questions_dir args).




End OutputDirectory.

(** *** One file per identifier *)

Lemma app_inv_head_str (a b1 b2 : string) : a +:+ b1 = a +:+ b2 → b1 = b2.
Proof.
  induction a as [|x a IH]; [done|]. rewrite !app_cons. intros [= Heq]. by apply IH.
Qed.

Lemma app_inv_tail_str (t : string) : ∀ s1 s2, s1 +:+ t = s2 +:+ t → s1 = s2.
Proof.
  assert (∀ s1 s2, String.length s1 = String.length s2 → s1 +:+ t = s2 +:+ t → s1 = s2)
    as Hsame.
  { induction s1 as [|x s1 IH]; intros [|y s2]; try done.
    simpl. intros [= Hlen]. rewrite !app_cons. intros [= -> Heq]. f_equal. by apply IH. }
  intros s1 s2 Heq. apply Hsame; [|done].
  apply (f_equal String.length) in Heq. rewrite !length_app_str in Heq. lia.
Qed.

Lemma startswith_slash (s t : string) :
  without "/" s = true → Py.startswith (s +:+ "_" +:+ t) "/" = false.
Proof.
  destruct s as [|a s]; [done|]. intros Hs. cbn [without] in Hs.
  apply andb_true_iff in Hs as [Ha _].
  apply negb_true_iff, bool_decide_eq_false in Ha.
  rewrite (app_cons a s), startswith_char. by apply bool_decide_eq_false_2.
Qed.

(** X20: the record files of two identifiers without a slash are the same
    file only if the identifiers are the same: records of different
    questions overwrite each other in the output directory exactly when their
    identifiers collide. *)
Theorem record_files_are_distinct (args : Args.t) (id1 id2 : string) :
  without "/" id1 = true →
  without "/" id2 = true →
  result_file args id1 = result_file args id2 ↔ id1 = id2.
Proof.
  intros Hid1 Hid2. split; [|by intros ->].
  unfold result_file, Py.path_join.
  change "_result.json" with ("_" +:+ "result.json").
  rewrite !startswith_slash by done.
  destruct (bool_decide (Args.output_dir args = "") || Py.endswith (Args.output_dir args) "/");
    cbv iota.
  - intros Heq%app_inv_head_str. by apply app_inv_tail_str in Heq.
  - intros Heq%app_inv_head_str%app_inv_head_str. by apply app_inv_tail_str in Heq.
Qed.

Lemma record_files_are_distinct_witness :
  result_file default_args "a" = result_file default_args "b" ↔ "a" = "b".
Proof. apply (record_files_are_distinct default_args "a" "b"); reflexivity. Defined.
